(** * Figma API Playground: the request builder of [frontend/src/App.js]

    A shallow embedding of the client's request logic: the header parser
    [parseHeaders], the guards and the outbound call of [executeRequest],
    [toggleFavorite], [clearHistory] and the two loaders, the other handlers
    ([saveToken], the mount effect, [saveRequest], [loadRequest],
    [deleteRequest], [loadExample]) and the catalog [FIGMA_ENDPOINTS],
    together with the JavaScript primitives they rest on ([JSON.parse],
    [JSON.stringify], [split], [trim], truthiness, object spread).

    A string is the sequence of its UTF-16 code units.  A code unit is kept
    as the characters UTF-8 gives its number: one [ascii] below 128, two
    below 2048, three from there on (a surrogate stands on its own, in
    three).  Every JavaScript string has exactly one image, and a literal
    of this file in plain ASCII is the text it shows. *)

From Stdlib Require Import ZArith Ascii String List Lia Bool.
From stdpp Require Import base option gmap strings list fin_maps pretty.

Local Open Scope string_scope.
Local Open Scope list_scope.
Local Open Scope Z_scope.

(** ** JavaScript values *)

(** The values [JSON.parse] can produce.  A number is kept as the decimal
    [m * 10^e] its literal denotes; an object as the finite map of its own
    properties. *)
#[warnings="-register-all"]
Inductive json : Type :=
| JNull
| JBool (b : bool)
| JNum (m e : Z)
| JStr (s : string)
| JArr (l : list json)
| JObj (o : gmap string json).

(** A value that may be [undefined] is an [option json], [None] standing for
    [undefined]. *)

(** A decimal [m * 10^e] converts to the double [0] when [m] is zero or when
    it lies at or below half the least subnormal, [2^-1075]. *)
Definition rounds_to_zero (m e : Z) : bool :=
  if 0 <=? e then m =? 0
  else Z.abs m * 2 ^ 1075 <=? 10 ^ (- e).

Definition str_truthy (s : string) : bool :=
  match s with EmptyString => false | String _ _ => true end.

(** ToBoolean. *)
Definition truthy (v : json) : bool :=
  match v with
  | JNull => false
  | JBool b => b
  | JNum m e => negb (rounds_to_zero m e)
  | JStr s => str_truthy s
  | JArr _ | JObj _ => true
  end.

Definition truthy_opt (v : option json) : bool :=
  match v with Some x => truthy x | None => false end.

(** [a || b] *)
Definition js_or (a : option json) (b : json) : json :=
  match a with
  | Some x => if truthy x then x else b
  | None => b
  end.

(** [v?.name] on a value that came out of JSON: only an object has own
    properties reachable by a name such as [detail]. *)
Definition get_prop (v : option json) (name : string) : option json :=
  match v with
  | Some (JObj o) => o !! name
  | _ => None
  end.

(** ** String primitives *)

(** The characters that stand for the code unit [n]. *)
Definition code_unit (n : Z) : string :=
  let chr (k : Z) := ascii_of_N (Z.to_N k) in
  if n <? 128 then String (chr n) EmptyString
  else if n <? 2048 then
    String (chr (192 + n / 64)) (String (chr (128 + n mod 64)) EmptyString)
  else
    String (chr (224 + n / 4096))
      (String (chr (128 + (n / 64) mod 64))
         (String (chr (128 + n mod 64)) EmptyString)).

(** [s.split(c)] for a one-character separator. *)
Fixpoint split (c : ascii) (s : string) : list string :=
  match s with
  | EmptyString => [EmptyString]
  | String a r =>
      if Ascii.eqb a c then EmptyString :: split c r
      else match split c r with
           | h :: t => String a h :: t
           | [] => [String a EmptyString]
           end
  end.

(** The code units removed by [trim], WhiteSpace and LineTerminator: TAB,
    LF, VT, FF, CR, SP, NBSP, U+1680, U+2000 to U+200A, LS, PS, U+202F,
    U+205F, U+3000 and U+FEFF. *)
Definition white_space : list string :=
  map code_unit
    [9; 10; 11; 12; 13; 32; 160; 5760;
     8192; 8193; 8194; 8195; 8196; 8197; 8198; 8199; 8200; 8201; 8202;
     8232; 8233; 8239; 8287; 12288; 65279].

(** [strip ws k s]: [s] without the code units of [ws] it starts with; [k]
    counts the characters still to drop of the code unit being removed. *)
Fixpoint strip (ws : list string) (k : nat) (s : string) : string :=
  match s with
  | EmptyString => EmptyString
  | String _ r =>
      match k with
      | S k' => strip ws k' r
      | O =>
          match List.find (fun w => String.prefix w s) ws with
          | Some w => strip ws (Nat.pred (String.length w)) r
          | None => s
          end
      end
  end.

Definition trimStart (s : string) : string := strip white_space 0 s.

Definition rev_string (s : string) : string :=
  string_of_list_ascii (rev (list_ascii_of_string s)).

(** The code units of a string end where those of its mirror image start. *)
Definition trimEnd (s : string) : string :=
  rev_string (strip (map rev_string white_space) 0 (rev_string s)).

Definition trim (s : string) : string := trimEnd (trimStart s).

(** [hay.includes(needle)] *)
Fixpoint includes (needle hay : string) : bool :=
  String.prefix needle hay ||
  match hay with
  | EmptyString => false
  | String _ r => includes needle r
  end.

(** ** JSON.parse *)

Module JSON.

Definition is_ws (a : ascii) : bool :=
  let n := N_of_ascii a in
  (n =? 32)%N || (n =? 9)%N || (n =? 10)%N || (n =? 13)%N.

Fixpoint skip_ws (l : list ascii) : list ascii :=
  match l with
  | a :: r => if is_ws a then skip_ws r else l
  | [] => []
  end.

(** The double quote, code unit 34. *)
Definition dquote : ascii := "034"%char.

Definition digit (a : ascii) : option Z :=
  let n := Z.of_N (N_of_ascii a) in
  if (48 <=? n) && (n <=? 57) then Some (n - 48) else None.

Definition hex (a : ascii) : option Z :=
  let n := Z.of_N (N_of_ascii a) in
  if (48 <=? n) && (n <=? 57) then Some (n - 48)
  else if (65 <=? n) && (n <=? 70) then Some (n - 55)
  else if (97 <=? n) && (n <=? 102) then Some (n - 87)
  else None.

(** Reads a run of decimal digits: the value accumulated on [acc], the
    number of digits read, and the rest of the input. *)
Fixpoint digits (acc cnt : Z) (l : list ascii) : Z * Z * list ascii :=
  match l with
  | a :: r =>
      match digit a with
      | Some d => digits (10 * acc + d) (cnt + 1) r
      | None => (acc, cnt, l)
      end
  | [] => (acc, cnt, [])
  end.

Definition exponent (m e : Z) (l : list ascii) : option (json * list ascii) :=
  let signed (sgn : Z) (r : list ascii) :=
    let '(x, n, r') := digits 0 0 r in
    if n =? 0 then None else Some (JNum m (e + sgn * x), r') in
  match l with
  | a :: r =>
      if Ascii.eqb a "e" || Ascii.eqb a "E" then
        match r with
        | s :: r' =>
            if Ascii.eqb s "+" then signed 1 r'
            else if Ascii.eqb s "-" then signed (-1) r'
            else signed 1 r
        | [] => None
        end
      else Some (JNum m e, l)
  | [] => Some (JNum m e, l)
  end.

Definition fraction (sgn i : Z) (l : list ascii) : option (json * list ascii) :=
  match l with
  | a :: r =>
      if Ascii.eqb a "." then
        let '(v, n, r') := digits i 0 r in
        if n =? 0 then None else exponent (sgn * v) (- n) r'
      else exponent (sgn * i) 0 l
  | [] => exponent (sgn * i) 0 l
  end.

Definition number (l : list ascii) : option (json * list ascii) :=
  let unsigned (sgn : Z) (l : list ascii) :=
    match l with
    | a :: r =>
        match digit a with
        | Some 0 => fraction sgn 0 r
        | Some d => let '(v, _, r') := digits d 0 r in fraction sgn v r'
        | None => None
        end
    | [] => None
    end in
  match l with
  | a :: r => if Ascii.eqb a "-" then unsigned (-1) r else unsigned 1 l
  | [] => None
  end.

(** The characters of a string literal after its opening quote. *)
Fixpoint string_body (l : list ascii) : option (string * list ascii) :=
  let cons (c : ascii) (k : option (string * list ascii)) :=
    match k with Some (s, r) => Some (String c s, r) | None => None end in
  let unit (n : Z) (k : option (string * list ascii)) :=
    match k with Some (s, r) => Some ((code_unit n ++ s)%string, r) | None => None end in
  match l with
  | [] => None
  | a :: r =>
      if Ascii.eqb a dquote then Some (EmptyString, r)
      else if Ascii.eqb a "\" then
        match r with
        | [] => None
        | c :: r1 =>
            if Ascii.eqb c dquote then cons dquote (string_body r1)
            else if Ascii.eqb c "\" then cons "\"%char (string_body r1)
            else if Ascii.eqb c "/" then cons "/"%char (string_body r1)
            else if Ascii.eqb c "b" then cons "008"%char (string_body r1)
            else if Ascii.eqb c "f" then cons "012"%char (string_body r1)
            else if Ascii.eqb c "n" then cons "010"%char (string_body r1)
            else if Ascii.eqb c "r" then cons "013"%char (string_body r1)
            else if Ascii.eqb c "t" then cons "009"%char (string_body r1)
            else if Ascii.eqb c "u" then
              match r1 with
              | h1 :: h2 :: h3 :: h4 :: r2 =>
                  match hex h1, hex h2, hex h3, hex h4 with
                  | Some w, Some x, Some y, Some z =>
                      unit (4096 * w + 256 * x + 16 * y + z) (string_body r2)
                  | _, _, _, _ => None
                  end
              | _ => None
              end
            else None
        end
      else if (N_of_ascii a <? 32)%N then None
      else cons a (string_body r)
  end.

Definition literal (name : string) (v : json) (l : list ascii)
  : option (json * list ascii) :=
  let n := list_ascii_of_string name in
  if decide (take (length n) l = n) then Some (v, drop (length n) l) else None.

Fixpoint value (fuel : nat) (l : list ascii) {struct fuel}
  : option (json * list ascii) :=
  match fuel with
  | O => None
  | S f =>
      match skip_ws l with
      | [] => None
      | a :: r =>
          if Ascii.eqb a "n" then literal "null" JNull (a :: r)
          else if Ascii.eqb a "t" then literal "true" (JBool true) (a :: r)
          else if Ascii.eqb a "f" then literal "false" (JBool false) (a :: r)
          else if Ascii.eqb a dquote then
            match string_body r with
            | Some (s, r') => Some (JStr s, r')
            | None => None
            end
          else if Ascii.eqb a "[" then
            match skip_ws r with
            | c :: r' =>
                if Ascii.eqb c "]" then Some (JArr [], r')
                else elements f [] (c :: r')
            | [] => None
            end
          else if Ascii.eqb a "{" then
            match skip_ws r with
            | c :: r' =>
                if Ascii.eqb c "}" then Some (JObj ∅, r')
                else members f ∅ (c :: r')
            | [] => None
            end
          else number (a :: r)
      end
  end
with elements (fuel : nat) (acc : list json) (l : list ascii) {struct fuel}
  : option (json * list ascii) :=
  match fuel with
  | O => None
  | S f =>
      match value f l with
      | Some (v, r) =>
          match skip_ws r with
          | c :: r' =>
              if Ascii.eqb c "," then elements f (acc ++ [v]) r'
              else if Ascii.eqb c "]" then Some (JArr (acc ++ [v]), r')
              else None
          | [] => None
          end
      | None => None
      end
  end
with members (fuel : nat) (acc : gmap string json) (l : list ascii) {struct fuel}
  : option (json * list ascii) :=
  match fuel with
  | O => None
  | S f =>
      match skip_ws l with
      | q :: r =>
          if Ascii.eqb q dquote then
            match string_body r with
            | Some (k, r1) =>
                match skip_ws r1 with
                | c :: r2 =>
                    if Ascii.eqb c ":" then
                      match value f r2 with
                      | Some (v, r3) =>
                          match skip_ws r3 with
                          | d :: r4 =>
                              if Ascii.eqb d "," then members f (<[k:=v]> acc) r4
                              else if Ascii.eqb d "}" then Some (JObj (<[k:=v]> acc), r4)
                              else None
                          | [] => None
                          end
                      | None => None
                      end
                    else None
                | [] => None
                end
            | None => None
            end
          else None
      | [] => None
      end
  end.

(** [JSON.parse(text)]: [None] stands for the [SyntaxError] it throws.
    Every recursive call follows at least one consumed character, so twice
    the length of the text bounds the depth of the recursion. *)
Definition parse (text : string) : option json :=
  let l := list_ascii_of_string text in
  match value (2 * length l + 2) l with
  | Some (v, r) =>
      match skip_ws r with
      | [] => Some v
      | _ :: _ => None
      end
  | None => None
  end.

End JSON.

(** ** The host: network, environment, engine *)

Inductive http_verb : Type := GET | POST | PUT | DELETE.

Record http_request : Type := {
  verb : http_verb;
  url : string;
  payload : option json
}.

(** What axios hands back: [res.status] and [res.data]. *)
Record http_response : Type := {
  status : Z;
  data : json
}.

(** A thrown error: [error.response] (present when the server answered with
    a status axios rejects) and [error.message]. *)
Record js_error : Type := {
  response : option http_response;
  message : string
}.

Inductive axios_result : Type :=
| Fulfilled (res : http_response)
| Rejected (error : js_error).

(** Everything the component takes from outside: the server behind axios
    with its state, the build-time [REACT_APP_BACKEND_URL], and the texts
    fixed by the JavaScript engine (the message of the [SyntaxError] thrown
    by [JSON.parse], that of the [TypeError] thrown for an object without a
    primitive value, and [Number::toString]). *)
Class Host : Type := {
  World : Type;
  axios : http_request -> World -> axios_result * World;
  BACKEND_URL : string;
  SyntaxError_message : string -> string;
  TypeError_message : string;
  Number_toString : Z -> Z -> string
}.

Fixpoint join (sep : string) (l : list string) : string :=
  match l with
  | [] => ""
  | [x] => x
  | x :: r => x ++ sep ++ join sep r
  end.

Inductive toast_kind : Type := success | error | info.

Inductive event : Type :=
| Toast (kind : toast_kind) (text : string)
| Request (req : http_request)
| Console (text : string).

(** The React state of [App]. *)
Record App : Type := {
  figmaToken : string;
  showTokenDialog : bool;
  method : string;
  endpoint : string;
  headers : string;
  body : string;
  response_ : json;
  loading : bool;
  savedRequests : json;
  history : json;
  activeTab : string;
  selectedCategory : string
}.

Definition initial : App := {|
  figmaToken := ""; showTokenDialog := false; method := "GET";
  endpoint := ""; headers := ""; body := ""; response_ := JNull;
  loading := false; savedRequests := JArr []; history := JArr [];
  activeTab := "builder"; selectedCategory := "Files"
|}.

Definition with_showTokenDialog (b : bool) (a : App) : App :=
  {| figmaToken := figmaToken a; showTokenDialog := b; method := method a;
     endpoint := endpoint a; headers := headers a; body := body a;
     response_ := response_ a; loading := loading a;
     savedRequests := savedRequests a; history := history a;
     activeTab := activeTab a; selectedCategory := selectedCategory a |}.

Definition with_response (v : json) (a : App) : App :=
  {| figmaToken := figmaToken a; showTokenDialog := showTokenDialog a;
     method := method a; endpoint := endpoint a; headers := headers a;
     body := body a; response_ := v; loading := loading a;
     savedRequests := savedRequests a; history := history a;
     activeTab := activeTab a; selectedCategory := selectedCategory a |}.

Definition with_loading (b : bool) (a : App) : App :=
  {| figmaToken := figmaToken a; showTokenDialog := showTokenDialog a;
     method := method a; endpoint := endpoint a; headers := headers a;
     body := body a; response_ := response_ a; loading := b;
     savedRequests := savedRequests a; history := history a;
     activeTab := activeTab a; selectedCategory := selectedCategory a |}.

Definition with_savedRequests (v : json) (a : App) : App :=
  {| figmaToken := figmaToken a; showTokenDialog := showTokenDialog a;
     method := method a; endpoint := endpoint a; headers := headers a;
     body := body a; response_ := response_ a; loading := loading a;
     savedRequests := v; history := history a;
     activeTab := activeTab a; selectedCategory := selectedCategory a |}.

Definition with_history (v : json) (a : App) : App :=
  {| figmaToken := figmaToken a; showTokenDialog := showTokenDialog a;
     method := method a; endpoint := endpoint a; headers := headers a;
     body := body a; response_ := response_ a; loading := loading a;
     savedRequests := savedRequests a; history := v;
     activeTab := activeTab a; selectedCategory := selectedCategory a |}.

(** The setters of the form fields. *)
Definition with_figmaToken (v : string) (a : App) : App :=
  {| figmaToken := v;
     showTokenDialog := showTokenDialog a;
     method := method a;
     endpoint := endpoint a;
     headers := headers a;
     body := body a;
     response_ := response_ a;
     loading := loading a;
     savedRequests := savedRequests a;
     history := history a;
     activeTab := activeTab a;
     selectedCategory := selectedCategory a |}.

Definition with_method (v : string) (a : App) : App :=
  {| figmaToken := figmaToken a;
     showTokenDialog := showTokenDialog a;
     method := v;
     endpoint := endpoint a;
     headers := headers a;
     body := body a;
     response_ := response_ a;
     loading := loading a;
     savedRequests := savedRequests a;
     history := history a;
     activeTab := activeTab a;
     selectedCategory := selectedCategory a |}.

Definition with_endpoint (v : string) (a : App) : App :=
  {| figmaToken := figmaToken a;
     showTokenDialog := showTokenDialog a;
     method := method a;
     endpoint := v;
     headers := headers a;
     body := body a;
     response_ := response_ a;
     loading := loading a;
     savedRequests := savedRequests a;
     history := history a;
     activeTab := activeTab a;
     selectedCategory := selectedCategory a |}.

Definition with_headers (v : string) (a : App) : App :=
  {| figmaToken := figmaToken a;
     showTokenDialog := showTokenDialog a;
     method := method a;
     endpoint := endpoint a;
     headers := v;
     body := body a;
     response_ := response_ a;
     loading := loading a;
     savedRequests := savedRequests a;
     history := history a;
     activeTab := activeTab a;
     selectedCategory := selectedCategory a |}.

Definition with_body (v : string) (a : App) : App :=
  {| figmaToken := figmaToken a;
     showTokenDialog := showTokenDialog a;
     method := method a;
     endpoint := endpoint a;
     headers := headers a;
     body := v;
     response_ := response_ a;
     loading := loading a;
     savedRequests := savedRequests a;
     history := history a;
     activeTab := activeTab a;
     selectedCategory := selectedCategory a |}.

Definition with_activeTab (v : string) (a : App) : App :=
  {| figmaToken := figmaToken a;
     showTokenDialog := showTokenDialog a;
     method := method a;
     endpoint := endpoint a;
     headers := headers a;
     body := body a;
     response_ := response_ a;
     loading := loading a;
     savedRequests := savedRequests a;
     history := history a;
     activeTab := v;
     selectedCategory := selectedCategory a |}.

(** ** The catalog of example endpoints *)

Record Example : Type := {
  ex_name : string;
  ex_endpoint : string;
  ex_method : string;
  ex_desc : string;
  ex_example : string
}.

Definition FIGMA_ENDPOINTS : list (string * list Example) :=
  [ ("Files",
     [ {| ex_name := "Get file"; ex_endpoint := "/files/:file_key";
          ex_method := "GET"; ex_desc := "Get a Figma file";
          ex_example := "/files/YOUR_FILE_KEY" |};
       {| ex_name := "Get page only"; ex_endpoint := "/files/:file_key";
          ex_method := "PAGE";
          ex_desc := "Get only first page (canvas) from file";
          ex_example := "/files/YOUR_FILE_KEY" |};
       {| ex_name := "Get file nodes"; ex_endpoint := "/files/:file_key/nodes";
          ex_method := "GET"; ex_desc := "Get specific nodes from a file";
          ex_example := "/files/YOUR_FILE_KEY/nodes?ids=1:2" |};
       {| ex_name := "Get images"; ex_endpoint := "/images/:file_key";
          ex_method := "GET"; ex_desc := "Render images from file nodes";
          ex_example := "/images/YOUR_FILE_KEY?ids=1:2&format=png" |};
       {| ex_name := "Get image fills"; ex_endpoint := "/files/:file_key/images";
          ex_method := "GET"; ex_desc := "Get download links for images";
          ex_example := "/files/YOUR_FILE_KEY/images" |} ]);
    ("Comments",
     [ {| ex_name := "Get comments"; ex_endpoint := "/files/:file_key/comments";
          ex_method := "GET"; ex_desc := "Get comments from a file";
          ex_example := "/files/YOUR_FILE_KEY/comments" |};
       {| ex_name := "Post comment"; ex_endpoint := "/files/:file_key/comments";
          ex_method := "POST"; ex_desc := "Post a new comment";
          ex_example := "/files/YOUR_FILE_KEY/comments" |} ]);
    ("Users",
     [ {| ex_name := "Get me"; ex_endpoint := "/me"; ex_method := "GET";
          ex_desc := "Get current user info"; ex_example := "/me" |} ]);
    ("Projects",
     [ {| ex_name := "Get team projects"; ex_endpoint := "/teams/:team_id/projects";
          ex_method := "GET"; ex_desc := "List projects for a team";
          ex_example := "/teams/YOUR_TEAM_ID/projects" |};
       {| ex_name := "Get project files";
          ex_endpoint := "/projects/:project_id/files"; ex_method := "GET";
          ex_desc := "List files in a project";
          ex_example := "/projects/YOUR_PROJECT_ID/files" |} ]);
    ("Webhooks",
     [ {| ex_name := "List webhooks"; ex_endpoint := "/webhooks/:team_id";
          ex_method := "GET"; ex_desc := "List webhooks for a team";
          ex_example := "/webhooks/YOUR_TEAM_ID" |};
       {| ex_name := "Create webhook"; ex_endpoint := "/webhooks";
          ex_method := "POST"; ex_desc := "Create a new webhook";
          ex_example := "/webhooks" |};
       {| ex_name := "Delete webhook"; ex_endpoint := "/webhooks/:webhook_id";
          ex_method := "DELETE"; ex_desc := "Delete a webhook";
          ex_example := "/webhooks/YOUR_WEBHOOK_ID" |} ]);
    ("Versions",
     [ {| ex_name := "Get file versions";
          ex_endpoint := "/files/:file_key/versions"; ex_method := "GET";
          ex_desc := "Get version history";
          ex_example := "/files/YOUR_FILE_KEY/versions" |} ]) ].

(** Every entry of the catalog, whatever its category. *)
Definition catalog : list Example := concat (map snd FIGMA_ENDPOINTS).

(** ** Header parsing (pure part of the component) *)

(** [obj[k] = v] for a string [v] on an object literal: the one inherited
    setter, [__proto__], ignores a value that is not an object. *)
Definition assign (k : string) (v : json) (o : gmap string json) : gmap string json :=
  if String.eqb k "__proto__" then o else <[k:=v]> o.

(** The body of the [forEach] callback of [parseHeaders]:
    [const [key, value] = line.split(':'); if (key && value) ...]. *)
Definition headerLine (headerObj : gmap string json) (line : string)
  : gmap string json :=
  let parts := split ":" line in
  let key := parts !! 0%nat in
  let value := parts !! 1%nat in
  match key, value with
  | Some k, Some v =>
      if str_truthy k && str_truthy v
      then assign (trim k) (JStr (trim v)) headerObj
      else headerObj
  | _, _ => headerObj
  end.

(** The [catch] branch of [parseHeaders]. *)
Definition headerLines (headers : string) : json :=
  JObj (fold_left headerLine (split "010" headers) ∅).

Definition parseHeaders (headers : string) : json :=
  if negb (str_truthy headers) then JObj ∅
  else match JSON.parse headers with
       | Some v => v
       | None => headerLines headers
       end.

(** Own enumerable properties copied by [...v] inside an object literal. *)
Definition index_keys {A : Type} (f : A -> json) (l : list A) : gmap string json :=
  list_to_map (imap (fun i x => (pretty i, f x)) l).

(** The code units of a string, each with its characters. *)
Fixpoint units (s : string) : list string :=
  match s with
  | EmptyString => []
  | String a r =>
      match r with
      | String b r2 =>
          if (N_of_ascii a <? 192)%N then String a EmptyString :: units r
          else if (N_of_ascii a <? 224)%N then
            String a (String b EmptyString) :: units r2
          else
            match r2 with
            | String c r3 => String a (String b (String c EmptyString)) :: units r3
            | EmptyString => [s]
            end
      | EmptyString => [s]
      end
  end.

Definition spread (v : json) : gmap string json :=
  match v with
  | JObj o => o
  | JArr l => index_keys id l
  | JStr s => index_keys JStr (units s)
  | JNull | JBool _ | JNum _ _ => ∅
  end.

(** The two fixed properties of the object literal at lines 116-120. *)
Definition fixedHeaders (figmaToken : string) : gmap string json :=
  <["Content-Type" := JStr "application/json"]>
    (<["X-Figma-Token" := JStr figmaToken]> ∅).

(** The object literal at lines 116-120.  A property written later in the
    literal replaces an earlier one of the same name; the spread comes last,
    so it is the left, prevailing operand of the union. *)
Definition requestHeaders (figmaToken headers : string) : gmap string json :=
  spread (parseHeaders headers) ∪ fixedHeaders figmaToken.

(** [s] between double quotes, for writing JSON text. *)
Definition quoted (s : string) : string :=
  String JSON.dquote (s ++ String JSON.dquote EmptyString).

(** ** JSON.stringify *)

(** A decimal [m * 10^e] converts to an infinity when it reaches the midpoint
    between the largest double and [2^1024]; [JSON.stringify] writes a
    number that is not finite as [null]. *)
Definition overflows (m e : Z) : bool :=
  if 0 <=? e then 2 ^ 1024 - 2 ^ 970 <=? Z.abs m * 10 ^ e
  else (2 ^ 1024 - 2 ^ 970) * 10 ^ (- e) <=? Z.abs m.

Definition hex_digit (n : N) : ascii :=
  ascii_of_N (if (n <? 10)%N then 48 + n else 87 + n).

(** What QuoteJSONString writes for a character outside a lone surrogate:
    the two-character escapes, [\u00xx] for the other control characters,
    and the character itself otherwise. *)
Definition escape (a : ascii) : string :=
  let n := N_of_ascii a in
  if (n =? 8)%N then "\b"
  else if (n =? 9)%N then "\t"
  else if (n =? 10)%N then "\n"
  else if (n =? 12)%N then "\f"
  else if (n =? 13)%N then "\r"
  else if (n =? 34)%N then String "\" (String JSON.dquote EmptyString)
  else if (n =? 92)%N then "\\"
  else if (n <? 32)%N then
    "\u00" ++ String (hex_digit (n / 16)) (String (hex_digit (n mod 16)) EmptyString)
  else String a EmptyString.

(** Whether three characters are one surrogate code unit: [Some true] for
    a leading one (D800 to DBFF), [Some false] for a trailing one (DC00 to
    DFFF). *)
Definition surrogate (a b c : ascii) : option bool :=
  let x := N_of_ascii b in
  let y := N_of_ascii c in
  if (N_of_ascii a =? 237)%N && (128 <=? y)%N && (y <? 192)%N then
    if (160 <=? x)%N && (x <? 176)%N then Some true
    else if (176 <=? x)%N && (x <? 192)%N then Some false
    else None
  else None.

(** The number of the code unit that three characters stand for. *)
Definition unit_number (a b c : ascii) : N :=
  (4096 * (N_of_ascii a - 224) + 64 * (N_of_ascii b - 128)
   + (N_of_ascii c - 128))%N.

(** [\uxxxx], the four hexadecimal digits of [n] in lower case. *)
Definition UnicodeEscape (n : N) : string :=
  "\u" ++ String (hex_digit (n / 4096))
            (String (hex_digit ((n / 256) mod 16))
               (String (hex_digit ((n / 16) mod 16))
                  (String (hex_digit (n mod 16)) EmptyString))).

(** The loop of QuoteJSONString: a leading surrogate followed by a trailing
    one is written as it is, a surrogate on its own as [\uxxxx], and every
    other character as [escape] gives it. *)
Fixpoint escaped (s : string) : string :=
  match s with
  | EmptyString => EmptyString
  | String a r =>
      match r with
      | String b (String c r3) =>
          match surrogate a b c with
          | Some lead =>
              let lone := (UnicodeEscape (unit_number a b c) ++ escaped r3)%string in
              if lead then
                match r3 with
                | String a' (String b' (String c' r6)) =>
                    match surrogate a' b' c' with
                    | Some false =>
                        String a (String b (String c
                          (String a' (String b' (String c' (escaped r6))))))
                    | _ => lone
                    end
                | _ => lone
                end
              else lone
          | None => (escape a ++ escaped r)%string
          end
      | _ => (escape a ++ escaped r)%string
      end
  end.

Definition QuoteJSONString (s : string) : string := quoted (escaped s).

Definition newline : string := String "010" EmptyString.

(** The text of an array or an object from the texts of its entries, with
    the gap of two spaces: [open ++ close] when there is no entry, else one
    entry a line, indented by [indent] and the gap. *)
Definition bracket (open close indent : string) (partial : list string) : string :=
  match partial with
  | [] => open ++ close
  | _ :: _ =>
      open ++ newline ++ (indent ++ "  ")
        ++ join ("," ++ newline ++ (indent ++ "  ")) partial
        ++ newline ++ indent ++ close
  end.

(** The values that contain no number: those whose text does not depend on
    the engine's [Number::toString]. *)
Fixpoint number_free (v : json) : bool :=
  match v with
  | JNum _ _ => false
  | JArr l => forallb number_free l
  | JObj o => bool_decide (map_Forall (fun _ b => b = true) (number_free <$> o))
  | JNull | JBool _ | JStr _ => true
  end.

(** The number of nodes of a value. *)
Fixpoint json_size (v : json) : nat :=
  match v with
  | JArr l => S (list_sum (map json_size l))
  | JObj o => S (map_fold (fun _ n acc => (n + acc)%nat) 0%nat (json_size <$> o))
  | JNull | JBool _ | JNum _ _ | JStr _ => 1%nat
  end.

(** ** Validation guards of [executeRequest] *)

Inductive ValidationError : Type :=
| MissingCredential
| MissingEndpoint
| UnresolvedPlaceholder.

(** Lines 97, 103 and 109, in that order. *)
Definition validate (figmaToken endpoint : string) : option ValidationError :=
  if negb (str_truthy figmaToken) then Some MissingCredential
  else if negb (str_truthy endpoint) then Some MissingEndpoint
  else if includes ":" endpoint then Some UnresolvedPlaceholder
  else None.

(** ** The component's effectful functions *)

Section Component.

Context `{Host}.

(** [`${v}`] on a value that came out of JSON; [None] stands for the
    [TypeError] it throws.  An array is joined, and an object goes through
    its [toString]: the inherited one gives [[object Object]], but an own
    property of that name hides it, and as no value out of JSON can be
    called, neither it nor the inherited [valueOf] yields a primitive. *)
Fixpoint ToString (v : json) : option string :=
  match v with
  | JNull => Some "null"
  | JBool true => Some "true"
  | JBool false => Some "false"
  | JNum m e => Some (Number_toString m e)
  | JStr s => Some s
  | JArr l =>
      join "," <$>
        mapM (fun x => match x with JNull => Some "" | _ => ToString x end) l
  | JObj o =>
      match o !! "toString" with
      | Some _ => None
      | None => Some "[object Object]"
      end
  end.

Definition template (v : option json) : option string :=
  match v with Some x => ToString x | None => Some "undefined" end.

Definition API : string := BACKEND_URL ++ "/api".

(** What a handler runs against: the React state, the server, and the
    trace of what the user and the network saw. *)
Record Sys : Type := {
  app : App;
  world : World;
  log : list event
}.

(** A computation either returns or throws, and leaves a next [Sys]. *)
Definition M (A : Type) : Type := Sys -> (A + js_error) * Sys.

Definition ret {A : Type} (x : A) : M A := fun s => (inl x, s).

Definition throw {A : Type} (e : js_error) : M A := fun s => (inr e, s).

Definition bind {A B : Type} (m : M A) (k : A -> M B) : M B :=
  fun s =>
    match m s with
    | (inl x, s') => k x s'
    | (inr e, s') => (inr e, s')
    end.

#[local] Instance M_ret : MRet M := @ret.
#[local] Instance M_bind : MBind M := fun A B k m => bind m k.

(** [try { m } catch (e) { handler }] *)
Definition try_catch {A : Type} (m : M A) (handler : js_error -> M A) : M A :=
  fun s =>
    match m s with
    | (inl x, s') => (inl x, s')
    | (inr e, s') => handler e s'
    end.

(** [try { m } finally { cleanup }] *)
Definition try_finally {A : Type} (m : M A) (cleanup : M unit) : M A :=
  fun s =>
    match m s with
    | (r, s') =>
        match cleanup s' with
        | (inl _, s'') => (r, s'')
        | (inr e, s'') => (inr e, s'')
        end
    end.

(** The values the handler closed over at the last render. *)
Definition render : M App := fun s => (inl (app s), s).

Definition set_state (f : App -> App) : M unit :=
  fun s => (inl tt, {| app := f (app s); world := world s; log := log s |}).

Definition emit (e : event) : M unit :=
  fun s => (inl tt, {| app := app s; world := world s; log := log s ++ [e] |}).

Definition setShowTokenDialog (b : bool) : M unit := set_state (with_showTokenDialog b).
Definition setLoading (b : bool) : M unit := set_state (with_loading b).
Definition setResponse (v : json) : M unit := set_state (with_response v).
Definition setSavedRequests (v : json) : M unit := set_state (with_savedRequests v).
Definition setHistory (v : json) : M unit := set_state (with_history v).

Definition toast (k : toast_kind) (text : string) : M unit := emit (Toast k text).
Definition console_error (text : string) : M unit := emit (Console text).

(** [await axios(req)]: the request goes out, the server moves, and the
    promise settles. *)
Definition await_axios (req : http_request) : M http_response :=
  fun s =>
    let '(r, w) := axios req (world s) in
    let s' := {| app := app s; world := w; log := log s ++ [Request req] |} in
    match r with
    | Fulfilled res => (inl res, s')
    | Rejected e => (inr e, s')
    end.

Definition axios_get (u : string) : M http_response :=
  await_axios {| verb := GET; url := u; payload := None |}.
Definition axios_post (u : string) (d : json) : M http_response :=
  await_axios {| verb := POST; url := u; payload := Some d |}.
Definition axios_put (u : string) (d : json) : M http_response :=
  await_axios {| verb := PUT; url := u; payload := Some d |}.
Definition axios_delete (u : string) : M http_response :=
  await_axios {| verb := DELETE; url := u; payload := None |}.

(** [JSON.parse] as a statement that may throw. *)
Definition JSON_parse (text : string) : M json :=
  match JSON.parse text with
  | Some v => ret v
  | None => throw {| response := None; message := SyntaxError_message text |}
  end.

Definition loadSavedRequests : M unit :=
  try_catch
    (res ← axios_get (API ++ "/saved-requests");
     setSavedRequests (data res))
    (fun _ => console_error "Failed to load saved requests").

Definition loadHistory : M unit :=
  try_catch
    (res ← axios_get (API ++ "/request-history");
     setHistory (data res))
    (fun _ => console_error "Failed to load history").

(** The text each guard shows. *)
Definition error_text (e : ValidationError) : string :=
  match e with
  | MissingCredential => "Please add your Figma token first"
  | MissingEndpoint => "Please enter an endpoint"
  | UnresolvedPlaceholder =>
      "Please replace placeholder parameters (e.g., :file_key) with actual values"
  end.

(** What each guard of [executeRequest] does before it returns. *)
Definition reject (e : ValidationError) : M unit :=
  match e with
  | MissingCredential =>
      toast error (error_text MissingCredential) ;;
      setShowTokenDialog true
  | MissingEndpoint =>
      toast error (error_text MissingEndpoint)
  | UnresolvedPlaceholder =>
      toast error (error_text UnresolvedPlaceholder)
  end.

(** The state a guard leaves: one error toast, the dialog opened for a
    missing token, nothing else touched. *)
Definition rejected (e : ValidationError) (s : Sys) : Sys :=
  {| app := match e with
            | MissingCredential => with_showTokenDialog true (app s)
            | _ => app s
            end;
     world := world s;
     log := log s ++ [Toast error (error_text e)] |}.

(** The object posted at lines 125-130. *)
Definition proxy_payload (c : App) (parsed_body : json) : json :=
  JObj (<["method" := JStr (if String.eqb (method c) "PAGE" then "GET" else method c)]>
        (<["endpoint" := JStr (endpoint c)]>
         (<["headers" := JObj (requestHeaders (figmaToken c) (headers c))]>
          (<["body" := parsed_body]> ∅)))).

Definition apiEndpoint (c : App) : string :=
  if String.eqb (method c) "PAGE" then API ++ "/figma/page" else API ++ "/figma/proxy".

(** The object stored by the [catch] at lines 136-139:
    [error.response?.data?.detail || error.message]. *)
Definition failure_envelope (e : js_error) : json :=
  JObj (<["error" := JBool true]>
        (<["message" := js_or (get_prop (data <$> response e) "detail")
                              (JStr (message e))]> ∅)).

(** Line 129, [body ? JSON.parse(body) : null]: the value posted as
    [body], or [None] when [JSON.parse] throws. *)
Definition body_value (c : App) : option json :=
  if str_truthy (body c) then JSON.parse (body c) else Some JNull.

(** The call of lines 125-130. *)
Definition outbound (c : App) (parsed_body : json) : http_request :=
  {| verb := POST; url := apiEndpoint c;
     payload := Some (proxy_payload c parsed_body) |}.

(** The state once the [catch] and the [finally] of [executeRequest] have
    run on the error [e]. *)
Definition failed (e : js_error) (a : App) : App :=
  with_loading false (with_response (failure_envelope e) (with_loading true a)).

(** The error thrown by [JSON.parse(body)]. *)
Definition body_error (c : App) : js_error :=
  {| response := None; message := SyntaxError_message (body c) |}.

(** The un-awaited [loadHistory()] at line 134 is run to its end in place;
    it catches its own failures. *)
Definition executeRequest : M unit :=
  c ← render;
  match validate (figmaToken c) (endpoint c) with
  | Some e => reject e
  | None =>
      setLoading true ;;
      try_finally
        (try_catch
           (b ← (if str_truthy (body c) then JSON_parse (body c) else ret JNull);
            res ← axios_post (apiEndpoint c) (proxy_payload c b);
            setResponse (data res) ;;
            toast success "Request executed successfully" ;;
            loadHistory)
           (fun e =>
              setResponse (failure_envelope e) ;;
              toast error "Request failed"))
        (setLoading false)
  end.

(** [`${API}/saved-requests/${id}`], evaluated before the call it is the
    first argument of. *)
Definition saved_url (id : option json) : M string :=
  match template id with
  | Some text => ret (API ++ "/saved-requests/" ++ text)%string
  | None => throw {| response := None; message := TypeError_message |}
  end.

Definition toggleFavorite (id isFavorite : option json) : M unit :=
  try_catch
    (u ← saved_url id;
     axios_put u (JObj {[ "is_favorite" := JBool (negb (truthy_opt isFavorite)) ]}) ;;
     loadSavedRequests)
    (fun _ => toast error "Failed to update favorite").

(** The star button of the [n]-th saved request, line 295:
    [toggleFavorite(req.id, req.is_favorite)].  Reading a property of [null]
    throws; where the list has no [n]-th element there is no button. *)
Definition clickFavorite (n : nat) : M unit :=
  c ← render;
  match savedRequests c with
  | JArr l =>
      match l !! n with
      | Some JNull =>
          throw {| response := None;
                   message := "Cannot read properties of null (reading 'id')" |}
      | Some req =>
          toggleFavorite (get_prop (Some req) "id") (get_prop (Some req) "is_favorite")
      | None => ret tt
      end
  | _ => ret tt
  end.

Definition clearHistory : M unit :=
  try_catch
    (axios_delete (API ++ "/request-history") ;;
     setHistory (JArr []) ;;
     toast success "History cleared")
    (fun _ => toast error "Failed to clear history").

(** The call [loadHistory] makes. *)
Definition history_request : http_request :=
  {| verb := GET; url := API ++ "/request-history"; payload := None |}.

(** The state in which the un-awaited [loadHistory] starts. *)
Definition answered (res : http_response) (b : json) (w : World) s : Sys :=
  {| app := with_response (data res) (with_loading true (app s)); world := w;
     log := ((log s ++ [Request (outbound (app s) b)])
             ++ [Toast success "Request executed successfully"]) |}.

(** The run gets as far as the call: the guards pass and the body is empty
    or parses to [b]. *)
Definition submitted (s : Sys) (b : json) : Prop :=
  validate (figmaToken (app s)) (endpoint (app s)) = None
  ∧ body_value (app s) = Some b.

(** The requests one run of [executeRequest] sends, in order. *)
Definition issued (s : Sys) : list http_request :=
  match validate (figmaToken (app s)) (endpoint (app s)), body_value (app s) with
  | None, Some b =>
      outbound (app s) b ::
      match axios (outbound (app s) b) (world s) with
      | (Fulfilled _, _) => [history_request]
      | (Rejected _, _) => []
      end
  | _, _ => []
  end.

(** The requests a trace contains. *)
Definition requests (l : list event) : list http_request :=
  omap (fun e => match e with Request r => Some r | _ => None end) l.

(** ** The other handlers of the component *)

Definition setFigmaToken (v : string) : M unit := set_state (with_figmaToken v).
Definition setMethod (v : string) : M unit := set_state (with_method v).
Definition setEndpoint (v : string) : M unit := set_state (with_endpoint v).
Definition setActiveTab (v : string) : M unit := set_state (with_activeTab v).

(** [saveToken], lines 72-76, on the browser's [localStorage], a map from
    keys to strings that the handler is given and hands back. *)
Definition saveToken (storage : gmap string string) : M (gmap string string) :=
  c ← render;
  setShowTokenDialog false ;;
  toast success "Token saved successfully" ;;
  ret (<["figma_token" := figmaToken c]> storage).

(** The effect run once when the component mounts, lines 63-70.  The two
    loads are started one after the other and not awaited; each is run to
    its end in place, in the order their requests leave. *)
Definition mount (storage : gmap string string) : M unit :=
  match storage !! "figma_token" with
  | Some token => if str_truthy token then setFigmaToken token else ret tt
  | None => ret tt
  end ;;
  loadSavedRequests ;;
  loadHistory.

(** The object [saveRequest] posts, lines 167-174. *)
Definition save_payload (c : App) (name : string) : json :=
  JObj (<["name" := JStr name]>
        (<["method" := JStr (method c)]>
         (<["endpoint" := JStr (endpoint c)]>
          (<["headers" := parseHeaders (headers c)]>
           (<["body" := JStr (body c)]>
            (<["category" := JStr (selectedCategory c)]> ∅)))))).

(** [saveRequest], lines 162-180.  [name] is what [prompt] returned: the
    text typed, or [None] for the [null] of a dismissed dialog. *)
Definition saveRequest (name : option string) : M unit :=
  c ← render;
  match name with
  | None => ret tt
  | Some n =>
      if negb (str_truthy n) then ret tt
      else
        try_catch
          (axios_post (API ++ "/saved-requests") (save_payload c n) ;;
           toast success "Request saved" ;;
           loadSavedRequests)
          (fun _ => toast error "Failed to save request")
  end.

(** [deleteRequest], lines 190-198. *)
Definition deleteRequest (id : option json) : M unit :=
  try_catch
    (u ← saved_url id;
     axios_delete u ;;
     toast success "Request deleted" ;;
     loadSavedRequests)
    (fun _ => toast error "Failed to delete request").

(** [loadExample], lines 219-224. *)
Definition loadExample (example : Example) : M unit :=
  setMethod (ex_method example) ;;
  setEndpoint (ex_endpoint example) ;;
  setActiveTab "builder" ;;
  toast info ("Loaded: " ++ ex_name example).

(** [JSON.stringify(v, null, 2)] on a value that came out of JSON, at the
    indentation [indent].  [keys o] is the order in which the own properties
    of the object [o] are enumerated, which the map does not record. *)
Fixpoint SerializeJSONProperty (keys : gmap string json -> list string)
    (indent : string) (v : json) : string :=
  match v with
  | JNull => "null"
  | JBool true => "true"
  | JBool false => "false"
  | JNum m e => if overflows m e then "null" else Number_toString m e
  | JStr s => QuoteJSONString s
  | JArr l =>
      bracket "[" "]" indent
        (map (SerializeJSONProperty keys (indent ++ "  ")) l)
  | JObj o =>
      let texts : gmap string string :=
        SerializeJSONProperty keys (indent ++ "  ") <$> o in
      bracket "{" "}" indent
        (omap (fun k =>
                 (fun t => (QuoteJSONString k ++ ": " ++ t)%string) <$> texts !! k)
           (keys o))
  end.

Definition stringify (keys : gmap string json -> list string) (v : json) : string :=
  SerializeJSONProperty keys "" v.

Definition setHeaders (v : string) : M unit := set_state (with_headers v).
Definition setBody (v : string) : M unit := set_state (with_body v).

(** The form fields of [App] hold text: [text_of v] is the text a setter
    stores for a string [v], and [None] for any other value, which the
    fields do not cover. *)
Definition text_of (v : option json) : option string :=
  match v with
  | Some (JStr s) => Some s
  | _ => None
  end.

(** [loadRequest], lines 182-188, for a saved request [req] whose method,
    endpoint and [body || ''] are strings and whose headers are defined
    ([JSON.stringify(undefined)] is [undefined], not a text). *)
Definition loadRequest (keys : gmap string json -> list string) (req : json)
  : option (M unit) :=
  match text_of (get_prop (Some req) "method"),
        text_of (get_prop (Some req) "endpoint"),
        get_prop (Some req) "headers",
        text_of (Some (js_or (get_prop (Some req) "body") (JStr ""))) with
  | Some m, Some e, Some h, Some b =>
      Some (setMethod m ;;
            setEndpoint e ;;
            setHeaders (stringify keys h) ;;
            setBody b ;;
            setActiveTab "builder")
  | _, _, _, _ => None
  end.

(** The call [loadSavedRequests] makes. *)
Definition saved_request : http_request :=
  {| verb := GET; url := API ++ "/saved-requests"; payload := None |}.

(** The toasts a trace contains. *)
Definition toasts (l : list event) : list (toast_kind * string) :=
  omap (fun e => match e with Toast k t => Some (k, t) | _ => None end) l.

End Component.

(** ** The server behind [API]

    The server's code is not part of the client file; its stores and its two
    executors are modelled from sections 3, 4.3 to 4.6 and 6 of the
    specification. *)

Module Backend.

(** Modelled from the spec: the SavedRequest record of section 3. *)
Record SavedRequest : Type := {
  id : string;
  name : string;
  sr_method : string;
  sr_endpoint : string;
  sr_headers : json;
  sr_body : string;
  category : string;
  is_favorite : bool;
  created_at : Z
}.

(** Modelled from the spec: the HistoryEntry record of section 3.
    [status_code] is [None] for the sentinel of a failure that produced no
    HTTP status. *)
Record HistoryEntry : Type := {
  h_method : string;
  h_endpoint : string;
  status_code : option Z;
  timestamp : Z
}.

(** Modelled from the spec: the RequestSpec of section 3, as the server
    receives it. *)
Record RequestSpec : Type := {
  rs_method : string;
  rs_endpoint : string;
  rs_headers : gmap string json;
  rs_body : option json
}.

(** The call that leaves for the upstream API, and how it ends. *)
Record upstream_call : Type := {
  up_method : string;
  up_url : string;
  up_headers : gmap string json;
  up_body : option json
}.

Inductive upstream_outcome : Type :=
| Answered (code : Z) (body : json)
| Unreachable (diagnostic : string).

(** Modelled from the spec: the envelope of the glossary, the uniform
    result of an execution. *)
Inductive Envelope : Type :=
| Success (code : Z) (body : json)
| Failure (diagnostic : string).

Record Server : Type := {
  saved : list SavedRequest;
  next_id : nat;
  entries : list HistoryEntry;
  clock : Z;
  authToken : string;
  upstream : upstream_call -> upstream_outcome
}.

Definition upstream_base : string := "https://api.figma.com/v1".
Definition auth_header : string := "X-Figma-Token".

Definition with_saved (l : list SavedRequest) (n : nat) (s : Server) : Server :=
  {| saved := l; next_id := n; entries := entries s; clock := clock s;
     authToken := authToken s; upstream := upstream s |}.

Definition with_entries (l : list HistoryEntry) (t : Z) (s : Server) : Server :=
  {| saved := saved s; next_id := next_id s; entries := l; clock := t;
     authToken := authToken s; upstream := upstream s |}.

(** Modelled from the spec: HistoryStore (section 4.6), absent from the
    client file.  [append] puts the entry in front, so that [list] reads
    most recent first; [clear] empties the log. *)
Definition append (e : HistoryEntry) (s : Server) : Server :=
  with_entries (e :: entries s) (clock s + 1) s.

Definition list_history (s : Server) : list HistoryEntry := entries s.

Definition clear (s : Server) : Server := with_entries [] (clock s) s.

Definition record_outcome (label ep : string) (o : upstream_outcome) (s : Server)
  : Server :=
  append {| h_method := label; h_endpoint := ep;
            status_code := match o with
                           | Answered c _ => Some c
                           | Unreachable _ => None
                           end;
            timestamp := clock s |} s.

Definition call_upstream (verb : string) (r : RequestSpec) (token : string)
  : upstream_call :=
  {| up_method := verb;
     up_url := upstream_base ++ rs_endpoint r;
     up_headers := <[auth_header := JStr token]> (rs_headers r);
     up_body := rs_body r |}.

(** Modelled from the spec: ProxyExecutor.execute (section 4.3), absent
    from the client file.  Any status the upstream answers with is a
    success envelope; a transport failure is a failure envelope; either
    way one history entry is appended. *)
Definition execute (r : RequestSpec) (token : string) (s : Server)
  : Envelope * Server :=
  let o := upstream s (call_upstream (rs_method r) r token) in
  (match o with
   | Answered c b => Success c b
   | Unreachable d => Failure d
   end,
   record_outcome (rs_method r) (rs_endpoint r) o s).

(** The explicit indicator returned for a document without pages. *)
Definition no_pages : json := JObj {[ "pages" := JArr [] ]}.

Definition children_of (document : json) : list json :=
  match get_prop (get_prop (Some document) "document") "children" with
  | Some (JArr l) => l
  | _ => []
  end.

Definition first_page (document : json) : json :=
  match children_of document with
  | page :: _ => page
  | [] => no_pages
  end.

(** Modelled from the spec: PageExtractor.executePage (section 4.4),
    absent from the client file.  The call is a GET on the same endpoint;
    the answer is narrowed to the first child of the document; the history
    entry keeps the PAGE label and the endpoint as given. *)
Definition executePage (r : RequestSpec) (token : string) (s : Server)
  : Envelope * Server :=
  let o := upstream s (call_upstream "GET" r token) in
  (match o with
   | Answered c b => Success c (first_page b)
   | Unreachable d => Failure d
   end,
   record_outcome "PAGE" (rs_endpoint r) o s).

(** Modelled from the spec: SavedRequestStore (section 4.5), absent from
    the client file. *)
Definition create (nm m ep : string) (h : json) (b cat : string) (s : Server)
  : string * Server :=
  let i := pretty (next_id s) in
  (i, with_saved (saved s ++ [{| id := i; name := nm; sr_method := m;
                                 sr_endpoint := ep; sr_headers := h;
                                 sr_body := b; category := cat;
                                 is_favorite := false;
                                 created_at := clock s |}])
                 (S (next_id s)) s).

Definition list_saved (s : Server) : list SavedRequest := saved s.

Definition set_favorite (v : bool) (r : SavedRequest) : SavedRequest :=
  {| id := id r; name := name r; sr_method := sr_method r;
     sr_endpoint := sr_endpoint r; sr_headers := sr_headers r;
     sr_body := sr_body r; category := category r;
     is_favorite := v; created_at := created_at r |}.

Definition find (i : string) (s : Server) : option SavedRequest :=
  List.find (fun r => String.eqb (id r) i) (saved s).

(** Sets the flag of the first record whose id is [i]; [None] when there
    is no such record. *)
Fixpoint patch (i : string) (v : bool) (l : list SavedRequest)
  : option (list SavedRequest) :=
  match l with
  | [] => None
  | r :: t =>
      if String.eqb (id r) i then Some (set_favorite v r :: t)
      else match patch i v t with
           | Some t' => Some (r :: t')
           | None => None
           end
  end.

(** Modelled from the spec: SavedRequestStore.patchFavorite (section 4.5),
    absent from the client file: [None] is [Fails(NotFound)]. *)
Definition patchFavorite (i : string) (v : bool) (s : Server) : option Server :=
  match patch i v (saved s) with
  | Some l => Some (with_saved l (next_id s) s)
  | None => None
  end.

Definition delete (i : string) (s : Server) : option Server :=
  match find i s with
  | Some _ =>
      Some (with_saved (filter (fun r => id r ≠ i) (saved s)) (next_id s) s)
  | None => None
  end.

(** *** The wire format *)

Definition envelope_json (e : Envelope) : json :=
  match e with
  | Success c b =>
      JObj (<["error" := JBool false]>
            (<["status_code" := JNum c 0]> (<["data" := b]> ∅)))
  | Failure d =>
      JObj (<["error" := JBool true]> (<["message" := JStr d]> ∅))
  end.

Definition saved_fields (r : SavedRequest) : gmap string json :=
  <["id" := JStr (id r)]>
    (<["name" := JStr (name r)]>
     (<["method" := JStr (sr_method r)]>
      (<["endpoint" := JStr (sr_endpoint r)]>
       (<["headers" := sr_headers r]>
        (<["body" := JStr (sr_body r)]>
         (<["category" := JStr (category r)]>
          (<["is_favorite" := JBool (is_favorite r)]>
           (<["created_at" := JNum (created_at r) 0]> ∅)))))))).

Definition saved_json (r : SavedRequest) : json := JObj (saved_fields r).

Definition history_json (e : HistoryEntry) : json :=
  JObj (<["method" := JStr (h_method e)]>
        (<["endpoint" := JStr (h_endpoint e)]>
         (<["status_code" := match status_code e with
                             | Some c => JNum c 0
                             | None => JNull
                             end]>
          (<["timestamp" := JNum (timestamp e) 0]> ∅)))).

Definition spec_of (p : option json) : option RequestSpec :=
  match get_prop p "method", get_prop p "endpoint" with
  | Some (JStr m), Some (JStr ep) =>
      Some {| rs_method := m; rs_endpoint := ep;
              rs_headers := match get_prop p "headers" with
                            | Some (JObj h) => h
                            | _ => ∅
                            end;
              rs_body := match get_prop p "body" with
                         | Some JNull | None => None
                         | Some b => Some b
                         end |}
  | _, _ => None
  end.

Definition ok (d : json) : axios_result := Fulfilled {| status := 200; data := d |}.

Definition refused (code : Z) (detail : string) : axios_result :=
  Rejected {| response := Some {| status := code;
                                  data := JObj {[ "detail" := JStr detail ]} |};
              message := "Request failed with status code " ++ pretty code |}.

(** [Some rest] when [s] is [p] followed by [rest]. *)
Fixpoint strip_prefix (p s : string) : option string :=
  match p, s with
  | EmptyString, _ => Some s
  | String a p', String b s' => if Ascii.eqb a b then strip_prefix p' s' else None
  | String _ _, EmptyString => None
  end.

(** Modelled from the spec: the boundary operations of section 6, absent
    from the client file, under the paths the client calls them by. *)
Definition serve (api : string) (req : http_request) (s : Server)
  : axios_result * Server :=
  match strip_prefix api (url req) with
  | None => (refused 404 "Not Found", s)
  | Some path =>
      if String.eqb path "/figma/proxy" then
        match verb req, spec_of (payload req) with
        | POST, Some r =>
            let '(e, s') := execute r (authToken s) s in (ok (envelope_json e), s')
        | _, _ => (refused 422 "Unprocessable Entity", s)
        end
      else if String.eqb path "/figma/page" then
        match verb req, spec_of (payload req) with
        | POST, Some r =>
            let '(e, s') := executePage r (authToken s) s in (ok (envelope_json e), s')
        | _, _ => (refused 422 "Unprocessable Entity", s)
        end
      else if String.eqb path "/request-history" then
        match verb req with
        | GET => (ok (JArr (map history_json (list_history s))), s)
        | DELETE => (ok (JObj {[ "message" := JStr "History cleared" ]}), clear s)
        | _ => (refused 405 "Method Not Allowed", s)
        end
      else if String.eqb path "/saved-requests" then
        match verb req with
        | GET => (ok (JArr (map saved_json (list_saved s))), s)
        | POST =>
            let p := payload req in
            match get_prop p "name", get_prop p "method", get_prop p "endpoint",
                  get_prop p "headers", get_prop p "body", get_prop p "category" with
            | Some (JStr nm), Some (JStr m), Some (JStr ep),
              Some h, Some (JStr b), Some (JStr cat) =>
                if str_truthy nm then
                  let '(i, s') := create nm m ep h b cat s in
                  (ok (JObj {[ "id" := JStr i ]}), s')
                else (refused 422 "Unprocessable Entity", s)
            | _, _, _, _, _, _ => (refused 422 "Unprocessable Entity", s)
            end
        | _ => (refused 405 "Method Not Allowed", s)
        end
      else
        match strip_prefix "/saved-requests/" path with
        | Some i =>
            match verb req with
            | PUT =>
                match get_prop (payload req) "is_favorite" with
                | Some (JBool v) =>
                    match patchFavorite i v s with
                    | Some s' =>
                        (ok (match find i s' with
                             | Some r => saved_json r
                             | None => JNull
                             end), s')
                    | None => (refused 404 "Request not found", s)
                    end
                | _ => (refused 422 "Unprocessable Entity", s)
                end
            | DELETE =>
                match delete i s with
                | Some s' => (ok (JObj {[ "message" := JStr "Request deleted" ]}), s')
                | None => (refused 404 "Request not found", s)
                end
            | _ => (refused 405 "Method Not Allowed", s)
            end
        | None => (refused 404 "Not Found", s)
        end
  end.

Definition base_url : string := "http://localhost:8001".

(** The client run against this server.  The store's ids are strings, so
    the number formatter is never reached; it prints mantissa and
    exponent. *)
#[export] Instance host : Host := {|
  World := Server;
  axios := serve (base_url ++ "/api");
  BACKEND_URL := base_url;
  SyntaxError_message := fun _ => "Unexpected token in JSON";
  TypeError_message := "Cannot convert object to primitive value";
  Number_toString := fun m e => (pretty m ++ "e" ++ pretty e)%string
|}.

(** What the server reads off the object the client posts for the state
    [c] and the parsed body [b]. *)
Definition request_spec (c : App) (b : json) : RequestSpec :=
  {| rs_method := if String.eqb (method c) "PAGE" then "GET" else method c;
     rs_endpoint := endpoint c;
     rs_headers := requestHeaders (figmaToken c) (headers c);
     rs_body := match b with JNull => None | _ => Some b end |}.

(** The upstream call an execution of the client state [c] leads to. *)
Definition upstream_of (c : App) (b : json) (s : Server) : upstream_call :=
  call_upstream (rs_method (request_spec c b)) (request_spec c b) (authToken s).

(** The executor the server runs for the POST of the client state [c]. *)
Definition run_of (c : App) (b : json) (s : Server) : Envelope * Server :=
  (if String.eqb (method c) "PAGE" then executePage else execute)
    (request_spec c b) (authToken s) s.


(** The store's invariant: ids are distinct, and each was drawn from the
    counter. *)
Definition well_formed (s : Server) : Prop :=
  NoDup (map id (saved s))
  ∧ ∀ r, r ∈ saved s → ∃ k : nat, (k < next_id s)%nat ∧ id r = pretty k.

(** Every field but [is_favorite] agrees. *)
Definition unchanged_but_favorite (r r' : SavedRequest) : Prop :=
  id r' = id r ∧ name r' = name r ∧ sr_method r' = sr_method r
  ∧ sr_endpoint r' = sr_endpoint r ∧ sr_headers r' = sr_headers r
  ∧ sr_body r' = sr_body r ∧ category r' = category r
  ∧ created_at r' = created_at r.

(** The client's list of saved requests is the one the server holds, as
    after [loadSavedRequests]. *)
Definition in_sync (s : Sys) : Prop :=
  savedRequests (app s) = JArr (map saved_json (saved (world s))).

(** A server to run the client against: an empty store, and an upstream
    that answers [/me] with 200, never answers [/down], and answers anything
    else with 404. *)
Definition demo_upstream (c : upstream_call) : upstream_outcome :=
  if String.eqb (up_url c) (upstream_base ++ "/me") then
    Answered 200 (JObj {[ "handle" := JStr "me" ]})
  else if String.eqb (up_url c) (upstream_base ++ "/down") then
    Unreachable "timed out"
  else Answered 404 (JObj {[ "err" := JStr "Not found" ]}).

Definition demo_server : Server :=
  {| saved := []; next_id := 0; entries := []; clock := 0;
     authToken := "figd_token"; upstream := demo_upstream |}.

Definition demo_app (m ep h b : string) : App :=
  {| figmaToken := "figd_token"; showTokenDialog := false; method := m;
     endpoint := ep; headers := h; body := b; response_ := JNull;
     loading := false; savedRequests := JArr []; history := JArr [];
     activeTab := "builder"; selectedCategory := "Files" |}.

Definition demo (a : App) : Sys := {| app := a; world := demo_server; log := [] |}.


(** A store holding one saved request, and a client that has loaded it. *)
Definition demo_record : SavedRequest :=
  {| id := "0"; name := "mine"; sr_method := "GET"; sr_endpoint := "/me";
     sr_headers := JObj ∅; sr_body := ""; category := "Files";
     is_favorite := false; created_at := 0 |}.

Definition demo_saved : Sys :=
  {| app := with_savedRequests (JArr [saved_json demo_record])
              (demo_app "GET" "/me" "" "");
     world := (create "mine" "GET" "/me" (JObj ∅) "" "Files" demo_server).2;
     log := [] |}.

End Backend.

(** ** A server that cannot be reached

    Every call is rejected the way axios rejects one that got no answer. *)
Definition offline : Host :=
  {| World := unit;
     axios := fun _ w =>
       (Rejected {| response := None; message := "Network Error" |}, w);
     BACKEND_URL := "http://localhost:8001";
     SyntaxError_message := fun _ => "Unexpected token in JSON";
     TypeError_message := "Cannot convert object to primitive value";
     Number_toString := fun m e => (pretty m ++ "e" ++ pretty e)%string |}.

(** The component, as first rendered, in front of that server. *)
Definition unreachable (a : App) : @Sys offline :=
  @Build_Sys offline a tt [].

(** * Properties *)

(** Closes a goal between closed terms by evaluating both sides. *)
Ltac run := vm_compute; reflexivity.

(** Resolves lookups of literal keys in a literal chain of inserts. *)
Ltac lookup_keys :=
  repeat first [ rewrite lookup_insert_eq
               | rewrite lookup_insert_ne by discriminate
               | rewrite lookup_empty ].

(** ** [JSON.parse] has fuel to spare

    Each sub-parser consumes input, and the recursion of [value] is never
    cut short by its fuel: from the amount [JSON.parse] starts with upwards,
    the result is the same.  So [None] is a syntax error, never an
    exhausted counter. *)

Module JSONFacts.

Import JSON.

Lemma skip_ws_length (l : list ascii) : (length (skip_ws l) ≤ length l)%nat.
Proof.
  induction l as [|a l IH]; cbn; [lia|]. destruct (is_ws a); cbn; lia.
Qed.

Lemma digits_length (acc cnt : Z) (l : list ascii) :
  (length (digits acc cnt l).2 ≤ length l)%nat.
Proof.
  revert acc cnt. induction l as [|a l IH]; intros acc cnt; cbn; [lia|].
  destruct (digit a); cbn; [|lia]. specialize (IH (10 * acc + z)%Z (cnt + 1)%Z). lia.
Qed.

Ltac case_if :=
  match goal with
  | H : context [if ?b then _ else _] |- _ => destruct b eqn:?
  | H : context [match ?x with _ => _ end] |- _ => destruct x eqn:?
  end.

Ltac use_digits :=
  repeat match goal with
  | H : digits ?a ?c ?l = (_, _, ?r) |- _ =>
      let Hd := fresh "Hd" in
      pose proof (digits_length a c l) as Hd; rewrite H in Hd; cbn [snd] in Hd;
      clear H
  end.

Lemma exponent_length m e l v r :
  exponent m e l = Some (v, r) → (length r ≤ length l)%nat.
Proof.
  unfold exponent. intros H.
  repeat (case_if; try discriminate; simplify_eq); use_digits;
    cbn [length] in *; lia.
Qed.

Lemma fraction_length sgn i l v r :
  fraction sgn i l = Some (v, r) → (length r ≤ length l)%nat.
Proof.
  unfold fraction. intros H.
  repeat (case_if; try discriminate; simplify_eq); use_digits;
    repeat match goal with
    | H : exponent _ _ _ = Some _ |- _ => apply exponent_length in H
    end; cbn [length] in *; lia.
Qed.

Lemma number_length l v r :
  number l = Some (v, r) → (length r < length l)%nat.
Proof.
  unfold number. intros H.
  repeat (case_if; try discriminate; simplify_eq); use_digits;
    repeat match goal with
    | H : fraction _ _ _ = Some _ |- _ => apply fraction_length in H
    end; cbn [length] in *; lia.
Qed.

Lemma string_body_length l s r :
  string_body l = Some (s, r) → (length r < length l)%nat.
Proof.
  revert s r. induction l as [l IH] using (induction_ltof1 _ (@length ascii)).
  unfold ltof in IH. intros s r H. destruct l as [|a l]; [discriminate|].
  cbn [string_body] in H.
  repeat (case_if; try discriminate; simplify_eq);
    repeat match goal with
    | H : string_body ?l' = Some _ |- _ => apply IH in H; [|cbn [length]; lia]
    end; cbn [length] in *; lia.
Qed.

Lemma literal_length name v l w r :
  name ≠ ""%string → literal name v l = Some (w, r) → (length r < length l)%nat.
Proof.
  unfold literal. intros Hn H. case_decide as E; [|discriminate]. simplify_eq.
  assert (length (list_ascii_of_string name) ≠ 0%nat)
    by (destruct name; [congruence|cbn; lia]).
  apply (f_equal length) in E. rewrite length_take in E. rewrite length_drop. lia.
Qed.

Ltac note E :=
  lazymatch type of E with
  | skip_ws ?l = _ =>
      let L := fresh "L" in pose proof (skip_ws_length l) as L; rewrite E in L
  | _ => idtac
  end.

Ltac split_scrutinee :=
  match goal with
  | H : context [match ?x with _ => _ end] |- _ =>
      let E := fresh "E" in destruct x eqn:E; note E
  end.

Lemma value_length (f : nat) :
  (∀ l v r, value f l = Some (v, r) → (length r < length l)%nat) ∧
  (∀ acc l v r, elements f acc l = Some (v, r) → (length r < length l)%nat) ∧
  (∀ acc l v r, members f acc l = Some (v, r) → (length r < length l)%nat).
Proof.
  induction f as [|f (IHv & IHe & IHm)]; [repeat split; discriminate|].
  split; [|split].
  - intros l v r H. cbn [value] in H.
    repeat (split_scrutinee; try discriminate; simplify_eq);
      repeat match goal with
      | H : string_body _ = Some _ |- _ => apply string_body_length in H
      | H : literal _ _ _ = Some _ |- _ => apply literal_length in H; [|discriminate]
      | H : number _ = Some _ |- _ => apply number_length in H
      | H : elements f _ _ = Some _ |- _ => apply IHe in H
      | H : members f _ _ = Some _ |- _ => apply IHm in H
      end; cbn [length] in *; lia.
  - intros acc l v r H. cbn [elements] in H.
    repeat (split_scrutinee; try discriminate; simplify_eq);
      repeat match goal with
      | H : value f _ = Some _ |- _ => apply IHv in H
      | H : elements f _ _ = Some _ |- _ => apply IHe in H
      end; cbn [length] in *; lia.
  - intros acc l v r H. cbn [members] in H.
    repeat (split_scrutinee; try discriminate; simplify_eq);
      repeat match goal with
      | H : string_body _ = Some _ |- _ => apply string_body_length in H
      | H : value f _ = Some _ |- _ => apply IHv in H
      | H : members f _ _ = Some _ |- _ => apply IHm in H
      end; cbn [length] in *; lia.
Qed.

Ltac lengths :=
  repeat match goal with
  | H : value _ _ = Some (_, _) |- _ => apply (proj1 (value_length _)) in H
  | H : string_body _ = Some (_, _) |- _ => apply string_body_length in H
  end;
  cbn [length] in *; lia.

Ltac split_goal :=
  match goal with
  | |- context [match ?x with _ => _ end] =>
      let E := fresh "E" in destruct x eqn:E; note E
  end.

Lemma fuel_adequate (f : nat) :
  (∀ l f', (2 * length l + 1 ≤ f)%nat → (f ≤ f')%nat → value f' l = value f l) ∧
  (∀ acc l f', (2 * length l + 2 ≤ f)%nat → (f ≤ f')%nat →
     elements f' acc l = elements f acc l) ∧
  (∀ acc l f', (2 * length l + 2 ≤ f)%nat → (f ≤ f')%nat →
     members f' acc l = members f acc l).
Proof.
  induction f as [|f (IHv & IHe & IHm)]; [repeat split; intros; lia|].
  split; [|split].
  - intros l [|f'] Hl Hf; [lia|]. cbn [value].
    repeat first
      [ reflexivity
      | rewrite (IHe _ _ f') by lengths
      | rewrite (IHm _ _ f') by lengths
      | split_goal ].
  - intros acc l [|f'] Hl Hf; [lia|]. cbn [elements].
    repeat first
      [ reflexivity
      | rewrite (IHv _ f') by lengths
      | rewrite (IHe _ _ f') by lengths
      | split_goal ].
  - intros acc l [|f'] Hl Hf; [lia|]. cbn [members].
    repeat first
      [ reflexivity
      | rewrite (IHv _ f') by lengths
      | rewrite (IHm _ _ f') by lengths
      | split_goal ].
Qed.

(** [JSON.parse] does not depend on its fuel: any larger amount gives the
    same result. *)
Lemma parse_fuel (text : string) (fuel : nat) :
  (2 * length (list_ascii_of_string text) + 2 ≤ fuel)%nat →
  value fuel (list_ascii_of_string text)
  = value (2 * length (list_ascii_of_string text) + 2) (list_ascii_of_string text).
Proof. intros Hf. apply (proj1 (fuel_adequate _)); lia. Qed.

End JSONFacts.

(** ** Header parsing *)

Lemma parse_empty : JSON.parse "" = None.
Proof. reflexivity. Qed.

Lemma parseHeaders_empty : parseHeaders "" = JObj ∅.
Proof. reflexivity. Qed.

Lemma parseHeaders_fallback (headers : string) :
  headers ≠ "" → JSON.parse headers = None →
  parseHeaders headers = headerLines headers.
Proof.
  intros Hne Hfail. unfold parseHeaders.
  destruct headers as [|a r]; [congruence|]. cbn [str_truthy negb].
  now rewrite Hfail.
Qed.

(** The example of the specification: the line without a colon is dropped. *)
Lemma parseHeaders_example :
  parseHeaders "X-Foo: bar
badline
Y-Baz:qux" = JObj (<["X-Foo" := JStr "bar"]> (<["Y-Baz" := JStr "qux"]> ∅)).
Proof. vm_compute. reflexivity. Qed.

Lemma fixedHeaders_token (figmaToken : string) :
  fixedHeaders figmaToken !! "X-Figma-Token" = Some (JStr figmaToken).
Proof. unfold fixedHeaders. now rewrite lookup_insert_ne, lookup_insert_eq. Qed.

Lemma fixedHeaders_content_type (figmaToken : string) :
  fixedHeaders figmaToken !! "Content-Type" = Some (JStr "application/json").
Proof. unfold fixedHeaders. now rewrite lookup_insert_eq. Qed.

(** C1, as stated, fails: with the token [secret] configured, the header
    text [X-Figma-Token: evil] collides with the fixed authentication header,
    and the merged headers carry [evil], not the token. *)
Lemma user_header_replaces_token :
  spread (parseHeaders "X-Figma-Token: evil") !! "X-Figma-Token"
    = Some (JStr "evil") ∧
  fixedHeaders "secret" !! "X-Figma-Token" = Some (JStr "secret") ∧
  requestHeaders "secret" "X-Figma-Token: evil" !! "X-Figma-Token"
    = Some (JStr "evil") ∧
  requestHeaders "secret" "X-Figma-Token: evil" !! "X-Figma-Token"
    ≠ fixedHeaders "secret" !! "X-Figma-Token".
Proof.
  split; [run|]. split; [run|]. split; [run|].
  intros E. vm_compute in E. discriminate E.
Qed.

(** C1, amended: on a key collision the user-supplied header wins.  The
    merged headers hold, under every key, the value of the user mapping when
    it has that key, and the fixed value ([X-Figma-Token]: the token,
    [Content-Type]: [application/json]) only when it has not; this merged
    object is what the outbound call carries as its [headers]. *)
Theorem requestHeaders_user_wins (c : App) (parsed_body : json) (k : string) :
  requestHeaders (figmaToken c) (headers c) !! k =
    match spread (parseHeaders (headers c)) !! k with
    | Some v => Some v
    | None => fixedHeaders (figmaToken c) !! k
    end
  ∧ fixedHeaders (figmaToken c) !! "X-Figma-Token" = Some (JStr (figmaToken c))
  ∧ fixedHeaders (figmaToken c) !! "Content-Type" = Some (JStr "application/json")
  ∧ get_prop (Some (proxy_payload c parsed_body)) "headers"
    = Some (JObj (requestHeaders (figmaToken c) (headers c))).
Proof.
  split; [|split; [|split]].
  - unfold requestHeaders. rewrite lookup_union.
    destruct (spread _ !! k), (fixedHeaders _ !! k); reflexivity.
  - apply fixedHeaders_token.
  - apply fixedHeaders_content_type.
  - unfold proxy_payload, get_prop.
    now rewrite lookup_insert_ne, lookup_insert_ne, lookup_insert_eq.
Qed.

(** C2, as stated, fails twice.  The text [5] parses as JSON to a number,
    not an object, and is returned as that number instead of going through
    the line scan (which yields the empty mapping on it); and the number in
    the object text with key [a] and value [1] stays a number, it is not
    coerced to the string [1]. *)
Lemma parseHeaders_keeps_non_object :
  JSON.parse "5" = Some (JNum 5 0) ∧
  parseHeaders "5" = JNum 5 0 ∧
  headerLines "5" = JObj ∅ ∧
  parseHeaders "5" ≠ headerLines "5" ∧
  parseHeaders ("{" ++ quoted "a" ++ ":1}") = JObj {[ "a" := JNum 1 0 ]} ∧
  parseHeaders ("{" ++ quoted "a" ++ ":1}") ≠ JObj {[ "a" := JStr "1" ]}.
Proof.
  split; [run|]. split; [run|]. split; [run|]. split; [|split; [run|]].
  - intros E. vm_compute in E. discriminate E.
  - intros E. apply (f_equal (fun v => get_prop (Some v) "a")) in E.
    vm_compute in E. discriminate E.
Qed.

(** C2, amended: whenever [JSON.parse] succeeds on the header text,
    [parseHeaders] returns the parsed value as it is: an object with its
    key/value pairs unchanged and its values left as parsed, and equally a
    number, string, array, boolean or null.  The line scan is used only
    where [JSON.parse] fails, on a text that is not empty. *)
Theorem parseHeaders_returns_parsed (headers : string) :
  (∀ v, JSON.parse headers = Some v → parseHeaders headers = v) ∧
  (JSON.parse headers = None →
   parseHeaders headers = if str_truthy headers then headerLines headers else JObj ∅).
Proof.
  unfold parseHeaders. destruct headers as [|a r].
  - split; [|reflexivity]. intros v Hv. rewrite parse_empty in Hv. discriminate.
  - cbn [str_truthy negb]. split; [intros v Hv|intros Hv]; now rewrite Hv.
Qed.

(** C2, amended, at two texts: [[1, true]] parses and comes back as the
    array; the object text with key [a] and the escape of the code unit 256
    as value parses and comes back as that object, its value the one code
    unit. *)
Lemma parseHeaders_returns_parsed_array :
  JSON.parse "[1, true]" = Some (JArr [JNum 1 0; JBool true]) ∧
  parseHeaders "[1, true]" = JArr [JNum 1 0; JBool true] ∧
  parseHeaders ("{" ++ quoted "a" ++ ":" ++ quoted "\u0100" ++ "}")
  = JObj {[ "a" := JStr (code_unit 256) ]} ∧
  headerLines ("{" ++ quoted "a" ++ ":" ++ quoted "\u0100" ++ "}")
  ≠ JObj {[ "a" := JStr (code_unit 256) ]}.
Proof.
  assert (Hp : JSON.parse "[1, true]" = Some (JArr [JNum 1 0; JBool true]))
    by reflexivity.
  split; [exact Hp|].
  split; [exact (proj1 (parseHeaders_returns_parsed _) _ Hp)|].
  split.
  - apply (proj1 (parseHeaders_returns_parsed _)). vm_compute. reflexivity.
  - intros E. apply (f_equal (fun v => get_prop (Some v) "a")) in E.
    vm_compute in E. discriminate E.
Defined.

(** *** What the line scan does with colons *)

Lemma split_nonempty (c : ascii) (s : string) : split c s ≠ [].
Proof.
  destruct s as [|a r]; cbn; [discriminate|].
  destruct (Ascii.eqb a c); [discriminate|]. destruct (split c r); discriminate.
Qed.

Lemma split_none (c : ascii) (k : string) :
  ¬ In c (list_ascii_of_string k) → split c k = [k].
Proof.
  induction k as [|a k IH]; cbn; [reflexivity|]. intros Hn.
  destruct (Ascii.eqb_spec a c) as [->|_]; [tauto|].
  rewrite IH by tauto. reflexivity.
Qed.

Lemma split_first (c : ascii) (k rest : string) :
  ¬ In c (list_ascii_of_string k) →
  split c (k ++ String c rest)%string = k :: split c rest.
Proof.
  induction k as [|a k IH]; intros Hn.
  - change (split c (String c rest) = "" :: split c rest). cbn.
    now rewrite Ascii.eqb_refl.
  - change (split c (String a (k ++ String c rest)) = String a k :: split c rest).
    cbn in Hn. cbn [split].
    destruct (Ascii.eqb_spec a c) as [->|_]; [tauto|].
    rewrite IH by tauto. reflexivity.
Qed.

(** A line without a colon is skipped. *)
Lemma headerLine_no_colon (o : gmap string json) (line : string) :
  ¬ In ":"%char (list_ascii_of_string line) → headerLine o line = o.
Proof. intros Hn. unfold headerLine. now rewrite split_none. Qed.

(** A line [k:v] with no colon in [k] or [v] adds the trimmed pair when
    both [k] and [v], as they stand before trimming, are non-empty. *)
Lemma headerLine_pair (o : gmap string json) (k v : string) :
  ¬ In ":"%char (list_ascii_of_string k) →
  ¬ In ":"%char (list_ascii_of_string v) →
  headerLine o (k ++ String ":" v)%string =
    if str_truthy k && str_truthy v
    then assign (trim k) (JStr (trim v)) o else o.
Proof.
  intros Hk Hv. unfold headerLine. rewrite (split_first _ k) by assumption.
  rewrite (split_none _ v) by assumption.
  reflexivity.
Qed.

(** Whatever follows a second colon is dropped with that colon. *)
Lemma headerLine_second_colon (o : gmap string json) (k v tail : string) :
  ¬ In ":"%char (list_ascii_of_string k) →
  ¬ In ":"%char (list_ascii_of_string v) →
  headerLine o (k ++ String ":" (v ++ String ":" tail))%string
  = headerLine o (k ++ String ":" v)%string.
Proof.
  intros Hk Hv. rewrite (headerLine_pair o k v) by assumption.
  unfold headerLine. rewrite (split_first _ k) by assumption.
  rewrite (split_first _ v) by assumption. reflexivity.
Qed.

(** C3, at the inputs where the code departs from it.  The header text
    [Referer: http://a] is not JSON, so the line scan runs;
    [line.split(':')] cuts the line at every colon and the destructuring
    keeps the first two pieces, so the value stored is [http], cut at its
    first colon, where splitting on the first colon only gives [http://a].
    And as the emptiness test comes before the trimming, the line of a colon
    between two blanks adds the pair of two empty strings. *)
Theorem parseHeaders_cuts_value_at_colon :
  JSON.parse "Referer: http://a" = None ∧
  parseHeaders "Referer: http://a" = JObj {[ "Referer" := JStr "http" ]} ∧
  parseHeaders "Referer: http://a" ≠ JObj {[ "Referer" := JStr "http://a" ]} ∧
  parseHeaders " : " = JObj {[ "" := JStr "" ]}.
Proof.
  split; [run|]. split; [run|]. split; [|run].
  intros E. apply (f_equal (fun v => get_prop (Some v) "Referer")) in E.
  vm_compute in E. discriminate E.
Qed.

(** ** The guards and the outbound call of [executeRequest] *)

Lemma str_truthy_false (s : string) : str_truthy s = false ↔ s = "".
Proof. destruct s; cbn; split; congruence. Qed.

Lemma str_truthy_true (s : string) : str_truthy s = true ↔ s ≠ "".
Proof. destruct s; cbn; split; congruence. Qed.

Lemma includes_nonempty (needle hay : string) :
  needle ≠ "" → includes needle hay = true → hay ≠ "".
Proof. intros Hn Hi ->. destruct needle; [congruence | discriminate]. Qed.

(** [includes] with a one-character needle: the character occurs. *)
Lemma includes_char (c : ascii) (hay : string) :
  includes (String c "") hay = true ↔ In c (list_ascii_of_string hay).
Proof.
  induction hay as [|a r IH]; cbn [includes String.prefix list_ascii_of_string In].
  - split; [discriminate | tauto].
  - destruct (ascii_dec c a) as [->|Hne].
    + destruct r; cbn; tauto.
    + cbn [orb]. rewrite IH. split; [tauto | intros [E|Hin]; [congruence | exact Hin]].
Qed.

Ltac validate_cases t ep :=
  unfold validate; destruct t, ep; cbn [str_truthy negb];
  try destruct (includes ":" (String _ _)) eqn:?;
  intuition congruence.

Lemma validate_credential (t ep : string) :
  validate t ep = Some MissingCredential ↔ t = "".
Proof. validate_cases t ep. Qed.

Lemma validate_endpoint (t ep : string) :
  validate t ep = Some MissingEndpoint ↔ t ≠ "" ∧ ep = "".
Proof. validate_cases t ep. Qed.

Lemma validate_placeholder (t ep : string) :
  validate t ep = Some UnresolvedPlaceholder
  ↔ t ≠ "" ∧ ep ≠ "" ∧ includes ":" ep = true.
Proof. validate_cases t ep. Qed.

Lemma validate_passes (t ep : string) :
  validate t ep = None ↔ t ≠ "" ∧ ep ≠ "" ∧ includes ":" ep = false.
Proof. validate_cases t ep. Qed.

Lemma append_inj_l (p a b : string) : (p ++ a = p ++ b)%string → a = b.
Proof. induction p as [|c p IH]; cbn; [tauto|]. intros [= E]. auto. Qed.

Section Client.

Context `{Host}.

Implicit Types (s : Sys) (e : ValidationError) (c : App).

Lemma executeRequest_rejected s e :
  validate (figmaToken (app s)) (endpoint (app s)) = Some e →
  executeRequest s = (inl tt, rejected e s).
Proof.
  intros Hv. unfold executeRequest, mbind, M_bind, bind, render.
  rewrite Hv. destruct e, s as [a w l]; reflexivity.
Qed.

Lemma requests_app (l1 l2 : list event) :
  requests (l1 ++ l2) = requests l1 ++ requests l2.
Proof. unfold requests. apply omap_app. Qed.

Lemma requests_rejected e s : requests (log (rejected e s)) = requests (log s).
Proof. cbn. rewrite requests_app. cbn. apply app_nil_r. Qed.

Ltac step :=
  unfold executeRequest, loadHistory, loadSavedRequests, clearHistory,
    toggleFavorite, try_finally, try_catch, mbind, M_bind, bind, render,
    JSON_parse, axios_get, axios_post, axios_put, axios_delete, await_axios,
    setLoading, setResponse, setHistory, setSavedRequests, toast,
    console_error, set_state, emit, ret, throw; cbn beta iota.

Lemma loadHistory_run s :
  loadHistory s =
    match axios history_request (world s) with
    | (Fulfilled res, w) =>
        (inl tt, {| app := with_history (data res) (app s); world := w;
                    log := log s ++ [Request history_request] |})
    | (Rejected _, w) =>
        (inl tt, {| app := app s; world := w;
                    log := (log s ++ [Request history_request])
                           ++ [Console "Failed to load history"] |})
    end.
Proof.
  step. fold history_request.
  destruct (axios history_request (world s)) as [[res|e] w]; reflexivity.
Qed.

Lemma executeRequest_malformed_body s :
  validate (figmaToken (app s)) (endpoint (app s)) = None →
  body_value (app s) = None →
  executeRequest s =
    (inl tt, {| app := failed (body_error (app s)) (app s); world := world s;
                log := log s ++ [Toast error "Request failed"] |}).
Proof.
  intros Hv Hb. step. rewrite Hv. unfold body_value in Hb.
  destruct (str_truthy (body (app s))); [|discriminate].
  rewrite Hb. reflexivity.
Qed.

Lemma executeRequest_call_rejected s (b : json) (e : js_error) (w : World) :
  validate (figmaToken (app s)) (endpoint (app s)) = None →
  body_value (app s) = Some b →
  axios (outbound (app s) b) (world s) = (Rejected e, w) →
  executeRequest s =
    (inl tt, {| app := failed e (app s); world := w;
                log := (log s ++ [Request (outbound (app s) b)])
                       ++ [Toast error "Request failed"] |}).
Proof.
  intros Hv Hb Ha. step. rewrite Hv. unfold body_value in Hb.
  unfold outbound in Ha.
  destruct (str_truthy (body (app s))).
  - rewrite Hb. cbn. rewrite Ha. reflexivity.
  - injection Hb as <-. cbn. rewrite Ha. reflexivity.
Qed.

Lemma executeRequest_call_fulfilled s (b : json) (res : http_response) (w : World) :
  validate (figmaToken (app s)) (endpoint (app s)) = None →
  body_value (app s) = Some b →
  axios (outbound (app s) b) (world s) = (Fulfilled res, w) →
  executeRequest s =
    (inl tt,
     let s' := (loadHistory (answered res b w s)).2 in
     {| app := with_loading false (app s'); world := world s'; log := log s' |}).
Proof.
  intros Hv Hb Ha. rewrite loadHistory_run.
  step. rewrite Hv. unfold body_value in Hb. unfold outbound in Ha.
  fold history_request.
  destruct (str_truthy (body (app s))).
  - rewrite Hb. cbn. rewrite Ha. cbn.
    destruct (axios history_request w) as [[r2|e2] w2]; reflexivity.
  - injection Hb as <-. cbn. rewrite Ha. cbn.
    destruct (axios history_request w) as [[r2|e2] w2]; reflexivity.
Qed.

Lemma executeRequest_returns s : (executeRequest s).1 = inl tt.
Proof.
  destruct (validate (figmaToken (app s)) (endpoint (app s))) as [e|] eqn:Hv.
  - now rewrite (executeRequest_rejected _ _ Hv).
  - destruct (body_value (app s)) as [b|] eqn:Hb.
    + destruct (axios (outbound (app s) b) (world s)) as [[res|e] w] eqn:Ha.
      * now rewrite (executeRequest_call_fulfilled _ _ _ _ Hv Hb Ha).
      * now rewrite (executeRequest_call_rejected _ _ _ _ Hv Hb Ha).
    + now rewrite (executeRequest_malformed_body _ Hv Hb).
Qed.

(** C4: validation fails whenever no token is configured, the endpoint is
    empty, or the endpoint contains a colon: with MissingCredential when no
    token is configured, with MissingEndpoint when (a token being
    configured) the endpoint is empty, and with UnresolvedPlaceholder when
    (a token being configured) the endpoint contains a colon, legitimate or
    not.  Every such failure is terminal: [executeRequest]
    returns with the server untouched, no request sent, and the history, the
    response and the loading flag of the client as they were.  With a token
    configured, [/files/:file_key] fails with UnresolvedPlaceholder and
    [/files/ABC123] passes. *)
Theorem validation_failure_is_terminal s :
  (figmaToken (app s) = "" →
   validate (figmaToken (app s)) (endpoint (app s)) = Some MissingCredential) ∧
  (figmaToken (app s) ≠ "" → endpoint (app s) = "" →
   validate (figmaToken (app s)) (endpoint (app s)) = Some MissingEndpoint) ∧
  (figmaToken (app s) ≠ "" →
   In ":"%char (list_ascii_of_string (endpoint (app s))) →
   validate (figmaToken (app s)) (endpoint (app s)) = Some UnresolvedPlaceholder) ∧
  (∀ e, validate (figmaToken (app s)) (endpoint (app s)) = Some e →
     (executeRequest s).1 = inl tt ∧
     world (executeRequest s).2 = world s ∧
     requests (log (executeRequest s).2) = requests (log s) ∧
     history (app (executeRequest s).2) = history (app s) ∧
     response_ (app (executeRequest s).2) = response_ (app s) ∧
     loading (app (executeRequest s).2) = loading (app s)) ∧
  (∀ token, token ≠ "" →
     validate token "/files/:file_key" = Some UnresolvedPlaceholder ∧
     validate token "/files/ABC123" = None) ∧
  (figmaToken (app s) = "" ∨ endpoint (app s) = ""
   ∨ In ":"%char (list_ascii_of_string (endpoint (app s))) →
   validate (figmaToken (app s)) (endpoint (app s)) ≠ None).
Proof.
  split; [|split; [|split; [|split; [|split]]]].
  - intros Ht. now apply validate_credential.
  - intros Ht Hep. now apply validate_endpoint.
  - intros Ht Hi. apply includes_char in Hi.
    apply validate_placeholder. split; [done|split; [|done]].
    now apply (includes_nonempty ":").
  - intros e Hv. rewrite (executeRequest_rejected _ _ Hv). cbn [fst snd].
    rewrite requests_rejected. destruct e; repeat split.
  - intros token Ht. split.
    + apply validate_placeholder. split; [done|split; [discriminate|reflexivity]].
    + apply validate_passes. split; [done|split; [discriminate|reflexivity]].
  - intros Hd Hv. apply validate_passes in Hv as (Ht & Hep & Hi).
    destruct Hd as [E|[E|Hin]]; [congruence | congruence |].
    apply includes_char in Hin. congruence.
Qed.

(** C10: one error is reported per attempt, that of the first failing
    check in the order credential, endpoint, placeholder: the outcome of the
    guards is MissingCredential exactly when the token is empty,
    MissingEndpoint exactly when the token is set and the endpoint empty,
    UnresolvedPlaceholder exactly when both are set and the endpoint has a
    colon; and a failing attempt adds exactly one entry to the trace, the
    error text of that check. *)
Theorem first_failing_check_is_reported s :
  (validate (figmaToken (app s)) (endpoint (app s)) = Some MissingCredential
   ↔ figmaToken (app s) = "") ∧
  (validate (figmaToken (app s)) (endpoint (app s)) = Some MissingEndpoint
   ↔ figmaToken (app s) ≠ "" ∧ endpoint (app s) = "") ∧
  (validate (figmaToken (app s)) (endpoint (app s)) = Some UnresolvedPlaceholder
   ↔ figmaToken (app s) ≠ "" ∧ endpoint (app s) ≠ ""
     ∧ includes ":" (endpoint (app s)) = true) ∧
  (∀ e, validate (figmaToken (app s)) (endpoint (app s)) = Some e →
     log (executeRequest s).2 = log s ++ [Toast error (error_text e)]) ∧
  (∀ e e', error_text e = error_text e' → e = e').
Proof.
  split; [|split; [|split; [|split]]].
  - apply validate_credential.
  - apply validate_endpoint.
  - apply validate_placeholder.
  - intros e Hv. now rewrite (executeRequest_rejected _ _ Hv).
  - intros [] []; cbn; intros E; first [reflexivity | discriminate E].
Qed.

Lemma executeRequest_requests s :
  requests (log (executeRequest s).2) = requests (log s) ++ issued s.
Proof.
  unfold issued.
  destruct (validate (figmaToken (app s)) (endpoint (app s))) as [e|] eqn:Hv.
  - rewrite (executeRequest_rejected _ _ Hv). cbn [snd].
    rewrite requests_rejected. now rewrite app_nil_r.
  - destruct (body_value (app s)) as [b|] eqn:Hb.
    + destruct (axios (outbound (app s) b) (world s)) as [[res|e] w] eqn:Ha.
      * rewrite (executeRequest_call_fulfilled _ _ _ _ Hv Hb Ha). cbn [snd log].
        rewrite loadHistory_run. cbn [world answered].
        destruct (axios history_request w) as [[r2|e2] w2]; cbn [snd log answered];
          rewrite !requests_app; cbn; now rewrite <- !app_assoc.
      * rewrite (executeRequest_call_rejected _ _ _ _ Hv Hb Ha). cbn [snd log].
        rewrite !requests_app. cbn. now rewrite <- !app_assoc.
    + rewrite (executeRequest_malformed_body _ Hv Hb). cbn [snd log].
      rewrite requests_app. cbn. now rewrite !app_nil_r.
Qed.

Lemma payload_method c (b : json) :
  get_prop (payload (outbound c b)) "method"
  = Some (JStr (if String.eqb (method c) "PAGE" then "GET" else method c)).
Proof. cbn. unfold proxy_payload. now rewrite lookup_insert_eq. Qed.

Lemma payload_endpoint c (b : json) :
  get_prop (payload (outbound c b)) "endpoint" = Some (JStr (endpoint c)).
Proof.
  cbn. unfold proxy_payload. now rewrite lookup_insert_ne, lookup_insert_eq.
Qed.

(** The client's part in a PAGE request: every request a run of
    [executeRequest] sends is either the history reload or the one POST of
    the run, and that POST goes to the page route, not the proxy route, with
    [method] GET and the endpoint as entered; it is sent whenever the guards
    pass and the body is empty or parses.  Whatever is selected, the posted
    [method] is never PAGE. *)
Lemma page_post s :
  method (app s) = "PAGE" →
  (∀ r, r ∈ issued s →
     r = history_request ∨
     (verb r = POST ∧ url r = (API ++ "/figma/page")%string ∧
      url r ≠ (API ++ "/figma/proxy")%string ∧
      get_prop (payload r) "method" = Some (JStr "GET") ∧
      get_prop (payload r) "endpoint" = Some (JStr (endpoint (app s))))) ∧
  requests (log (executeRequest s).2) = requests (log s) ++ issued s ∧
  (∀ b, validate (figmaToken (app s)) (endpoint (app s)) = None →
        body_value (app s) = Some b → outbound (app s) b ∈ issued s) ∧
  (∀ c b, get_prop (payload (outbound c b)) "method" ≠ Some (JStr "PAGE")).
Proof.
  intros Hm. split; [|split; [|split]].
  - assert (Hout : ∀ b, verb (outbound (app s) b) = POST ∧
        url (outbound (app s) b) = (API ++ "/figma/page")%string ∧
        url (outbound (app s) b) ≠ (API ++ "/figma/proxy")%string ∧
        get_prop (payload (outbound (app s) b)) "method" = Some (JStr "GET") ∧
        get_prop (payload (outbound (app s) b)) "endpoint"
        = Some (JStr (endpoint (app s)))).
    { intros b. rewrite payload_method, payload_endpoint.
      cbn [outbound verb url]. unfold apiEndpoint. rewrite Hm. cbn.
      repeat split. intros E. apply append_inj_l in E. discriminate E. }
    intros r Hr. unfold issued in Hr.
    destruct (validate _ _); [now apply elem_of_nil in Hr|].
    destruct (body_value (app s)) as [b|]; [|now apply elem_of_nil in Hr].
    apply elem_of_cons in Hr as [->|Hr]; [right; apply Hout|].
    destruct (axios _ _) as [[res|e] w].
    + apply list_elem_of_singleton in Hr as ->. now left.
    + now apply elem_of_nil in Hr.
  - apply executeRequest_requests.
  - intros b Hv Hb. unfold issued. rewrite Hv, Hb. apply elem_of_cons. now left.
  - intros c b. rewrite payload_method.
    destruct (String.eqb_spec (method c) "PAGE") as [_|Hne]; [discriminate|].
    intros [= E]. contradiction.
Qed.

Lemma failure_envelope_error (e : js_error) :
  get_prop (Some (failure_envelope e)) "error" = Some (JBool true).
Proof. cbn. unfold failure_envelope. now rewrite lookup_insert_eq. Qed.

Lemma failure_envelope_message (e : js_error) :
  get_prop (Some (failure_envelope e)) "message"
  = Some (js_or (get_prop (data <$> response e) "detail") (JStr (message e))).
Proof.
  cbn. unfold failure_envelope. now rewrite lookup_insert_ne, lookup_insert_eq.
Qed.

Lemma js_or_truthy (a : option json) (text : string) :
  text ≠ "" → truthy (js_or a (JStr text)) = true.
Proof.
  intros Ht. unfold js_or. destruct a as [x|].
  - destruct (truthy x) eqn:Hx; [exact Hx|]. cbn. now apply str_truthy_true.
  - cbn. now apply str_truthy_true.
Qed.

Lemma js_or_cases (a : option json) (b : json) :
  (∃ x, a = Some x ∧ truthy x = true ∧ js_or a b = x)
  ∨ (truthy_opt a = false ∧ js_or a b = b).
Proof.
  destruct a as [x|]; cbn; [|now right].
  destruct (truthy x) eqn:Hx; [left; eauto | now right].
Qed.

End Client.

(** ** The client against the modelled server *)

#[local] Existing Instance Backend.host.

Lemma strip_prefix_app (p r : string) : Backend.strip_prefix p (p ++ r) = Some r.
Proof.
  induction p as [|a p IH]; [reflexivity|].
  change (String a p ++ r)%string with (String a (p ++ r)).
  cbn [Backend.strip_prefix]. now rewrite Ascii.eqb_refl.
Qed.

Lemma spec_of_payload (c : App) (b : json) :
  Backend.spec_of (Some (proxy_payload c b)) = Some (Backend.request_spec c b).
Proof.
  unfold Backend.spec_of, Backend.request_spec, proxy_payload, get_prop.
  lookup_keys.
  destruct b; reflexivity.
Qed.

(** The server's answer to the POST of [executeRequest]. *)
Lemma serve_outbound (c : App) (b : json) (w : Backend.Server) :
  @axios Backend.host (outbound c b) w =
    (Backend.ok (Backend.envelope_json (Backend.run_of c b w).1),
     (Backend.run_of c b w).2).
Proof.
  cbn [axios Backend.host]. unfold Backend.serve, outbound, apiEndpoint.
  cbn [url verb payload]. unfold API. cbn [BACKEND_URL Backend.host].
  unfold Backend.run_of.
  destruct (String.eqb (method c) "PAGE").
  - rewrite strip_prefix_app. rewrite spec_of_payload. reflexivity.
  - rewrite strip_prefix_app. rewrite spec_of_payload. reflexivity.
Qed.

Lemma serve_history (w : Backend.Server) :
  @axios Backend.host history_request w =
    (Backend.ok (JArr (map Backend.history_json (Backend.list_history w))), w).
Proof. reflexivity. Qed.



(** A submitted run against the server, in full. *)
Lemma executeRequest_served (s : @Sys Backend.host) (b : json) :
  submitted s b →
  executeRequest s =
    (inl tt,
     let w := (Backend.run_of (app s) b (world s)).2 in
     {| app := with_loading false
                 (with_history (JArr (map Backend.history_json (Backend.list_history w)))
                    (with_response
                       (Backend.envelope_json (Backend.run_of (app s) b (world s)).1)
                       (with_loading true (app s))));
        world := w;
        log := ((log s ++ [Request (outbound (app s) b)])
                ++ [Toast success "Request executed successfully"])
               ++ [Request history_request] |}).
Proof.
  intros [Hv Hb].
  rewrite (executeRequest_call_fulfilled s b _ _ Hv Hb (serve_outbound _ _ _)).
  rewrite loadHistory_run. cbn [answered world]. rewrite serve_history.
  reflexivity.
Qed.

Lemma envelope_json_success (code : Z) (body : json) :
  get_prop (Some (Backend.envelope_json (Backend.Success code body))) "error"
    = Some (JBool false) ∧
  get_prop (Some (Backend.envelope_json (Backend.Success code body))) "status_code"
    = Some (JNum code 0) ∧
  get_prop (Some (Backend.envelope_json (Backend.Success code body))) "data"
    = Some body.
Proof. cbn. now lookup_keys. Qed.

Lemma envelope_json_failure (d : string) :
  get_prop (Some (Backend.envelope_json (Backend.Failure d))) "error"
    = Some (JBool true) ∧
  get_prop (Some (Backend.envelope_json (Backend.Failure d))) "message"
    = Some (JStr d).
Proof. cbn. now lookup_keys. Qed.

(** C7: [executeRequest] always returns, whatever fails inside it.  When
    the body text is not JSON, or when the call is rejected with an error
    [e], the response becomes the object [{error: true, message}] whose
    message is [e.response.data.detail] when that is present and truthy and
    [e.message] otherwise, hence non-empty as soon as [e.message] is.  On
    the modelled server, any status the upstream answers with, 2xx or not,
    comes back as [{error: false, status_code, data}] with the upstream body
    as [data], and an unreachable upstream as [{error: true, message}]. *)
Theorem local_failure_yields_error_envelope :
  (∀ (H : Host) (s : @Sys H),
     (executeRequest s).1 = inl tt ∧
     (validate (figmaToken (app s)) (endpoint (app s)) = None →
      body_value (app s) = None →
      response_ (app (executeRequest s).2) = failure_envelope (body_error (app s))
      ∧ message (body_error (app s)) = SyntaxError_message (body (app s))
      ∧ issued s = []) ∧
     (∀ b e w, submitted s b →
      axios (outbound (app s) b) (world s) = (Rejected e, w) →
      response_ (app (executeRequest s).2) = failure_envelope e)) ∧
  (∀ e : js_error,
     get_prop (Some (failure_envelope e)) "error" = Some (JBool true) ∧
     (∃ m, get_prop (Some (failure_envelope e)) "message" = Some m ∧
        ((∃ detail, get_prop (data <$> response e) "detail" = Some detail
                    ∧ truthy detail = true ∧ m = detail)
         ∨ (truthy_opt (get_prop (data <$> response e) "detail") = false
            ∧ m = JStr (message e))) ∧
        (message e ≠ "" → truthy m = true ∧ m ≠ JStr ""))) ∧
  (∀ (s : @Sys Backend.host) (b : json), submitted s b →
     method (app s) ≠ "PAGE" →
     (∀ code body,
        Backend.upstream (world s) (Backend.upstream_of (app s) b (world s))
        = Backend.Answered code body →
        response_ (app (executeRequest s).2)
        = Backend.envelope_json (Backend.Success code body)
        ∧ get_prop (Some (response_ (app (executeRequest s).2))) "error"
          = Some (JBool false)
        ∧ get_prop (Some (response_ (app (executeRequest s).2))) "status_code"
          = Some (JNum code 0)
        ∧ get_prop (Some (response_ (app (executeRequest s).2))) "data"
          = Some body) ∧
     (∀ d,
        Backend.upstream (world s) (Backend.upstream_of (app s) b (world s))
        = Backend.Unreachable d →
        get_prop (Some (response_ (app (executeRequest s).2))) "error"
          = Some (JBool true)
        ∧ get_prop (Some (response_ (app (executeRequest s).2))) "message"
          = Some (JStr d))).
Proof.
  split; [|split].
  - intros H s. split; [apply executeRequest_returns|]. split.
    + intros Hv Hb. rewrite (executeRequest_malformed_body _ Hv Hb).
      split; [reflexivity|]. split; [reflexivity|].
      unfold issued. now rewrite Hv, Hb.
    + intros b e w [Hv Hb] Ha.
      now rewrite (executeRequest_call_rejected _ _ _ _ Hv Hb Ha).
  - intros e. split; [apply failure_envelope_error|].
    eexists. split; [apply failure_envelope_message|]. split.
    + destruct (js_or_cases (get_prop (data <$> response e) "detail")
                  (JStr (message e))) as [(x & Hx & Ht & ->)|[Hf ->]];
        [left; eauto | now right].
    + intros Hm. pose proof (js_or_truthy (get_prop (data <$> response e) "detail")
                               _ Hm) as Ht.
      split; [exact Ht|]. intros E. rewrite E in Ht. discriminate Ht.
  - intros s b Hs Hm.
    assert (Hr : response_ (app (executeRequest s).2)
                 = Backend.envelope_json (Backend.run_of (app s) b (world s)).1)
      by now rewrite (executeRequest_served _ _ Hs).
    assert (Hrun : (Backend.run_of (app s) b (world s)).1
                   = match Backend.upstream (world s)
                             (Backend.upstream_of (app s) b (world s)) with
                     | Backend.Answered c bd => Backend.Success c bd
                     | Backend.Unreachable d => Backend.Failure d
                     end).
    { unfold Backend.run_of, Backend.upstream_of, Backend.request_spec.
      destruct (String.eqb_spec (method (app s)) "PAGE"); [contradiction|].
      reflexivity. }
    rewrite Hr, Hrun. split.
    + intros code body ->. split; [reflexivity|]. apply envelope_json_success.
    + intros d ->. apply envelope_json_failure.
Qed.

(** With PAGE selected, the call the server makes upstream is a GET on the
    endpoint as entered. *)
Lemma page_upstream_call (c : App) (b : json) (w : Backend.Server) :
  method c = "PAGE" →
  Backend.up_method (Backend.upstream_of c b w) = "GET" ∧
  Backend.up_url (Backend.upstream_of c b w)
  = (Backend.upstream_base ++ endpoint c)%string.
Proof.
  intros Hm. unfold Backend.upstream_of, Backend.request_spec. rewrite Hm.
  split; reflexivity.
Qed.

(** C5: with PAGE selected, on any host, every request a run of
    [executeRequest] sends is either the history reload or the one POST of
    the run, and that POST goes to the page route, not the proxy route, with
    [method] GET and the endpoint as entered; it is sent whenever the guards
    pass and the body is empty or parses; whatever is selected, the posted
    [method] is never PAGE.  On the modelled server, the run then consults
    the upstream at one call, which is a GET on the upstream base followed
    by the same endpoint, with the posted headers under the server's token
    and the posted body: the envelope shown and the history entry recorded
    under the label PAGE are those of that call's outcome. *)
Theorem page_is_posted_as_get :
  (∀ (H : Host) (s : @Sys H),
     method (app s) = "PAGE" →
     (∀ r, r ∈ issued s →
        r = history_request ∨
        (verb r = POST ∧ url r = (API ++ "/figma/page")%string ∧
         url r ≠ (API ++ "/figma/proxy")%string ∧
         get_prop (payload r) "method" = Some (JStr "GET") ∧
         get_prop (payload r) "endpoint" = Some (JStr (endpoint (app s))))) ∧
     requests (log (executeRequest s).2) = requests (log s) ++ issued s ∧
     (∀ b, validate (figmaToken (app s)) (endpoint (app s)) = None →
           body_value (app s) = Some b → outbound (app s) b ∈ issued s) ∧
     (∀ c b, get_prop (payload (@outbound H c b)) "method" ≠ Some (JStr "PAGE"))) ∧
  (∀ (s : @Sys Backend.host) (b : json),
     method (app s) = "PAGE" → submitted s b →
     let call :=
       {| Backend.up_method := "GET";
          Backend.up_url := (Backend.upstream_base ++ endpoint (app s))%string;
          Backend.up_headers :=
            <[Backend.auth_header := JStr (Backend.authToken (world s))]>
              (requestHeaders (figmaToken (app s)) (headers (app s)));
          Backend.up_body := match b with JNull => None | _ => Some b end |} in
     Backend.upstream_of (app s) b (world s) = call ∧
     response_ (app (executeRequest s).2)
     = Backend.envelope_json
         match Backend.upstream (world s) call with
         | Backend.Answered code body =>
             Backend.Success code (Backend.first_page body)
         | Backend.Unreachable d => Backend.Failure d
         end ∧
     world (executeRequest s).2
     = Backend.record_outcome "PAGE" (endpoint (app s))
         (Backend.upstream (world s) call) (world s)).
Proof.
  split; [intros H s Hm; exact (page_post s Hm)|].
  intros s b Hm Hsub. cbv zeta.
  rewrite (executeRequest_served s b Hsub). cbn [fst snd app world].
  unfold Backend.upstream_of, Backend.run_of, Backend.request_spec,
    Backend.executePage, Backend.call_upstream.
  rewrite Hm. cbn [String.eqb Ascii.eqb Bool.eqb fst snd Backend.rs_method
                   Backend.rs_endpoint Backend.rs_headers Backend.rs_body].
  repeat split.
Qed.

(** ** History *)







(** ** The properties at concrete states *)

(** C4 at three states: no token; a token and an empty endpoint; a token
    and the endpoint [/files/:file_key]. *)
Lemma validation_failure_examples :
  let none := {| app := initial; world := Backend.demo_server; log := [] |} in
  let empty := Backend.demo (Backend.demo_app "GET" "" "" "") in
  let colon := Backend.demo (Backend.demo_app "GET" "/files/:file_key" "" "") in
  validate (figmaToken (app none)) (endpoint (app none)) = Some MissingCredential ∧
  validate (figmaToken (app empty)) (endpoint (app empty)) = Some MissingEndpoint ∧
  validate (figmaToken (app colon)) (endpoint (app colon))
    = Some UnresolvedPlaceholder ∧
  world (executeRequest colon).2 = world colon ∧
  requests (log (executeRequest colon).2) = requests (log colon).
Proof.
  cbv zeta.
  split; [exact (proj1 (validation_failure_is_terminal
                          {| app := initial; world := Backend.demo_server;
                             log := [] |}) eq_refl)|].
  split; [refine (proj1 (proj2 (validation_failure_is_terminal
                          (Backend.demo (Backend.demo_app "GET" "" "" ""))))
                    _ eq_refl); discriminate|].
  pose proof (validation_failure_is_terminal
                (Backend.demo (Backend.demo_app "GET" "/files/:file_key" "" "")))
    as (_ & _ & Hc & Ht & _).
  assert (Hv := Hc ltac:(discriminate) ltac:(cbn; tauto)).
  split; [exact Hv|].
  destruct (Ht _ Hv) as (_ & Hw & Hr & _). exact (conj Hw Hr).
Defined.

(** C10 at a state with two defects, no token and no endpoint: the one
    report is the missing credential. *)
Lemma two_defects_one_report :
  let s := {| app := with_showTokenDialog false initial;
              world := Backend.demo_server; log := [] |} in
  figmaToken (app s) = "" ∧ endpoint (app s) = "" ∧
  validate (figmaToken (app s)) (endpoint (app s)) = Some MissingCredential ∧
  log (executeRequest s).2 = [Toast error "Please add your Figma token first"].
Proof.
  cbv zeta. split; [reflexivity|]. split; [reflexivity|].
  pose proof (first_failing_check_is_reported
                {| app := with_showTokenDialog false initial;
                   world := Backend.demo_server; log := [] |})
    as (Hc & _ & _ & Hl & _).
  assert (Hv := proj2 Hc eq_refl). split; [exact Hv|]. exact (Hl _ Hv).
Defined.

(** C5 at PAGE on [/files/ABC123]. *)
Lemma page_example :
  let s := Backend.demo (Backend.demo_app "PAGE" "/files/ABC123" "" "") in
  method (app s) = "PAGE" ∧
  requests (log (executeRequest s).2) = [outbound (app s) JNull; history_request] ∧
  url (outbound (app s) JNull) = "http://localhost:8001/api/figma/page" ∧
  get_prop (payload (outbound (app s) JNull)) "method" = Some (JStr "GET") ∧
  get_prop (payload (outbound (app s) JNull)) "endpoint"
    = Some (JStr "/files/ABC123") ∧
  Backend.up_method (Backend.upstream_of (app s) JNull (world s)) = "GET" ∧
  Backend.up_url (Backend.upstream_of (app s) JNull (world s))
    = "https://api.figma.com/v1/files/ABC123" ∧
  Backend.h_method <$> Backend.entries (world (executeRequest s).2) = ["PAGE"].
Proof.
  cbv zeta. split; [reflexivity|].
  destruct page_is_posted_as_get as [Hclient Hserver].
  destruct (Hclient Backend.host
              (Backend.demo (Backend.demo_app "PAGE" "/files/ABC123" "" ""))
              eq_refl) as (Hall & Hlog & Hin & _).
  split; [rewrite Hlog; reflexivity|].
  destruct (Hall _ (Hin JNull eq_refl eq_refl)) as [E|(_ & Hu & _ & Hm & He)];
    [discriminate E|].
  split; [exact Hu|]. split; [exact Hm|]. split; [exact He|].
  destruct (Hserver (Backend.demo (Backend.demo_app "PAGE" "/files/ABC123" "" ""))
              JNull eq_refl (conj eq_refl eq_refl)) as (Hcall & _ & Hw).
  rewrite Hcall, Hw. repeat split.
Defined.

(** C7 at three runs against the demo server: a body that is not JSON, an
    endpoint the upstream answers with 404, and an unreachable upstream. *)
Lemma failure_examples :
  let bad := Backend.demo (Backend.demo_app "POST" "/me" "" "{") in
  let missing := Backend.demo (Backend.demo_app "GET" "/nothing" "" "") in
  let down := Backend.demo (Backend.demo_app "GET" "/down" "" "") in
  response_ (app (executeRequest bad).2)
    = JObj (<["error" := JBool true]>
            (<["message" := JStr "Unexpected token in JSON"]> ∅)) ∧
  get_prop (Some (response_ (app (executeRequest missing).2))) "error"
    = Some (JBool false) ∧
  get_prop (Some (response_ (app (executeRequest missing).2))) "status_code"
    = Some (JNum 404 0) ∧
  get_prop (Some (response_ (app (executeRequest down).2))) "message"
    = Some (JStr "timed out").
Proof.
  cbv zeta.
  destruct local_failure_yields_error_envelope as (Hgen & _ & Hsrv).
  split.
  { destruct (Hgen _ (Backend.demo (Backend.demo_app "POST" "/me" "" "{")))
      as (_ & Hbad & _).
    destruct (Hbad eq_refl eq_refl) as (-> & _). reflexivity. }
  destruct (Hsrv (Backend.demo (Backend.demo_app "GET" "/nothing" "" "")) JNull
              (conj eq_refl eq_refl) ltac:(discriminate)) as (Hans & _).
  destruct (Hans 404 (JObj {[ "err" := JStr "Not found" ]}) eq_refl)
    as (_ & He & Hc & _).
  split; [exact He|]. split; [exact Hc|].
  destruct (Hsrv (Backend.demo (Backend.demo_app "GET" "/down" "" "")) JNull
              (conj eq_refl eq_refl) ltac:(discriminate)) as (_ & Hdown).
  exact (proj2 (Hdown "timed out" eq_refl)).
Defined.

(** ** Page extraction on the modelled server *)

Lemma children_of_document (l : list json) :
  Backend.children_of
    (JObj {[ "document" := JObj {[ "children" := JArr l ]} ]}) = l.
Proof.
  unfold Backend.children_of, get_prop. now rewrite !lookup_singleton_eq.
Qed.

(** C6 (on the page extractor modelled from section 4.4): when the upstream
    answers the GET with a status and a document, the envelope of the page
    execution is a success with that same status, as the proxy executor
    gives for the same answer, and with [data] the first child of the
    document when it has children, the explicit no-pages indicator when it
    has none; children [A, B, C] yield [A]. *)
Theorem executePage_returns_first_child
    (r : Backend.RequestSpec) (token : string) (s : Backend.Server)
    (code : Z) (body : json) :
  Backend.upstream s (Backend.call_upstream "GET" r token)
    = Backend.Answered code body →
  (∀ page rest, Backend.children_of body = page :: rest →
     (Backend.executePage r token s).1 = Backend.Success code page) ∧
  (Backend.children_of body = [] →
     (Backend.executePage r token s).1 = Backend.Success code Backend.no_pages) ∧
  (∃ d, (Backend.executePage r token s).1 = Backend.Success code d ∧
     ∀ r', Backend.upstream s (Backend.call_upstream (Backend.rs_method r') r' token)
           = Backend.Answered code body →
       (Backend.execute r' token s).1 = Backend.Success code body ∧
       get_prop (Some (Backend.envelope_json (Backend.executePage r token s).1))
         "status_code"
       = get_prop (Some (Backend.envelope_json (Backend.execute r' token s).1))
           "status_code" ∧
       get_prop (Some (Backend.envelope_json (Backend.executePage r token s).1))
         "error"
       = get_prop (Some (Backend.envelope_json (Backend.execute r' token s).1))
           "error" ∧
       get_prop (Some (Backend.envelope_json (Backend.executePage r token s).1))
         "data" = Some d) ∧
  (∀ A B C,
     body = JObj {[ "document" := JObj {[ "children" := JArr [A; B; C] ]} ]} →
     (Backend.executePage r token s).1 = Backend.Success code A).
Proof.
  intros Hup.
  assert (Hpage : (Backend.executePage r token s).1
                  = Backend.Success code (Backend.first_page body))
    by (unfold Backend.executePage; cbn [fst]; now rewrite Hup).
  rewrite Hpage. unfold Backend.first_page.
  split; [|split; [|split]].
  - now intros page rest ->.
  - now intros ->.
  - eexists. split; [reflexivity|]. intros r' Hup'.
    assert (Hex : (Backend.execute r' token s).1 = Backend.Success code body)
      by (unfold Backend.execute; cbn [fst]; now rewrite Hup').
    rewrite Hex. split; [reflexivity|].
    cbn [Backend.envelope_json get_prop]. now lookup_keys.
  - intros A B C ->. now rewrite children_of_document.
Qed.

(** C6 at a file whose document has the children [A], [B], [C]. *)
Lemma executePage_example :
  let r := Backend.request_spec (Backend.demo_app "PAGE" "/files/ABC123" "" "")
             JNull in
  let file := JObj {[ "document" :=
                JObj {[ "children" := JArr [JStr "A"; JStr "B"; JStr "C"] ]} ]} in
  let s := Backend.with_entries [] 0
             {| Backend.saved := []; Backend.next_id := 0; Backend.entries := [];
                Backend.clock := 0; Backend.authToken := "figd_token";
                Backend.upstream := λ _, Backend.Answered 200 file |} in
  Backend.upstream s (Backend.call_upstream "GET" r "figd_token")
    = Backend.Answered 200 file ∧
  (Backend.executePage r "figd_token" s).1 = Backend.Success 200 (JStr "A").
Proof.
  cbv zeta. split; [reflexivity|].
  refine (proj2 (proj2 (proj2 (executePage_returns_first_child _ _ _ 200 _ _)))
            (JStr "A") (JStr "B") (JStr "C") eq_refl).
  reflexivity.
Defined.

(** ** The favorite flag *)

Lemma set_favorite_same (r : Backend.SavedRequest) :
  Backend.set_favorite (Backend.is_favorite r) r = r.
Proof. now destruct r. Qed.

Lemma set_favorite_twice (v v' : bool) (r : Backend.SavedRequest) :
  Backend.set_favorite v (Backend.set_favorite v' r) = Backend.set_favorite v r.
Proof. reflexivity. Qed.

Lemma patch_idempotent (i : string) (v : bool) (l l' : list Backend.SavedRequest) :
  Backend.patch i v l = Some l' → Backend.patch i v l' = Some l'.
Proof.
  revert l'. induction l as [|r t IH]; intros l'; cbn; [discriminate|].
  destruct (String.eqb (Backend.id r) i) eqn:E.
  - intros [= <-]. cbn. now rewrite E.
  - destruct (Backend.patch i v t) as [t'|]; [|discriminate].
    intros [= <-]. cbn. rewrite E. now rewrite (IH t' eq_refl).
Qed.

Lemma patch_fields (i : string) (v : bool) (l l' : list Backend.SavedRequest) :
  Backend.patch i v l = Some l' → Forall2 Backend.unchanged_but_favorite l l'.
Proof.
  assert (Hrefl : ∀ r, Backend.unchanged_but_favorite r r)
    by (intros r; repeat split).
  revert l'. induction l as [|r t IH]; intros l'; cbn; [discriminate|].
  destruct (String.eqb (Backend.id r) i).
  - intros [= <-]. constructor; [repeat split|].
    clear IH. induction t; constructor; auto.
  - destruct (Backend.patch i v t) as [t'|]; [|discriminate].
    intros [= <-]. constructor; auto.
Qed.

(** With distinct ids, patching the id of the [n]-th record rewrites that
    record and no other. *)
Lemma patch_lookup (v : bool) (l : list Backend.SavedRequest) (n : nat)
    (r : Backend.SavedRequest) :
  NoDup (map Backend.id l) → l !! n = Some r →
  Backend.patch (Backend.id r) v l = Some (<[n := Backend.set_favorite v r]> l).
Proof.
  revert n. induction l as [|r0 t IH]; intros n Hnd Hn; [discriminate|].
  cbn in Hnd. apply NoDup_cons in Hnd as [Hr0 Hnd].
  destruct n as [|n]; cbn in Hn.
  - injection Hn as ->. cbn. now rewrite String.eqb_refl.
  - cbn. destruct (String.eqb_spec (Backend.id r0) (Backend.id r)) as [E|_].
    + exfalso. apply Hr0. rewrite E.
      apply (list_elem_of_fmap_2 Backend.id t r).
      now apply list_elem_of_lookup_2 in Hn.
    + now rewrite (IH n Hnd Hn).
Qed.

Lemma with_saved_same (w : Backend.Server) :
  Backend.with_saved (Backend.saved w) (Backend.next_id w) w = w.
Proof. now destruct w. Qed.

Lemma serve_put (i : string) (v : bool) (w : Backend.Server) :
  @axios Backend.host
    {| verb := PUT; url := API ++ "/saved-requests/" ++ i;
       payload := Some (JObj {[ "is_favorite" := JBool v ]}) |} w
  = match Backend.patchFavorite i v w with
    | Some w' =>
        (Backend.ok (match Backend.find i w' with
                     | Some r => Backend.saved_json r
                     | None => JNull
                     end), w')
    | None => (Backend.refused 404 "Request not found", w)
    end.
Proof.
  cbn [axios Backend.host]. unfold Backend.serve. cbn [url verb payload].
  unfold API. cbn [BACKEND_URL Backend.host]. rewrite strip_prefix_app.
  change (String.eqb ("/saved-requests/" ++ i) "/figma/proxy") with false.
  change (String.eqb ("/saved-requests/" ++ i) "/figma/page") with false.
  change (String.eqb ("/saved-requests/" ++ i) "/request-history") with false.
  change (String.eqb ("/saved-requests/" ++ i) "/saved-requests") with false.
  cbn iota. rewrite strip_prefix_app. unfold get_prop.
  now rewrite lookup_singleton_eq.
Qed.

Lemma serve_saved (w : Backend.Server) :
  @axios Backend.host
    {| verb := GET; url := API ++ "/saved-requests"; payload := None |} w
  = (Backend.ok (JArr (map Backend.saved_json (Backend.list_saved w))), w).
Proof. reflexivity. Qed.

Lemma saved_json_id (r : Backend.SavedRequest) :
  get_prop (Some (JObj (Backend.saved_fields r))) "id" = Some (JStr (Backend.id r)).
Proof. cbn. unfold Backend.saved_fields. now lookup_keys. Qed.

Lemma saved_json_favorite (r : Backend.SavedRequest) :
  get_prop (Some (JObj (Backend.saved_fields r))) "is_favorite"
  = Some (JBool (Backend.is_favorite r)).
Proof. cbn. unfold Backend.saved_fields. now lookup_keys. Qed.

(** After [loadSavedRequests] the client's list is the store's. *)
Lemma loadSavedRequests_in_sync (s : @Sys Backend.host) :
  Backend.in_sync (loadSavedRequests s).2.
Proof. reflexivity. Qed.

(** One click on the star of the [n]-th saved request, against the server. *)
Lemma clickFavorite_served (s : @Sys Backend.host) (n : nat)
    (r : Backend.SavedRequest) :
  NoDup (map Backend.id (Backend.saved (world s))) →
  Backend.in_sync s →
  Backend.saved (world s) !! n = Some r →
  ∃ l, clickFavorite n s =
    (inl tt,
     {| app := with_savedRequests
                 (JArr (map Backend.saved_json
                          (<[n := Backend.set_favorite (negb (Backend.is_favorite r)) r]>
                             (Backend.saved (world s)))))
                 (app s);
        world := Backend.with_saved
                   (<[n := Backend.set_favorite (negb (Backend.is_favorite r)) r]>
                      (Backend.saved (world s)))
                   (Backend.next_id (world s)) (world s);
        log := l |}).
Proof.
  intros Hnd Hsync Hn.
  unfold clickFavorite, mbind, M_bind, bind, render. cbn beta iota.
  rewrite Hsync.
  change (map Backend.saved_json (Backend.saved (world s)))
    with (Backend.saved_json <$> Backend.saved (world s)).
  rewrite list_lookup_fmap, Hn. cbn [fmap option_fmap option_map].
  change (Backend.saved_json r) with (JObj (Backend.saved_fields r)).
  cbn beta iota.
  rewrite saved_json_id, saved_json_favorite.
  unfold toggleFavorite, loadSavedRequests, try_catch, mbind, M_bind, bind,
    saved_url, axios_put, axios_get, await_axios, setSavedRequests, set_state.
  cbn [template ToString truthy_opt truthy world app log]. unfold ret.
  cbn beta iota.
  rewrite serve_put. unfold Backend.patchFavorite.
  rewrite (patch_lookup _ _ _ _ Hnd Hn).
  unfold Backend.ok. cbn beta iota zeta. cbn [world log app].
  rewrite serve_saved.
  eexists. reflexivity.
Qed.

(** ** The store keeps its ids distinct *)

Lemma well_formed_saved (s s' : Backend.Server) :
  Backend.saved s' = Backend.saved s → Backend.next_id s' = Backend.next_id s →
  Backend.well_formed s → Backend.well_formed s'.
Proof. unfold Backend.well_formed. now intros -> ->. Qed.

Lemma patch_ids (i : string) (v : bool) (l l' : list Backend.SavedRequest) :
  Backend.patch i v l = Some l' → map Backend.id l' = map Backend.id l.
Proof.
  intros Hp. apply patch_fields in Hp.
  induction Hp as [|r r' l l' (E & _) _ IH]; cbn; [reflexivity|]. now rewrite E, IH.
Qed.

Lemma ids_from_counter (l l' : list Backend.SavedRequest) (n : nat) :
  map Backend.id l' = map Backend.id l →
  (∀ r, r ∈ l → ∃ k : nat, (k < n)%nat ∧ Backend.id r = pretty k) →
  ∀ r, r ∈ l' → ∃ k : nat, (k < n)%nat ∧ Backend.id r = pretty k.
Proof.
  intros E H r Hr.
  apply (list_elem_of_fmap_2 Backend.id) in Hr.
  change (Backend.id r ∈ map Backend.id l') in Hr. rewrite E in Hr.
  apply list_elem_of_fmap_1 in Hr as (r0 & -> & Hr0). auto.
Qed.

Lemma well_formed_patch (i : string) (v : bool) (s s' : Backend.Server) :
  Backend.patchFavorite i v s = Some s' →
  Backend.well_formed s → Backend.well_formed s'.
Proof.
  unfold Backend.patchFavorite.
  destruct (Backend.patch i v (Backend.saved s)) as [l|] eqn:Hp; [|discriminate].
  intros [= <-] [Hnd Hk]. pose proof (patch_ids _ _ _ _ Hp) as E.
  split; cbn [Backend.saved Backend.with_saved Backend.next_id].
  - now rewrite E.
  - exact (ids_from_counter _ _ _ E Hk).
Qed.

Lemma well_formed_delete (i : string) (s s' : Backend.Server) :
  Backend.delete i s = Some s' →
  Backend.well_formed s → Backend.well_formed s'.
Proof.
  unfold Backend.delete. destruct (Backend.find i s); [|discriminate].
  intros [= <-] [Hnd Hk].
  split; cbn [Backend.saved Backend.with_saved Backend.next_id].
  - change (NoDup (Backend.id <$> filter (λ r, Backend.id r ≠ i) (Backend.saved s))).
    eapply sublist_NoDup; [exact Hnd|]. apply fmap_sublist, sublist_filter.
  - intros r Hr. apply list_elem_of_filter in Hr as [_ Hr]. auto.
Qed.

Lemma well_formed_create (nm m ep : string) (h : json) (b cat : string)
    (s : Backend.Server) :
  Backend.well_formed s →
  Backend.well_formed (Backend.create nm m ep h b cat s).2.
Proof.
  intros [Hnd Hk]. unfold Backend.create.
  split; cbn [snd Backend.saved Backend.with_saved Backend.next_id].
  - rewrite map_app. cbn [map Backend.id].
    change (NoDup ((Backend.id <$> Backend.saved s) ++ [pretty (Backend.next_id s)])).
    apply NoDup_app. split; [exact Hnd|]. split; [|apply NoDup_singleton].
    intros x Hx Hx'. apply list_elem_of_singleton in Hx' as ->.
    apply list_elem_of_fmap_1 in Hx as (r & E & Hr).
    destruct (Hk r Hr) as (k & Hlt & Eid). rewrite Eid in E.
    apply (inj pretty) in E. lia.
  - intros r Hr. apply elem_of_app in Hr as [Hr|Hr].
    + destruct (Hk r Hr) as (k & Hlt & Eid). exists k. split; [lia | exact Eid].
    + apply list_elem_of_singleton in Hr as ->. cbn [Backend.id].
      exists (Backend.next_id s). split; [lia | reflexivity].
Qed.

Lemma well_formed_demo : Backend.well_formed Backend.demo_server.
Proof.
  split; [apply NoDup_nil_2|]. intros r Hr. now apply elem_of_nil in Hr.
Qed.

(** Whatever request the server is sent, its store stays well formed. *)
Lemma serve_well_formed (api : string) (req : http_request) (s : Backend.Server) :
  Backend.well_formed s → Backend.well_formed (Backend.serve api req s).2.
Proof.
  intros Hwf. unfold Backend.serve.
  repeat match goal with
         | |- context [match ?x with _ => _ end] => destruct x eqn:?
         | |- context [if ?x then _ else _] => destruct x eqn:?
         end; cbn [snd]; try exact Hwf.
  all: try match goal with
           | H : Backend.patchFavorite _ _ _ = Some _ |- _ =>
               exact (well_formed_patch _ _ _ _ H Hwf)
           | H : Backend.delete _ _ = Some _ |- _ =>
               exact (well_formed_delete _ _ _ H Hwf)
           | H : Backend.create ?a ?b ?c ?d ?e ?f ?s = (_, ?s') |- _ =>
               replace s' with (Backend.create a b c d e f s).2 by (now rewrite H);
               now apply well_formed_create
           | H : Backend.execute _ _ _ = (_, ?s') |- _ =>
               injection H as _ <-; now apply (well_formed_saved s)
           | H : Backend.executePage _ _ _ = (_, ?s') |- _ =>
               injection H as _ <-; now apply (well_formed_saved s)
           end.
Qed.

Lemma insert_favorite_ids (v : bool) (l : list Backend.SavedRequest) (n : nat)
    (r : Backend.SavedRequest) :
  l !! n = Some r →
  map Backend.id (<[n := Backend.set_favorite v r]> l) = map Backend.id l.
Proof.
  intros Hn.
  change (Backend.id <$> <[n := Backend.set_favorite v r]> l = Backend.id <$> l).
  rewrite list_fmap_insert. apply list_insert_id.
  now rewrite list_lookup_fmap, Hn.
Qed.

(** C8 (on the store modelled from section 4.5, driven by the client's
    star button): with the client's list in step with the store, whose ids
    are distinct, one click sets the flag of the clicked record to its
    negation, and a second click restores the store and the client's list as
    they were.
    Patching a record to the value it already holds succeeds and changes
    nothing; a patch applied a second time with the same value succeeds and
    changes nothing more; and a patch changes no field but [is_favorite],
    neither the history nor the id counter. *)
Theorem favorite_toggle_twice_restores (s : @Sys Backend.host) (n : nat)
    (r : Backend.SavedRequest) :
  Backend.well_formed (world s) →
  Backend.in_sync s →
  Backend.saved (world s) !! n = Some r →
  Backend.saved (world (clickFavorite n s).2)
    = <[n := Backend.set_favorite (negb (Backend.is_favorite r)) r]>
        (Backend.saved (world s)) ∧
  world (clickFavorite n (clickFavorite n s).2).2 = world s ∧
  savedRequests (app (clickFavorite n (clickFavorite n s).2).2)
    = savedRequests (app s) ∧
  Backend.patchFavorite (Backend.id r) (Backend.is_favorite r) (world s)
    = Some (world s) ∧
  (∀ i v w w', Backend.patchFavorite i v w = Some w' →
     Backend.patchFavorite i v w' = Some w' ∧
     Forall2 Backend.unchanged_but_favorite (Backend.saved w) (Backend.saved w') ∧
     Backend.list_history w' = Backend.list_history w ∧
     Backend.next_id w' = Backend.next_id w).
Proof.
  intros [Hnd _] Hsync Hn.
  destruct (clickFavorite_served s n r Hnd Hsync Hn) as [l1 H1].
  rewrite H1. cbn [snd world Backend.saved Backend.with_saved].
  split; [reflexivity|].
  set (r1 := Backend.set_favorite (negb (Backend.is_favorite r)) r).
  set (s1 := {| app := _; world := _; log := l1 |}).
  assert (Hlen : (n < length (Backend.saved (world s)))%nat)
    by (apply lookup_lt_is_Some; eauto).
  assert (Hn1 : Backend.saved (world s1) !! n = Some r1)
    by (cbn; now apply list_lookup_insert_eq).
  assert (Hnd1 : NoDup (map Backend.id (Backend.saved (world s1))))
    by (cbn; unfold r1; now rewrite insert_favorite_ids).
  destruct (clickFavorite_served s1 n r1 Hnd1 eq_refl Hn1) as [l2 H2].
  rewrite H2. cbn [snd world app savedRequests with_savedRequests].
  assert (Hback : <[n := Backend.set_favorite (negb (Backend.is_favorite r1)) r1]>
                    (Backend.saved (world s1)) = Backend.saved (world s)).
  { cbn [s1 world Backend.saved Backend.with_saved].
    rewrite list_insert_insert_eq. apply list_insert_id.
    rewrite Hn. f_equal. unfold r1. cbn [Backend.is_favorite Backend.set_favorite].
    rewrite set_favorite_twice, negb_involutive. symmetry.
    apply set_favorite_same. }
  rewrite Hback. split; [|split; [|split]].
  - destruct s as [a [sv ni en ck tk up] lg]. reflexivity.
  - now rewrite Hsync.
  - unfold Backend.patchFavorite. rewrite (patch_lookup _ _ _ _ Hnd Hn).
    rewrite set_favorite_same, (list_insert_id _ _ _ Hn).
    now rewrite with_saved_same.
  - intros i v w w'. unfold Backend.patchFavorite.
    destruct (Backend.patch i v (Backend.saved w)) as [l|] eqn:Hp; [|discriminate].
    intros [= <-]. cbn [Backend.saved Backend.with_saved Backend.next_id].
    rewrite (patch_idempotent _ _ _ _ Hp).
    split; [reflexivity|]. split; [exact (patch_fields _ _ _ _ Hp)|].
    split; reflexivity.
Qed.

(** C8 at a store holding one request, not a favorite. *)
Lemma favorite_toggle_example :
  let s := Backend.demo_saved in
  Backend.saved (world s) = [Backend.demo_record] ∧
  Backend.saved (world (clickFavorite 0 s).2)
    = [Backend.set_favorite true Backend.demo_record] ∧
  world (clickFavorite 0 (clickFavorite 0 s).2).2 = world s ∧
  Backend.patchFavorite "0" false (world s) = Some (world s).
Proof.
  cbv zeta. split; [reflexivity|].
  assert (Hwf : Backend.well_formed (world Backend.demo_saved))
    by apply well_formed_create, well_formed_demo.
  destruct (favorite_toggle_twice_restores Backend.demo_saved 0
              Backend.demo_record Hwf eq_refl eq_refl) as (H1 & H2 & _ & H4 & _).
  split; [exact H1|]. split; [exact H2 | exact H4].
Defined.

(** * More of the component

    Properties of the handlers the claims leave out, and of the paths of
    [executeRequest] and [parseHeaders] they do not reach.  All hold for
    every host. *)

Section Handlers.

Context `{Host}.

Implicit Types (s : Sys) (c : App).

Ltac run_handler :=
  unfold executeRequest, loadHistory, loadSavedRequests, clearHistory,
    toggleFavorite, saveRequest, deleteRequest, loadExample, saveToken, mount,
    try_finally, try_catch, mbind, M_bind, bind, render,
    JSON_parse, axios_get, axios_post, axios_put, axios_delete, await_axios,
    setLoading, setResponse, setHistory, setSavedRequests, setShowTokenDialog,
    setFigmaToken, setMethod, setEndpoint, setActiveTab, toast,
    console_error, set_state, emit, ret, throw; cbn beta iota.

Lemma toasts_app (l1 l2 : list event) : toasts (l1 ++ l2) = toasts l1 ++ toasts l2.
Proof. unfold toasts. apply omap_app. Qed.

(** The four ways a run of [executeRequest] can go. *)
Lemma executeRequest_cases s :
  (∃ e, validate (figmaToken (app s)) (endpoint (app s)) = Some e ∧
        executeRequest s = (inl tt, rejected e s)) ∨
  (validate (figmaToken (app s)) (endpoint (app s)) = None ∧
   body_value (app s) = None ∧
   executeRequest s =
     (inl tt, {| app := failed (body_error (app s)) (app s); world := world s;
                 log := log s ++ [Toast error "Request failed"] |})) ∨
  (∃ b e w, submitted s b ∧
     axios (outbound (app s) b) (world s) = (Rejected e, w) ∧
     executeRequest s =
       (inl tt, {| app := failed e (app s); world := w;
                   log := (log s ++ [Request (outbound (app s) b)])
                          ++ [Toast error "Request failed"] |})) ∨
  (∃ b res w, submitted s b ∧
     axios (outbound (app s) b) (world s) = (Fulfilled res, w) ∧
     executeRequest s =
       (inl tt,
        let s' := (loadHistory (answered res b w s)).2 in
        {| app := with_loading false (app s'); world := world s';
           log := log s' |})).
Proof.
  destruct (validate (figmaToken (app s)) (endpoint (app s))) as [e|] eqn:Hv.
  - left. exists e. split; [reflexivity|]. now apply executeRequest_rejected.
  - right. destruct (body_value (app s)) as [b|] eqn:Hb.
    + right. destruct (axios (outbound (app s) b) (world s)) as [[res|e] w] eqn:Ha.
      * right. exists b, res, w. split; [now split|]. split; [exact Ha|].
        now apply executeRequest_call_fulfilled.
      * left. exists b, e, w. split; [now split|]. split; [exact Ha|].
        now apply executeRequest_call_rejected.
    + left. split; [reflexivity|]. split; [reflexivity|].
      now apply executeRequest_malformed_body.
Qed.

(** What [loadHistory] leaves of the state: all of it but [history]. *)
Lemma loadHistory_app s :
  app (loadHistory s).2 = app s
  ∨ ∃ v, app (loadHistory s).2 = with_history v (app s).
Proof.
  rewrite loadHistory_run.
  destruct (axios history_request (world s)) as [[res|e] w]; cbn; eauto.
Qed.

(** X1: once the guards have passed, a run of [executeRequest] ends with
    [loading] false, whether the body failed to parse, the call was
    rejected, or it was answered and the history reload failed or not. *)
Theorem executeRequest_settles_loading s :
  validate (figmaToken (app s)) (endpoint (app s)) = None →
  loading (app (executeRequest s).2) = false.
Proof.
  intros Hv.
  destruct (executeRequest_cases s)
    as [(e & He & _)|[(_ & _ & ->)|[(b & e & w & _ & _ & ->)|(b & res & w & _ & _ & ->)]]];
    [congruence | reflexivity | reflexivity | reflexivity].
Qed.

(** X2: [executeRequest] never edits the form or the saved list: token,
    method, endpoint, header text, body text, saved requests, tab and
    category are as they were, and the token dialog is open afterwards
    exactly if it was open or the token is empty. *)
Theorem executeRequest_keeps_form s :
  figmaToken (app (executeRequest s).2) = figmaToken (app s) ∧
  method (app (executeRequest s).2) = method (app s) ∧
  endpoint (app (executeRequest s).2) = endpoint (app s) ∧
  headers (app (executeRequest s).2) = headers (app s) ∧
  body (app (executeRequest s).2) = body (app s) ∧
  savedRequests (app (executeRequest s).2) = savedRequests (app s) ∧
  activeTab (app (executeRequest s).2) = activeTab (app s) ∧
  selectedCategory (app (executeRequest s).2) = selectedCategory (app s) ∧
  showTokenDialog (app (executeRequest s).2)
  = (showTokenDialog (app s) || negb (str_truthy (figmaToken (app s)))).
Proof.
  destruct (executeRequest_cases s)
    as [(e & He & ->)|[(Hv & _ & ->)|[(b & e & w & [Hv _] & _ & ->)|(b & res & w & [Hv _] & _ & ->)]]].
  - cbn [snd app rejected].
    destruct e; cbn.
    + apply validate_credential in He. rewrite He. cbn. rewrite orb_true_r. repeat split.
    + apply validate_endpoint in He as [Ht _]. apply str_truthy_true in Ht.
      rewrite Ht. cbn. rewrite orb_false_r. repeat split.
    + apply validate_placeholder in He as [Ht _]. apply str_truthy_true in Ht.
      rewrite Ht. cbn. rewrite orb_false_r. repeat split.
  - apply validate_passes in Hv as [Ht _]. apply str_truthy_true in Ht.
    rewrite Ht. cbn. rewrite orb_false_r. repeat split.
  - apply validate_passes in Hv as [Ht _]. apply str_truthy_true in Ht.
    rewrite Ht. cbn. rewrite orb_false_r. repeat split.
  - apply validate_passes in Hv as [Ht _]. apply str_truthy_true in Ht.
    rewrite Ht. cbn [snd app]. rewrite loadHistory_run.
    destruct (axios history_request (world (answered res b w s))) as [[r2|e2] w2];
      cbn; rewrite orb_false_r; repeat split.
Qed.

(** X3: when the call is answered, the response shown is the answer's
    data, the one toast added is the success toast, and the requests sent are
    the call and the history reload.  A reload that fails changes none of
    this: the history shown is then the one from before. *)
Theorem successful_request_survives_reload s (b : json) (res : http_response)
    (w : World) :
  submitted s b →
  axios (outbound (app s) b) (world s) = (Fulfilled res, w) →
  response_ (app (executeRequest s).2) = data res ∧
  toasts (log (executeRequest s).2)
  = toasts (log s) ++ [(success, "Request executed successfully")] ∧
  requests (log (executeRequest s).2)
  = requests (log s) ++ [outbound (app s) b; history_request] ∧
  history (app (executeRequest s).2)
  = match axios history_request w with
    | (Fulfilled r, _) => data r
    | (Rejected _, _) => history (app s)
    end.
Proof.
  intros [Hv Hb] Ha. rewrite (executeRequest_call_fulfilled s b res w Hv Hb Ha).
  cbn [snd app log]. rewrite loadHistory_run. cbn [world answered].
  destruct (axios history_request w) as [[r2|e2] w2]; cbn [snd app log answered];
    rewrite ?toasts_app, ?requests_app; cbn; rewrite ?app_nil_r, <- ?app_assoc;
    repeat split.
Qed.

(** X4: [loadHistory] and [loadSavedRequests] never throw and never show
    a toast; each sends its one GET.  When that is rejected the state is
    left as it was; when it is answered, only the one list is replaced. *)
Theorem loaders_fail_silently s :
  (loadHistory s).1 = inl tt ∧ (loadSavedRequests s).1 = inl tt ∧
  toasts (log (loadHistory s).2) = toasts (log s) ∧
  toasts (log (loadSavedRequests s).2) = toasts (log s) ∧
  requests (log (loadHistory s).2) = requests (log s) ++ [history_request] ∧
  requests (log (loadSavedRequests s).2)
  = requests (log s)
    ++ [{| verb := GET; url := API ++ "/saved-requests"; payload := None |}] ∧
  (∀ e w, axios history_request (world s) = (Rejected e, w) →
     app (loadHistory s).2 = app s) ∧
  (∀ e w, axios {| verb := GET; url := API ++ "/saved-requests"; payload := None |}
            (world s) = (Rejected e, w) →
     app (loadSavedRequests s).2 = app s) ∧
  (∀ res w, axios history_request (world s) = (Fulfilled res, w) →
     app (loadHistory s).2 = with_history (data res) (app s)) ∧
  (∀ res w, axios {| verb := GET; url := API ++ "/saved-requests"; payload := None |}
            (world s) = (Fulfilled res, w) →
     app (loadSavedRequests s).2 = with_savedRequests (data res) (app s)).
Proof.
  run_handler. fold history_request.
  destruct (axios history_request (world s)) as [[r1|e1] w1];
    destruct (axios {| verb := GET; url := API ++ "/saved-requests";
                       payload := None |} (world s)) as [[r2|e2] w2];
    cbn; rewrite ?toasts_app, ?requests_app; cbn; rewrite ?app_nil_r;
    repeat split; intros; simplify_eq; reflexivity.
Qed.

Lemma loadSavedRequests_run s :
  loadSavedRequests s =
    match axios saved_request (world s) with
    | (Fulfilled res, w) =>
        (inl tt, {| app := with_savedRequests (data res) (app s); world := w;
                    log := log s ++ [Request saved_request] |})
    | (Rejected _, w) =>
        (inl tt, {| app := app s; world := w;
                    log := (log s ++ [Request saved_request])
                           ++ [Console "Failed to load saved requests"] |})
    end.
Proof.
  run_handler. fold saved_request.
  destruct (axios saved_request (world s)) as [[res|e] w]; reflexivity.
Qed.

Lemma saved_url_run s (id : option json) :
  saved_url id s
  = match template id with
    | Some text => (inl (API ++ "/saved-requests/" ++ text)%string, s)
    | None => (inr {| response := None; message := TypeError_message |}, s)
    end.
Proof. unfold saved_url. destruct (template id); reflexivity. Qed.

(** X5: [toggleFavorite] never throws, and puts the negation of the
    truthiness of the flag it was given.  An id without a text (an object
    with an own [toString]) makes the template throw before any call:
    nothing is sent, the state is untouched and the one toast added is the
    error.  Otherwise the PUT goes to the text of the id: when it is
    rejected the state is untouched, nothing is reloaded and the one toast
    added is the error; when it is answered the saved list is reloaded and
    no toast is shown. *)
Theorem toggleFavorite_outcomes s (id isFavorite : option json) :
  (toggleFavorite id isFavorite s).1 = inl tt ∧
  (template id = None →
     toggleFavorite id isFavorite s
     = (inl tt, {| app := app s; world := world s;
                   log := log s ++ [Toast error "Failed to update favorite"] |})) ∧
  (∀ text, template id = Some text →
     let put := {| verb := PUT;
                   url := API ++ "/saved-requests/" ++ text;
                   payload := Some (JObj {[ "is_favorite" :=
                                     JBool (negb (truthy_opt isFavorite)) ]}) |} in
     (∀ e w, axios put (world s) = (Rejected e, w) →
        app (toggleFavorite id isFavorite s).2 = app s ∧
        requests (log (toggleFavorite id isFavorite s).2) = requests (log s) ++ [put] ∧
        toasts (log (toggleFavorite id isFavorite s).2)
        = toasts (log s) ++ [(error, "Failed to update favorite")]) ∧
     (∀ res w, axios put (world s) = (Fulfilled res, w) →
        requests (log (toggleFavorite id isFavorite s).2)
        = requests (log s) ++ [put; saved_request] ∧
        toasts (log (toggleFavorite id isFavorite s).2) = toasts (log s) ∧
        (app (toggleFavorite id isFavorite s).2 = app s
         ∨ ∃ v, app (toggleFavorite id isFavorite s).2
                = with_savedRequests v (app s)))) ∧
  (∀ t, template (Some (JStr t)) = Some t) ∧
  (∀ o, template (Some (JObj o))
        = if decide (is_Some (o !! "toString")) then None
          else Some "[object Object]").
Proof.
  split; [|split; [|split; [|split]]].
  - unfold toggleFavorite, try_catch, mbind, M_bind, bind. rewrite saved_url_run.
    destruct (template id) as [text|]; [|reflexivity].
    unfold axios_put, await_axios, toast, emit. cbn beta iota.
    destruct (axios _ (world s)) as [[res|e] w]; cbn beta iota; [|reflexivity].
    rewrite loadSavedRequests_run. cbn [world app log].
    destruct (axios saved_request w) as [[r2|e2] w2]; reflexivity.
  - intros Ht. unfold toggleFavorite, try_catch, mbind, M_bind, bind.
    rewrite saved_url_run, Ht. destruct s. reflexivity.
  - intros text Ht. cbv zeta.
    unfold toggleFavorite, try_catch, mbind, M_bind, bind. rewrite saved_url_run, Ht.
    unfold axios_put, await_axios, toast, emit. cbn beta iota.
    destruct (axios _ (world s)) as [[res|e] w] eqn:Ha; cbn beta iota.
    + rewrite loadSavedRequests_run. cbn [world app log].
      destruct (axios saved_request w) as [[r2|e2] w2]; cbn;
        (split; [intros; discriminate|]);
        intros ? ? [= <- <-]; rewrite ?toasts_app, ?requests_app; cbn;
        rewrite ?app_nil_r, <- ?app_assoc; repeat split; eauto.
    + cbn. split; [|intros; discriminate].
      intros ? ? [= <- <-]. rewrite ?toasts_app, ?requests_app. cbn.
      rewrite ?app_nil_r. repeat split.
  - reflexivity.
  - intros o. cbn [template ToString].
    destruct (o !! "toString") as [v|]; [rewrite decide_True by eauto|
      rewrite decide_False by (intros [? ?]; discriminate)]; reflexivity.
Qed.

(** X6: [deleteRequest] never throws.  An id without a text (an object
    with an own [toString]) makes the template throw before any call:
    nothing is sent, the state is untouched and the one toast added is the
    error.  Otherwise the DELETE goes to the text of the id: when it is
    rejected the state is untouched, nothing is reloaded and the one toast
    added is the error; when it is answered the success toast is shown and
    the saved list reloaded, a failed reload leaving the list shown
    before. *)
Theorem deleteRequest_outcomes s (id : option json) :
  (deleteRequest id s).1 = inl tt ∧
  (template id = None →
     deleteRequest id s
     = (inl tt, {| app := app s; world := world s;
                   log := log s ++ [Toast error "Failed to delete request"] |})) ∧
  (∀ text, template id = Some text →
     let del := {| verb := DELETE;
                   url := API ++ "/saved-requests/" ++ text;
                   payload := None |} in
     (∀ e w, axios del (world s) = (Rejected e, w) →
        app (deleteRequest id s).2 = app s ∧
        requests (log (deleteRequest id s).2) = requests (log s) ++ [del] ∧
        toasts (log (deleteRequest id s).2)
        = toasts (log s) ++ [(error, "Failed to delete request")]) ∧
     (∀ res w, axios del (world s) = (Fulfilled res, w) →
        requests (log (deleteRequest id s).2)
        = requests (log s) ++ [del; saved_request] ∧
        toasts (log (deleteRequest id s).2)
        = toasts (log s) ++ [(success, "Request deleted")] ∧
        savedRequests (app (deleteRequest id s).2)
        = match axios saved_request w with
          | (Fulfilled r, _) => data r
          | (Rejected _, _) => savedRequests (app s)
          end)) ∧
  (∀ l, template (Some (JArr l)) = None ↔
        ∃ x, x ∈ l ∧ template (Some x) = None).
Proof.
  split; [|split; [|split]].
  - unfold deleteRequest, try_catch, mbind, M_bind, bind. rewrite saved_url_run.
    destruct (template id) as [text|]; [|reflexivity].
    unfold axios_delete, await_axios, toast, emit. cbn beta iota.
    destruct (axios _ (world s)) as [[res|e] w]; cbn beta iota; [|reflexivity].
    rewrite loadSavedRequests_run. cbn [world app log].
    destruct (axios saved_request w) as [[r2|e2] w2]; reflexivity.
  - intros Ht. unfold deleteRequest, try_catch, mbind, M_bind, bind.
    rewrite saved_url_run, Ht. destruct s. reflexivity.
  - intros text Ht. cbv zeta.
    unfold deleteRequest, try_catch, mbind, M_bind, bind. rewrite saved_url_run, Ht.
    unfold axios_delete, await_axios, toast, emit. cbn beta iota.
    destruct (axios _ (world s)) as [[res|e] w] eqn:Ha; cbn beta iota.
    + rewrite loadSavedRequests_run. cbn [world app log].
      destruct (axios saved_request w) as [[r2|e2] w2] eqn:Hs; cbn;
        (split; [intros; discriminate|]);
        intros ? ? [= <- <-]; rewrite Hs, ?toasts_app, ?requests_app; cbn;
        rewrite ?app_nil_r, <- ?app_assoc; repeat split.
    + cbn. split; [|intros; discriminate].
      intros ? ? [= <- <-]. rewrite ?toasts_app, ?requests_app. cbn.
      rewrite ?app_nil_r. repeat split.
  - intros l. cbn [template ToString]. rewrite fmap_None, mapM_None, Exists_exists.
    split; intros (x & Hx & Hf); exists x; (split; [exact Hx|]);
      destruct x; cbn in *; (discriminate || exact Hf).
Qed.

(** X7: [clearHistory] sends one DELETE and never throws; the history
    shown is emptied, with the success toast, exactly when the server
    accepted, and is left as it was, with the error toast, when it did not. *)
Theorem clearHistory_clears_when_accepted s :
  let del := {| verb := DELETE; url := API ++ "/request-history";
                payload := None |} in
  (clearHistory s).1 = inl tt ∧
  requests (log (clearHistory s).2) = requests (log s) ++ [del] ∧
  (∀ e w, axios del (world s) = (Rejected e, w) →
     app (clearHistory s).2 = app s ∧
     toasts (log (clearHistory s).2)
     = toasts (log s) ++ [(error, "Failed to clear history")]) ∧
  (∀ res w, axios del (world s) = (Fulfilled res, w) →
     app (clearHistory s).2 = with_history (JArr []) (app s) ∧
     toasts (log (clearHistory s).2)
     = toasts (log s) ++ [(success, "History cleared")]).
Proof.
  cbv zeta. unfold clearHistory, try_catch, mbind, M_bind, bind, axios_delete,
    await_axios, toast, emit, setHistory, set_state. cbn beta iota.
  destruct (axios _ (world s)) as [[res|e] w] eqn:Ha; cbn;
    rewrite ?toasts_app, ?requests_app; cbn; rewrite ?app_nil_r;
    (split; [reflexivity|]); (split; [reflexivity|]);
    split; intros ? ? [=]; subst; repeat split.
Qed.

(** X8: when the name prompt is dismissed or left empty, [saveRequest]
    does nothing at all: no request, no toast, no change of state. *)
Theorem saveRequest_needs_a_name s (name : option string) :
  name = None ∨ name = Some "" →
  saveRequest name s = (inl tt, s).
Proof.
  intros [->| ->]; unfold saveRequest, mbind, M_bind, bind, render, ret;
    cbn; reflexivity.
Qed.

(** X9: with a name, [saveRequest] posts the form as typed without any of
    the checks of [executeRequest]: the call is sent whatever the token, the
    endpoint or the body text are.  The headers saved are those of the header
    text alone and the body is saved as text; what is posted does not depend
    on the token.  A rejected call leaves the state as it was. *)
Theorem saveRequest_saves_unvalidated s (n : string) :
  n ≠ "" →
  let post := {| verb := POST; url := API ++ "/saved-requests";
                 payload := Some (save_payload (app s) n) |} in
  (saveRequest (Some n) s).1 = inl tt ∧
  (∃ rest, requests (log (saveRequest (Some n) s).2)
           = requests (log s) ++ post :: rest) ∧
  get_prop (payload post) "headers" = Some (parseHeaders (headers (app s))) ∧
  get_prop (payload post) "body" = Some (JStr (body (app s))) ∧
  (∀ token, save_payload (with_figmaToken token (app s)) n
            = save_payload (app s) n) ∧
  (∀ e w, axios post (world s) = (Rejected e, w) →
     app (saveRequest (Some n) s).2 = app s ∧
     toasts (log (saveRequest (Some n) s).2)
     = toasts (log s) ++ [(error, "Failed to save request")]) ∧
  (∀ res w, axios post (world s) = (Fulfilled res, w) →
     toasts (log (saveRequest (Some n) s).2)
     = toasts (log s) ++ [(success, "Request saved")]).
Proof.
  intros Hn. cbv zeta. apply str_truthy_true in Hn.
  unfold saveRequest, try_catch, mbind, M_bind, bind, render, axios_post,
    await_axios, toast, emit. cbn beta iota. rewrite Hn. cbn [negb].
  split; [|split; [|split; [|split; [|split; [|split]]]]].
  - destruct (axios _ (world s)) as [[res|e] w]; cbn beta iota; [|reflexivity].
    rewrite loadSavedRequests_run. cbn [world].
    destruct (axios saved_request w) as [[r2|e2] w2]; reflexivity.
  - destruct (axios _ (world s)) as [[res|e] w]; cbn beta iota.
    + rewrite loadSavedRequests_run. cbn [world app log].
      destruct (axios saved_request w) as [[r2|e2] w2]; cbn;
        rewrite ?requests_app; cbn; rewrite ?app_nil_r, <- ?app_assoc;
        eexists; reflexivity.
    + cbn. rewrite ?requests_app. cbn. rewrite ?app_nil_r. eexists. reflexivity.
  - cbn. unfold save_payload. now lookup_keys.
  - cbn. unfold save_payload. now lookup_keys.
  - reflexivity.
  - intros e w ->. cbn. rewrite ?toasts_app. cbn. rewrite ?app_nil_r.
    repeat split.
  - intros res w ->. cbn beta iota. rewrite loadSavedRequests_run. cbn [world log].
    destruct (axios saved_request w) as [[r2|e2] w2]; cbn;
      rewrite ?toasts_app; cbn; now rewrite ?app_nil_r.
Qed.

(** The token [mount] finds in the storage: the stored text when there is a
    non-empty one. *)
Lemma mount_token s (storage : gmap string string) :
  figmaToken (app (mount storage s).2)
  = match storage !! "figma_token" with
    | Some token => if str_truthy token then token else figmaToken (app s)
    | None => figmaToken (app s)
    end.
Proof.
  unfold mount, mbind, M_bind, bind.
  set (s1 := (match storage !! "figma_token" with
              | Some token => if str_truthy token then setFigmaToken token else ret tt
              | None => ret tt
              end s)).
  assert (Hs1 : ∃ s', s1 = (inl tt, s') ∧
            figmaToken (app s')
            = match storage !! "figma_token" with
              | Some token => if str_truthy token then token else figmaToken (app s)
              | None => figmaToken (app s)
              end).
  { unfold s1. destruct (storage !! "figma_token") as [t|]; [|eexists; split; reflexivity].
    destruct (str_truthy t); eexists; split; reflexivity. }
  destruct Hs1 as (s' & -> & <-). cbn beta iota.
  rewrite loadSavedRequests_run.
  destruct (axios saved_request (world s')) as [[r1|e1] w1]; cbn beta iota;
    rewrite loadHistory_run; cbn [world];
    destruct (axios history_request w1) as [[r2|e2] w2]; reflexivity.
Qed.

(** X10: [saveToken] writes the token under [figma_token], touches no
    other key, closes the dialog and shows one toast; a component mounted
    afterwards on that storage starts with the same token, never throws, and
    sends the two loads, saved requests first. *)
Theorem saved_token_survives_reload s (storage : gmap string string)
    (w : World) (l : list event) :
  ∃ storage',
    saveToken storage s
    = (inl storage',
       {| app := with_showTokenDialog false (app s); world := world s;
          log := log s ++ [Toast success "Token saved successfully"] |}) ∧
    storage' !! "figma_token" = Some (figmaToken (app s)) ∧
    (∀ k, k ≠ "figma_token" → storage' !! k = storage !! k) ∧
    figmaToken (app (mount storage' {| app := initial; world := w; log := l |}).2)
    = figmaToken (app s) ∧
    (mount storage' {| app := initial; world := w; log := l |}).1 = inl tt ∧
    requests (log (mount storage' {| app := initial; world := w; log := l |}).2)
    = requests l ++ [saved_request; history_request].
Proof.
  exists (<["figma_token" := figmaToken (app s)]> storage).
  split; [reflexivity|]. split; [apply lookup_insert_eq|].
  split; [intros k Hk; now apply lookup_insert_ne|].
  split.
  - rewrite mount_token, lookup_insert_eq. cbn [app initial figmaToken].
    destruct (figmaToken (app s)); reflexivity.
  - unfold mount, mbind, M_bind, bind. rewrite lookup_insert_eq.
    set (s1 := (if str_truthy (figmaToken (app s))
                then setFigmaToken (figmaToken (app s)) else ret tt) _).
    assert (Hs1 : ∃ a, s1 = (inl tt, {| app := a; world := w; log := l |}))
      by (unfold s1; destruct (str_truthy _); eexists; reflexivity).
    destruct Hs1 as (a & ->). cbn beta iota.
    rewrite loadSavedRequests_run. cbn [world].
    destruct (axios saved_request w) as [[r1|e1] w1]; cbn beta iota;
      rewrite loadHistory_run; cbn [world];
      destruct (axios history_request w1) as [[r2|e2] w2]; cbn;
      rewrite ?requests_app; cbn; rewrite ?app_nil_r, <- ?app_assoc;
      split; reflexivity.
Qed.

Lemma loadExample_run s (ep : Example) :
  loadExample ep s =
    (inl tt,
     {| app := with_activeTab "builder"
                 (with_endpoint (ex_endpoint ep) (with_method (ex_method ep) (app s)));
        world := world s;
        log := log s ++ [Toast info ("Loaded: " ++ ex_name ep)] |}).
Proof. reflexivity. Qed.

(** X11: [loadExample] sets method and endpoint and keeps the header and
    body texts.  So a body text that is not JSON, left from before, makes the
    loaded example fail in the client, whatever its method: nothing is sent,
    and the response is the error envelope of the parse failure. *)
Theorem loadExample_keeps_stale_body s (ep : Example) :
  figmaToken (app s) ≠ "" →
  validate (figmaToken (app s)) (ex_endpoint ep) = None →
  body_value (app s) = None →
  body (app (loadExample ep s).2) = body (app s) ∧
  headers (app (loadExample ep s).2) = headers (app s) ∧
  method (app (loadExample ep s).2) = ex_method ep ∧
  endpoint (app (loadExample ep s).2) = ex_endpoint ep ∧
  requests (log (executeRequest (loadExample ep s).2).2) = requests (log s) ∧
  response_ (app (executeRequest (loadExample ep s).2).2)
  = failure_envelope (body_error (app s)).
Proof.
  intros Ht Hv Hb. rewrite loadExample_run. cbn [snd app].
  split; [reflexivity|]. split; [reflexivity|]. split; [reflexivity|].
  split; [reflexivity|].
  set (s1 := {| app := _; world := world s; log := _ |}).
  assert (Hv1 : validate (figmaToken (app s1)) (endpoint (app s1)) = None) by exact Hv.
  assert (Hb1 : body_value (app s1) = None) by exact Hb.
  rewrite (executeRequest_malformed_body s1 Hv1 Hb1). cbn [snd log app s1].
  rewrite !requests_app. cbn. rewrite !app_nil_r. split; reflexivity.
Qed.

(** X12: of the catalog's entries, only [Get me] and [Create webhook]
    pass the guards as loaded; every other one, loaded and executed with a
    token configured, is refused as an unresolved placeholder, nothing being
    sent. *)
Theorem catalog_examples_need_editing s (ep : Example) :
  ep ∈ catalog →
  figmaToken (app s) ≠ "" →
  (ex_name ep = "Get me" ∨ ex_name ep = "Create webhook" →
   validate (figmaToken (app (loadExample ep s).2))
            (endpoint (app (loadExample ep s).2)) = None) ∧
  (ex_name ep ≠ "Get me" → ex_name ep ≠ "Create webhook" →
   validate (figmaToken (app (loadExample ep s).2))
            (endpoint (app (loadExample ep s).2)) = Some UnresolvedPlaceholder ∧
   requests (log (executeRequest (loadExample ep s).2).2) = requests (log s) ∧
   world (executeRequest (loadExample ep s).2).2 = world s).
Proof.
  intros Hin Ht. rewrite loadExample_run. cbn [snd app endpoint figmaToken
    with_activeTab with_endpoint with_method].
  assert (Hcat : Forall (λ e,
            ex_endpoint e ≠ "" ∧
            if includes ":" (ex_endpoint e)
            then ex_name e ≠ "Get me" ∧ ex_name e ≠ "Create webhook"
            else ex_name e = "Get me" ∨ ex_name e = "Create webhook") catalog).
  { unfold catalog, FIGMA_ENDPOINTS. cbn [map snd concat app].
    repeat (constructor;
            [split; [discriminate|];
             cbn; first [split; discriminate | now left | now right]|]).
    constructor. }
  rewrite Forall_forall in Hcat. destruct (Hcat ep Hin) as [Hne Hc].
  destruct (includes ":" (ex_endpoint ep)) eqn:Hi.
  - split; [intros [E|E]; destruct Hc; contradiction|]. intros _ _.
    assert (Hv : validate (figmaToken (app s)) (ex_endpoint ep)
                 = Some UnresolvedPlaceholder)
      by (apply validate_placeholder; auto).
    split; [exact Hv|].
    set (s1 := {| app := _; world := world s; log := _ |}).
    rewrite (executeRequest_rejected s1 UnresolvedPlaceholder Hv).
    cbn [snd]. rewrite requests_rejected. cbn [s1 log world rejected].
    rewrite requests_app. cbn. rewrite app_nil_r. split; reflexivity.
  - split; [|intros N1 N2; destruct Hc; contradiction]. intros _.
    apply validate_passes. auto.
Qed.

End Handlers.

(** ** More on the header text *)

Lemma chars_append (a b : string) :
  list_ascii_of_string (a ++ b)%string
  = list_ascii_of_string a ++ list_ascii_of_string b.
Proof.
  induction a as [|x a IH]; [reflexivity|].
  change (list_ascii_of_string (String x (a ++ b))
          = x :: (list_ascii_of_string a ++ list_ascii_of_string b)).
  cbn [list_ascii_of_string]. now rewrite IH.
Qed.

Lemma split_append (c : ascii) (a b : string) :
  split c (a ++ String c b)%string = split c a ++ split c b.
Proof.
  induction a as [|x a IH].
  - change (split c (String c b) = [""] ++ split c b). cbn. now rewrite Ascii.eqb_refl.
  - change (split c (String x (a ++ String c b)) = split c (String x a) ++ split c b).
    cbn [split]. rewrite IH.
    destruct (Ascii.eqb x c); [reflexivity|].
    pose proof (split_nonempty c a) as Hne.
    destruct (split c a) as [|h t]; [contradiction|]. reflexivity.
Qed.

(** The line scan of a text and a further line is the scan of the text
    followed by that of the line. *)
Lemma headerLines_append (a b : string) (o : gmap string json) :
  headerLines a = JObj o →
  headerLines (a ++ String "010" b)%string
  = JObj (fold_left headerLine (split "010" b) o).
Proof.
  unfold headerLines. intros [= <-]. now rewrite split_append, fold_left_app.
Qed.

(** X13: on the line scan, a further line [k:v] (no colon or line break
    in [k] or [v], neither empty) adds the trimmed pair to what the text
    before it gave: it replaces the value of an earlier line with the same
    key and leaves the other keys alone. *)
Theorem later_header_line_wins (a k v : string) (o : gmap string json) :
  a ≠ "" → JSON.parse a = None →
  JSON.parse (a ++ String "010" (k ++ String ":" v))%string = None →
  ¬ In ":"%char (list_ascii_of_string k) →
  ¬ In ":"%char (list_ascii_of_string v) →
  ¬ In "010"%char (list_ascii_of_string k) →
  ¬ In "010"%char (list_ascii_of_string v) →
  k ≠ "" → v ≠ "" → trim k ≠ "__proto__" →
  parseHeaders a = JObj o →
  parseHeaders (a ++ String "010" (k ++ String ":" v))%string
  = JObj (<[trim k := JStr (trim v)]> o).
Proof.
  intros Ha Hpa Hpw Hk Hv Hkn Hvn Hke Hve Hproto Ho.
  rewrite (parseHeaders_fallback a Ha Hpa) in Ho.
  rewrite parseHeaders_fallback; [|destruct a; [congruence|discriminate]|exact Hpw].
  rewrite (headerLines_append a _ o Ho).
  rewrite split_none.
  - cbn [fold_left]. rewrite headerLine_pair by assumption.
    apply str_truthy_true in Hke, Hve. rewrite Hke, Hve. cbn [andb].
    unfold assign. destruct (String.eqb_spec (trim k) "__proto__"); [contradiction|].
    reflexivity.
  - intros Hin. rewrite chars_append in Hin.
    apply in_app_or in Hin as [Hin|Hin]; [tauto|].
    cbn in Hin. destruct Hin as [E|Hin]; [discriminate|tauto].
Qed.

(** *** [trim] leaves nothing to trim *)

Lemma strip_clear (ws : list string) (k : nat) (s : string) :
  strip ws k s = ""
  ∨ List.find (fun w => String.prefix w (strip ws k s)) ws = None.
Proof.
  revert k. induction s as [|a r IH]; intros k; [now left|].
  cbn [strip]. destruct k as [|k]; [|apply IH].
  destruct (List.find (fun w => String.prefix w (String a r)) ws) as [w|] eqn:E;
    [apply IH|]. right. exact E.
Qed.

Lemma strip_same (ws : list string) (s : string) :
  s = "" ∨ List.find (fun w => String.prefix w s) ws = None →
  strip ws 0 s = s.
Proof.
  destruct s as [|a r]; [reflexivity|]. intros [E|E]; [discriminate|].
  cbn [strip]. now rewrite E.
Qed.

Lemma strip_suffix (ws : list string) (k : nat) (s : string) :
  ∃ p, s = (p ++ strip ws k s)%string.
Proof.
  revert k. induction s as [|a r IH]; intros k; [now exists ""|].
  cbn [strip]. destruct k as [|k].
  - destruct (List.find (fun w => String.prefix w (String a r)) ws) as [w|];
      [|now exists ""].
    destruct (IH (Nat.pred (String.length w))) as [p Hp]. exists (String a p).
    change (String a r = String a (p ++ strip ws (Nat.pred (String.length w)) r)).
    now rewrite <- Hp.
  - destruct (IH k) as [p Hp]. exists (String a p).
    change (String a r = String a (p ++ strip ws k r)). now rewrite <- Hp.
Qed.

Lemma prefix_append (w a b : string) :
  String.prefix w a = true → String.prefix w (a ++ b) = true.
Proof.
  revert w. induction a as [|y a IH]; intros w Hw.
  - destruct w; [|discriminate]. now destruct b.
  - change (String.prefix w (String y (a ++ b)) = true).
    destruct w as [|x w]; [reflexivity|]. cbn [String.prefix] in *.
    destruct (ascii_dec x y); [now apply IH|discriminate].
Qed.

Lemma string_of_list_ascii_app (l1 l2 : list ascii) :
  string_of_list_ascii (l1 ++ l2)
  = (string_of_list_ascii l1 ++ string_of_list_ascii l2)%string.
Proof. induction l1 as [|a l1 IH]; [reflexivity|]. cbn. now rewrite IH. Qed.

Lemma rev_string_involutive (s : string) : rev_string (rev_string s) = s.
Proof.
  unfold rev_string. rewrite list_ascii_of_string_of_list_ascii, rev_involutive.
  apply string_of_list_ascii_of_string.
Qed.

Lemma rev_string_append (a b : string) :
  rev_string (a ++ b) = (rev_string b ++ rev_string a)%string.
Proof.
  unfold rev_string. now rewrite chars_append, rev_app_distr, string_of_list_ascii_app.
Qed.

Lemma trimEnd_prefix (s : string) : ∃ q, s = (trimEnd s ++ q)%string.
Proof.
  unfold trimEnd.
  destruct (strip_suffix (map rev_string white_space) 0 (rev_string s)) as [p Hp].
  exists (rev_string p). apply (f_equal rev_string) in Hp.
  now rewrite rev_string_involutive, rev_string_append in Hp.
Qed.

Lemma trimEnd_idempotent (s : string) : trimEnd (trimEnd s) = trimEnd s.
Proof.
  unfold trimEnd. rewrite rev_string_involutive.
  now rewrite (strip_same _ _ (strip_clear _ _ _)).
Qed.

Lemma trim_idempotent (s : string) : trim (trim s) = trim s.
Proof.
  unfold trim.
  assert (trimStart (trimEnd (trimStart s)) = trimEnd (trimStart s)) as ->;
    [|apply trimEnd_idempotent].
  apply strip_same.
  destruct (trimEnd (trimStart s)) as [|a u] eqn:E; [now left|right].
  destruct (List.find (fun w => String.prefix w (String a u)) white_space)
    as [w|] eqn:F; [exfalso|reflexivity].
  apply find_some in F as [Hin Hp].
  destruct (trimEnd_prefix (trimStart s)) as [q Hq]. rewrite E in Hq.
  apply (prefix_append _ _ q) in Hp. rewrite <- Hq in Hp.
  destruct (strip_clear white_space 0 s) as [H0|Hc]; fold (trimStart s) in *.
  - rewrite H0 in Hq. discriminate Hq.
  - apply (find_none _ _ Hc) in Hin. cbn beta in Hin. congruence.
Qed.

(** X14: when the header text is not JSON, [parseHeaders] returns an
    object whose values are all strings, keys and values carrying no white
    space at either end; [__proto__] is never among the keys. *)
Theorem fallback_headers_are_trimmed_strings (headers : string) :
  JSON.parse headers = None →
  ∃ o, parseHeaders headers = JObj o ∧
    ∀ k v, o !! k = Some v →
      trim k = k ∧ k ≠ "__proto__" ∧ ∃ t, v = JStr t ∧ trim t = t.
Proof.
  intros Hp. destruct headers as [|c r].
  { exists ∅. split; [reflexivity|]. intros k v Hk. now rewrite lookup_empty in Hk. }
  rewrite parseHeaders_fallback by (discriminate || exact Hp).
  unfold headerLines. eexists. split; [reflexivity|].
  generalize (split "010" (String c r)). intros lines.
  assert (Hinv : ∀ (o : gmap string json),
            (∀ k v, o !! k = Some v →
               trim k = k ∧ k ≠ "__proto__" ∧ ∃ t, v = JStr t ∧ trim t = t) →
            ∀ k v, fold_left headerLine lines o !! k = Some v →
               trim k = k ∧ k ≠ "__proto__" ∧ ∃ t, v = JStr t ∧ trim t = t).
  { induction lines as [|line lines IH]; intros o Ho; [exact Ho|].
    cbn [fold_left]. apply IH. unfold headerLine.
    destruct (split ":" line !! 0%nat) as [k0|]; [|exact Ho].
    destruct (split ":" line !! 1%nat) as [v0|]; [|exact Ho].
    destruct (str_truthy k0 && str_truthy v0); [|exact Ho].
    unfold assign. destruct (String.eqb_spec (trim k0) "__proto__") as [|Hne];
      [exact Ho|].
    intros k v. destruct (decide (trim k0 = k)) as [<-|Hk].
    - rewrite lookup_insert_eq. intros [= <-].
      split; [apply trim_idempotent|]. split; [exact Hne|].
      eexists. split; [reflexivity | apply trim_idempotent].
    - rewrite lookup_insert_ne by exact Hk. apply Ho. }
  apply Hinv. intros k v Hk. now rewrite lookup_empty in Hk.
Qed.

(** ** The headers of the outbound call *)

(** X15: the headers of the outbound call always have the keys
    [X-Figma-Token] and [Content-Type], and beyond them exactly the keys the
    header text gives; with an empty header text they are the two fixed
    headers. *)
Theorem outbound_headers_have_fixed_keys (figmaToken headers : string) :
  is_Some (requestHeaders figmaToken headers !! "X-Figma-Token") ∧
  is_Some (requestHeaders figmaToken headers !! "Content-Type") ∧
  requestHeaders figmaToken "" = fixedHeaders figmaToken ∧
  (∀ k, is_Some (requestHeaders figmaToken headers !! k) ↔
        k = "X-Figma-Token" ∨ k = "Content-Type"
        ∨ is_Some (spread (parseHeaders headers) !! k)).
Proof.
  assert (Hall : ∀ k, is_Some (requestHeaders figmaToken headers !! k) ↔
        k = "X-Figma-Token" ∨ k = "Content-Type"
        ∨ is_Some (spread (parseHeaders headers) !! k)).
  { intros k. unfold requestHeaders. rewrite lookup_union_is_Some.
    unfold fixedHeaders. rewrite !lookup_insert_is_Some, lookup_empty.
    split.
    - intros [Hu|[E|[_ [E|[_ Hx]]]]]; auto. destruct Hx as [? [=]].
    - intros [->|[->|Hu]]; [right; right; split; [discriminate|]; now left
                           | right; now left | now left]. }
  split; [apply Hall; now left|]. split; [apply Hall; right; now left|].
  split; [|exact Hall].
  unfold requestHeaders. cbn [parseHeaders str_truthy negb spread].
  apply (left_id ∅ (∪)).
Qed.

(** X16: one line of the scan.  A line without a colon adds nothing.  A
    line [k:v] with no further colon adds the pair of the trimmed [k] and
    [v] exactly when [k] and [v] are both non-empty before trimming and the
    trimmed key is not [__proto__]; otherwise it adds nothing. *)
Theorem line_scan_of_one_line (o : gmap string json) (k v : string) :
  ¬ In ":"%char (list_ascii_of_string k) →
  ¬ In ":"%char (list_ascii_of_string v) →
  headerLine o k = o ∧
  headerLine o (k ++ String ":" v)%string
  = if str_truthy k && str_truthy v && negb (String.eqb (trim k) "__proto__")
    then <[trim k := JStr (trim v)]> o
    else o.
Proof.
  intros Hk Hv. split; [now apply headerLine_no_colon|].
  rewrite headerLine_pair by assumption. unfold assign.
  destruct (str_truthy k && str_truthy v); [|reflexivity].
  destruct (String.eqb (trim k) "__proto__"); reflexivity.
Qed.

(** ** The further properties at concrete states *)

(** X1 with the server out of reach. *)
Lemma loading_settles_offline :
  let s := unreachable (Backend.demo_app "GET" "/me" "" "") in
  validate (figmaToken (app s)) (endpoint (app s)) = None ∧
  loading (app (executeRequest s).2) = false.
Proof.
  cbv zeta. split; [reflexivity|].
  exact (executeRequest_settles_loading
           (unreachable (Backend.demo_app "GET" "/me" "" "")) eq_refl).
Defined.

(** X3 for [/me] against the demo server. *)
Lemma answered_request_example :
  let s := Backend.demo (Backend.demo_app "GET" "/me" "" "") in
  submitted s JNull ∧
  get_prop (Some (response_ (app (executeRequest s).2))) "status_code"
    = Some (JNum 200 0) ∧
  toasts (log (executeRequest s).2) = [(success, "Request executed successfully")].
Proof.
  cbv zeta.
  assert (Hs : submitted (Backend.demo (Backend.demo_app "GET" "/me" "" "")) JNull)
    by (split; reflexivity).
  split; [exact Hs|].
  destruct (successful_request_survives_reload _ _ _ _ Hs (serve_outbound _ _ _))
    as (Hr & Ht & _).
  split; [rewrite Hr; run | exact Ht].
Defined.

(** X4 with the server out of reach. *)
Lemma loaders_offline :
  let s := unreachable initial in
  app (loadHistory s).2 = initial ∧ app (loadSavedRequests s).2 = initial ∧
  toasts (log (loadHistory s).2) = [].
Proof.
  cbv zeta.
  pose proof (loaders_fail_silently (unreachable initial))
    as (_ & _ & Ht & _ & _ & _ & Hh & Hs & _).
  split; [exact (Hh _ _ eq_refl)|]. split; [exact (Hs _ _ eq_refl) | exact Ht].
Defined.

(** X5 with the server out of reach, and at an id that has no text. *)
Lemma toggle_offline :
  let s := unreachable initial in
  app (toggleFavorite (Some (JStr "0")) (Some (JBool false)) s).2 = initial ∧
  toasts (log (toggleFavorite (Some (JStr "0")) (Some (JBool false)) s).2)
  = [(error, "Failed to update favorite")] ∧
  log (toggleFavorite (Some (JObj {[ "toString" := JNum 1 0 ]}))
         (Some (JBool false)) s).2
  = [Toast error "Failed to update favorite"].
Proof.
  cbv zeta.
  pose proof (toggleFavorite_outcomes (unreachable initial) (Some (JStr "0"))
                (Some (JBool false))) as (_ & _ & Hsome & _).
  destruct (Hsome "0" eq_refl) as [Hrej _].
  destruct (Hrej _ _ eq_refl) as (Ha & _ & Ht).
  split; [exact Ha|]. split; [exact Ht|].
  pose proof (toggleFavorite_outcomes (unreachable initial)
                (Some (JObj {[ "toString" := JNum 1 0 ]}))
                (Some (JBool false))) as (_ & Hnone & _).
  rewrite (Hnone ltac:(vm_compute; reflexivity)). reflexivity.
Defined.

(** X6 with the server out of reach, and at an id that has no text. *)
Lemma delete_offline :
  let s := unreachable initial in
  app (deleteRequest (Some (JStr "0")) s).2 = initial ∧
  toasts (log (deleteRequest (Some (JStr "0")) s).2)
  = [(error, "Failed to delete request")] ∧
  log (deleteRequest (Some (JArr [JObj {[ "toString" := JNull ]}])) s).2
  = [Toast error "Failed to delete request"].
Proof.
  cbv zeta.
  pose proof (deleteRequest_outcomes (unreachable initial) (Some (JStr "0")))
    as (_ & _ & Hsome & _).
  destruct (Hsome "0" eq_refl) as [Hrej _].
  destruct (Hrej _ _ eq_refl) as (Ha & _ & Ht).
  split; [exact Ha|]. split; [exact Ht|].
  pose proof (deleteRequest_outcomes (unreachable initial)
                (Some (JArr [JObj {[ "toString" := JNull ]}])))
    as (_ & Hnone & _).
  rewrite (Hnone ltac:(vm_compute; reflexivity)). reflexivity.
Defined.

(** X7 with the server out of reach. *)
Lemma clear_offline :
  let s := unreachable (with_history (JArr [JNull]) initial) in
  history (app (clearHistory s).2) = JArr [JNull] ∧
  toasts (log (clearHistory s).2) = [(error, "Failed to clear history")].
Proof.
  cbv zeta.
  pose proof (clearHistory_clears_when_accepted
                (unreachable (with_history (JArr [JNull]) initial)))
    as (_ & _ & Hrej & _).
  destruct (Hrej _ _ eq_refl) as (-> & Ht). split; [reflexivity | exact Ht].
Defined.

(** X8 at a dismissed prompt. *)
Lemma save_dismissed :
  saveRequest None (unreachable initial) = (inl tt, unreachable initial).
Proof. exact (saveRequest_needs_a_name (unreachable initial) None (or_introl eq_refl)). Defined.

(** X9 with no token, a placeholder endpoint and a body that is not JSON:
    the request is posted all the same. *)
Lemma save_unvalidated_offline :
  let s := unreachable (with_body "{" (with_endpoint "/files/:file_key" initial)) in
  validate (figmaToken (app s)) (endpoint (app s)) = Some MissingCredential ∧
  requests (log (saveRequest (Some "mine") s).2)
  = [{| verb := POST; url := "http://localhost:8001/api/saved-requests";
        payload := Some (save_payload (app s) "mine") |}] ∧
  toasts (log (saveRequest (Some "mine") s).2) = [(error, "Failed to save request")].
Proof.
  cbv zeta. split; [reflexivity|].
  pose proof (saveRequest_saves_unvalidated
                (unreachable (with_body "{" (with_endpoint "/files/:file_key" initial)))
                "mine" ltac:(discriminate)) as (_ & _ & _ & _ & _ & Hrej & _).
  destruct (Hrej _ _ eq_refl) as (_ & Ht). split; [reflexivity | exact Ht].
Defined.

(** X11: the example [Get me] loaded over a body text that is not JSON. *)
Lemma stale_body_example :
  let s := unreachable (Backend.demo_app "POST" "/webhooks" "" "{") in
  let me := {| ex_name := "Get me"; ex_endpoint := "/me"; ex_method := "GET";
               ex_desc := "Get current user info"; ex_example := "/me" |} in
  method (app (loadExample me s).2) = "GET" ∧
  body (app (loadExample me s).2) = "{" ∧
  requests (log (executeRequest (loadExample me s).2).2) = [].
Proof.
  cbv zeta.
  destruct (loadExample_keeps_stale_body
              (unreachable (Backend.demo_app "POST" "/webhooks" "" "{"))
              {| ex_name := "Get me"; ex_endpoint := "/me"; ex_method := "GET";
                 ex_desc := "Get current user info"; ex_example := "/me" |}
              ltac:(discriminate) eq_refl eq_refl) as (Hb & _ & Hm & _ & Hr & _).
  split; [exact Hm|]. split; [exact Hb | exact Hr].
Defined.

(** X12 at the first entry of the catalog. *)
Lemma catalog_example :
  let s := unreachable (Backend.demo_app "GET" "" "" "") in
  let file := {| ex_name := "Get file"; ex_endpoint := "/files/:file_key";
                 ex_method := "GET"; ex_desc := "Get a Figma file";
                 ex_example := "/files/YOUR_FILE_KEY" |} in
  file ∈ catalog ∧
  requests (log (executeRequest (loadExample file s).2).2) = [].
Proof.
  cbv zeta.
  assert (Hin : {| ex_name := "Get file"; ex_endpoint := "/files/:file_key";
                   ex_method := "GET"; ex_desc := "Get a Figma file";
                   ex_example := "/files/YOUR_FILE_KEY" |} ∈ catalog)
    by (apply elem_of_cons; now left).
  split; [exact Hin|].
  destruct (catalog_examples_need_editing
              (unreachable (Backend.demo_app "GET" "" "" "")) _ Hin
              ltac:(discriminate)) as (_ & Hrej).
  destruct (Hrej ltac:(discriminate) ltac:(discriminate)) as (_ & Hr & _).
  exact Hr.
Defined.

(** X13: a second [X-Foo] line replaces the first. *)
Lemma later_line_example :
  parseHeaders "X-Foo: bar" = JObj {[ "X-Foo" := JStr "bar" ]} ∧
  parseHeaders "X-Foo: bar
X-Foo: baz" = JObj {[ "X-Foo" := JStr "baz" ]}.
Proof.
  assert (H1 : parseHeaders "X-Foo: bar" = JObj {[ "X-Foo" := JStr "bar" ]}) by run.
  split; [exact H1|].
  assert (Hw : parseHeaders ("X-Foo: bar" ++ String "010" ("X-Foo" ++ String ":" " baz"))%string
               = JObj (<[trim "X-Foo" := JStr (trim " baz")]> {[ "X-Foo" := JStr "bar" ]})).
  { apply later_header_line_wins; try discriminate; try reflexivity;
      try (cbn; intuition discriminate). }
  etransitivity; [exact Hw|]. run.
Defined.

(** X14 at a line with blanks around both parts. *)
Lemma trimmed_example :
  ∃ o, parseHeaders " X-Foo :  bar " = JObj o ∧
    ∀ k v, o !! k = Some v →
      trim k = k ∧ k ≠ "__proto__" ∧ ∃ t, v = JStr t ∧ trim t = t.
Proof. exact (fallback_headers_are_trimmed_strings " X-Foo :  bar " eq_refl). Defined.

(** X16 at the lines [badline] and [Y-Baz:qux]. *)
Lemma one_line_example :
  headerLine ∅ "Y-Baz" = ∅ ∧
  headerLine ∅ "Y-Baz:qux" = {[ "Y-Baz" := JStr "qux" ]}.
Proof.
  destruct (line_scan_of_one_line ∅ "Y-Baz" "qux") as [H1 H2];
    [cbn; intuition discriminate | cbn; intuition discriminate |].
  split; [exact H1|]. change ("Y-Baz:qux") with ("Y-Baz" ++ String ":" "qux")%string.
  rewrite H2. run.
Defined.

(** * Writing JSON and reading it back *)

Lemma string_body_escape (a : ascii) (l : list ascii) :
  JSON.string_body (list_ascii_of_string (escape a) ++ l)
  = match JSON.string_body l with
    | Some (s, r) => Some (String a s, r)
    | None => None
    end.
Proof. destruct a as [[] [] [] [] [] [] [] []]; reflexivity. Qed.

Lemma surrogate_range (a b c : ascii) (h : bool) :
  surrogate a b c = Some h →
  N_of_ascii a = 237%N ∧ (160 ≤ N_of_ascii b < 192)%N
  ∧ (128 ≤ N_of_ascii c < 192)%N.
Proof.
  unfold surrogate. intros H.
  destruct (N.eqb_spec (N_of_ascii a) 237); [|discriminate].
  destruct (N.leb_spec 128 (N_of_ascii c)); [|discriminate].
  destruct (N.ltb_spec (N_of_ascii c) 192); [|discriminate].
  cbn [andb] in H.
  destruct (N.leb_spec 160 (N_of_ascii b)), (N.ltb_spec (N_of_ascii b) 176),
    (N.leb_spec 176 (N_of_ascii b)), (N.ltb_spec (N_of_ascii b) 192);
    cbn [andb] in H; try discriminate; lia.
Qed.

Lemma hex_hex_digit (d : N) :
  (d < 16)%N → JSON.hex (hex_digit d) = Some (Z.of_N d).
Proof.
  intros Hd. destruct d as [|p]; [reflexivity|].
  do 4 (destruct p as [p|p|]; try reflexivity); lia.
Qed.

Lemma string_body_u (h1 h2 h3 h4 : ascii) (l : list ascii) :
  JSON.string_body ("\"%char :: "u"%char :: h1 :: h2 :: h3 :: h4 :: l)
  = match JSON.hex h1, JSON.hex h2, JSON.hex h3, JSON.hex h4 with
    | Some w, Some x, Some y, Some z =>
        match JSON.string_body l with
        | Some (s, r) =>
            Some ((code_unit (4096 * w + 256 * x + 16 * y + z) ++ s)%string, r)
        | None => None
        end
    | _, _, _, _ => None
    end.
Proof. reflexivity. Qed.

Lemma string_body_unicode (n : N) (l : list ascii) :
  (n < 65536)%N →
  JSON.string_body (list_ascii_of_string (UnicodeEscape n) ++ l)
  = match JSON.string_body l with
    | Some (s, r) => Some ((code_unit (Z.of_N n) ++ s)%string, r)
    | None => None
    end.
Proof.
  intros Hn. unfold UnicodeEscape.
  change ("\u" ++ ?x)%string with (String "\" (String "u" x)).
  cbn [list_ascii_of_string Datatypes.app]. rewrite string_body_u.
  assert (Hd : ∀ k, (0 < k)%N → (n / k mod 16 < 16)%N)
    by (intros; apply N.mod_lt; discriminate).
  rewrite (hex_hex_digit (n / 4096)) by (apply N.Div0.div_lt_upper_bound; lia).
  rewrite !hex_hex_digit by (apply N.mod_lt; discriminate).
  replace (4096 * Z.of_N (n / 4096) + 256 * Z.of_N ((n / 256) mod 16)
           + 16 * Z.of_N ((n / 16) mod 16) + Z.of_N (n mod 16))
    with (Z.of_N n); [reflexivity|].
  rewrite !N2Z.inj_mod, !N2Z.inj_div. change (Z.of_N 4096) with 4096.
  change (Z.of_N 256) with 256. change (Z.of_N 16) with 16.
  Z.div_mod_to_equations. lia.
Qed.

Lemma code_unit_surrogate (a b c : ascii) (h : bool) :
  surrogate a b c = Some h →
  (unit_number a b c < 65536)%N ∧
  code_unit (Z.of_N (unit_number a b c)) = String a (String b (String c "")).
Proof.
  intros H. apply surrogate_range in H as (Ha & Hb & Hc).
  unfold unit_number. split; [lia|]. unfold code_unit.
  set (n := Z.of_N _).
  assert (Hn : n = 53248 + 64 * (Z.of_N (N_of_ascii b) - 128)
                   + (Z.of_N (N_of_ascii c) - 128)) by (subst n; lia).
  destruct (Z.ltb_spec n 128); [lia|]. destruct (Z.ltb_spec n 2048); [lia|].
  assert (E1 : Z.to_N (224 + n / 4096) = N_of_ascii a)
    by (rewrite Ha; apply N2Z.inj; rewrite Z2N.id;
        [change (Z.of_N 237) with 237|]; Z.div_mod_to_equations; lia).
  assert (E2 : Z.to_N (128 + (n / 64) mod 64) = N_of_ascii b)
    by (apply N2Z.inj; rewrite Z2N.id; Z.div_mod_to_equations; lia).
  assert (E3 : Z.to_N (128 + n mod 64) = N_of_ascii c)
    by (apply N2Z.inj; rewrite Z2N.id; Z.div_mod_to_equations; lia).
  cbn zeta. now rewrite E1, E2, E3, !ascii_N_embedding.
Qed.

Lemma escape_high (a : ascii) :
  (128 ≤ N_of_ascii a)%N → escape a = String a "".
Proof.
  intros Ha. unfold escape.
  repeat match goal with
  | |- context [(?x =? ?y)%N] => destruct (N.eqb_spec x y); [lia|]
  | |- context [(?x <? ?y)%N] => destruct (N.ltb_spec x y); [lia|]
  end. reflexivity.
Qed.

Lemma string_body_high (a : ascii) (l : list ascii) :
  (128 ≤ N_of_ascii a)%N →
  JSON.string_body (a :: l)
  = match JSON.string_body l with
    | Some (s, r) => Some (String a s, r)
    | None => None
    end.
Proof.
  intros Ha. rewrite <- string_body_escape, escape_high by exact Ha. reflexivity.
Qed.

Lemma string_body_escaped (s : string) (rest : list ascii) :
  JSON.string_body (list_ascii_of_string (escaped s) ++ JSON.dquote :: rest)
  = Some (s, rest).
Proof.
  remember (String.length s) as n eqn:Hn. revert s Hn rest.
  induction n as [n IH] using lt_wf_ind. intros s Hn rest.
  destruct s as [|a r]; [reflexivity|].
  assert (Hplain :
    JSON.string_body
      (list_ascii_of_string (escape a ++ escaped r) ++ JSON.dquote :: rest)
    = Some (String a r, rest)).
  { rewrite chars_append, <- app_assoc, string_body_escape.
    now rewrite (IH (String.length r)) by (cbn in Hn; lia || reflexivity). }
  destruct r as [|b [|c r3]]; [exact Hplain..|].
  cbn [escaped]. destruct (surrogate a b c) as [lead|] eqn:S; [|exact Hplain].
  destruct (code_unit_surrogate _ _ _ _ S) as [Hlt Hcu].
  assert (Hlone :
    JSON.string_body
      (list_ascii_of_string (UnicodeEscape (unit_number a b c) ++ escaped r3)
       ++ JSON.dquote :: rest)
    = Some (String a (String b (String c r3)), rest)).
  { rewrite chars_append, <- app_assoc, string_body_unicode by exact Hlt.
    rewrite (IH (String.length r3)) by (cbn in Hn; lia || reflexivity).
    now rewrite Hcu. }
  cbn zeta. destruct lead; [|exact Hlone].
  destruct r3 as [|a' [|b' [|c' r6]]]; [exact Hlone..|].
  destruct (surrogate a' b' c') as [[]|] eqn:S'; [exact Hlone| |exact Hlone].
  apply surrogate_range in S as (Ha & Hb & Hc).
  apply surrogate_range in S' as (Ha' & Hb' & Hc').
  cbn [list_ascii_of_string Datatypes.app].
  rewrite !string_body_high by lia.
  now rewrite (IH (String.length r6)) by (cbn in Hn; lia || reflexivity).
Qed.

Lemma chars_quote (s : string) :
  list_ascii_of_string (QuoteJSONString s)
  = JSON.dquote :: list_ascii_of_string (escaped s) ++ [JSON.dquote].
Proof.
  unfold QuoteJSONString, quoted. cbn [list_ascii_of_string].
  now rewrite chars_append.
Qed.

Lemma skip_ws_idempotent (l : list ascii) :
  JSON.skip_ws (JSON.skip_ws l) = JSON.skip_ws l.
Proof.
  induction l as [|a l IH]; [reflexivity|]. cbn [JSON.skip_ws].
  destruct (JSON.is_ws a) eqn:E; [exact IH|]. cbn [JSON.skip_ws]. now rewrite E.
Qed.

Lemma skip_ws_blank (ws l : list ascii) :
  Forall (fun a => JSON.is_ws a = true) ws →
  JSON.skip_ws (ws ++ l) = JSON.skip_ws l.
Proof.
  induction 1 as [|a ws Ha _ IH]; [reflexivity|].
  cbn beta in Ha. cbn [Datatypes.app JSON.skip_ws]. now rewrite Ha.
Qed.

Lemma value_skip (f : nat) (l : list ascii) :
  JSON.value f l = JSON.value f (JSON.skip_ws l).
Proof. destruct f; [reflexivity|]. cbn [JSON.value]. now rewrite skip_ws_idempotent. Qed.

Lemma elements_skip (f : nat) (acc : list json) (l : list ascii) :
  JSON.elements f acc l = JSON.elements f acc (JSON.skip_ws l).
Proof. destruct f; [reflexivity|]. cbn [JSON.elements]. now rewrite <- value_skip. Qed.

Lemma members_skip (f : nat) (acc : gmap string json) (l : list ascii) :
  JSON.members f acc l = JSON.members f acc (JSON.skip_ws l).
Proof. destruct f; [reflexivity|]. cbn [JSON.members]. now rewrite skip_ws_idempotent. Qed.

(** A value never starts with a closing bracket. *)
Lemma value_head (f : nat) (l : list ascii) (x : json * list ascii) :
  JSON.value f l = Some x →
  ∃ c r, JSON.skip_ws l = c :: r ∧ c ≠ "]"%char ∧ c ≠ "}"%char.
Proof.
  destruct f; [discriminate|]. cbn [JSON.value].
  destruct (JSON.skip_ws l) as [|c r]; [discriminate|]. intros Hv.
  exists c, r. split; [reflexivity|].
  split; intros ->; cbn in Hv; discriminate.
Qed.

Lemma elements_head (f : nat) (acc : list json) (l : list ascii)
    (x : json * list ascii) :
  JSON.elements f acc l = Some x →
  ∃ c r, JSON.skip_ws l = c :: r ∧ c ≠ "]"%char.
Proof.
  destruct f; [discriminate|]. cbn [JSON.elements].
  destruct (JSON.value f l) as [y|] eqn:Hv; [|discriminate]. intros _.
  destruct (value_head _ _ _ Hv) as (c & r & E & Hc & _). eauto.
Qed.

Lemma members_head (f : nat) (acc : gmap string json) (l : list ascii)
    (x : json * list ascii) :
  JSON.members f acc l = Some x →
  ∃ c r, JSON.skip_ws l = c :: r ∧ c ≠ "}"%char.
Proof.
  destruct f; [discriminate|]. cbn [JSON.members].
  destruct (JSON.skip_ws l) as [|c r]; [discriminate|]. intros Hm.
  exists c, r. split; [reflexivity|]. intros ->. cbn in Hm. discriminate.
Qed.

(** [reads v text]: with enough fuel, the parser reads [v] off the front of
    any input that starts with [text]. *)
#[local] Abbreviation reads v text :=
  (∃ F : nat, ∀ (f : nat) (rest : list ascii), (F ≤ f)%nat →
     JSON.value f (list_ascii_of_string text ++ rest) = Some (v, rest)).

#[local] Abbreviation blank s :=
  (Forall (fun a => JSON.is_ws a = true) (list_ascii_of_string s)).

Lemma reads_string (s : string) : reads (JStr s) (QuoteJSONString s).
Proof.
  exists 1%nat. intros [|f] rest Hf; [lia|].
  rewrite chars_quote. cbn [JSON.value Datatypes.app JSON.skip_ws].
  change (JSON.is_ws JSON.dquote) with false. cbn iota.
  change (Ascii.eqb JSON.dquote "n") with false.
  change (Ascii.eqb JSON.dquote "t") with false.
  change (Ascii.eqb JSON.dquote "f") with false.
  rewrite Ascii.eqb_refl. cbn iota.
  rewrite <- app_assoc. cbn [Datatypes.app]. now rewrite string_body_escaped.
Qed.

Lemma blank_inner (indent : string) : blank indent → blank (indent ++ "  ")%string.
Proof.
  intros Hb. rewrite chars_append. apply Forall_app. split; [exact Hb|].
  repeat constructor.
Qed.

Lemma skip_line (indent : string) (c : ascii) (rest : list ascii) :
  blank indent → JSON.is_ws c = false →
  JSON.skip_ws ("010"%char :: list_ascii_of_string indent ++ c :: rest) = c :: rest.
Proof.
  intros Hb Hc. cbn [JSON.skip_ws]. change (JSON.is_ws "010") with true. cbn iota.
  rewrite skip_ws_blank by exact Hb. cbn [JSON.skip_ws]. now rewrite Hc.
Qed.

Lemma chars_separator (inner : string) :
  list_ascii_of_string ("," ++ newline ++ inner)%string
  = ","%char :: "010"%char :: list_ascii_of_string inner.
Proof. reflexivity. Qed.

Lemma join_cons (sep x y : string) (r : list string) :
  join sep (x :: y :: r) = (x ++ sep ++ join sep (y :: r))%string.
Proof. reflexivity. Qed.

Lemma elements_join (t : json → string) (inner indent : string) (l : list json) :
  blank inner → blank indent → l ≠ [] →
  Forall (fun v => reads v (t v)) l →
  ∃ F : nat, ∀ (f : nat) (rest : list ascii) (acc : list json), (F ≤ f)%nat →
    JSON.elements f acc
      (list_ascii_of_string (join ("," ++ newline ++ inner) (map t l))
       ++ "010"%char :: list_ascii_of_string indent ++ "]"%char :: rest)
    = Some (JArr (acc ++ l), rest).
Proof.
  intros Hin Hind. induction l as [|v l IH]; [done|]. intros _ Hall.
  apply Forall_cons in Hall as [[Fv Hv] Hl]. destruct l as [|v2 l].
  - exists (S Fv). intros [|f] rest acc Hf; [lia|].
    cbn [map join JSON.elements]. rewrite Hv by lia.
    rewrite skip_line by done. reflexivity.
  - destruct IH as [F IH]; [done|exact Hl|]. exists (S (max Fv F)).
    intros [|f] rest acc Hf; [lia|].
    cbn [map]. rewrite join_cons, (chars_append (t v)), <- app_assoc.
    cbn [JSON.elements]. rewrite Hv by lia.
    rewrite chars_append, <- app_assoc, chars_separator. cbn [Datatypes.app JSON.skip_ws].
    change (JSON.is_ws ",") with false. cbn iota.
    change (Ascii.eqb "," ",") with true. cbn iota.
    rewrite elements_skip. cbn [JSON.skip_ws].
    change (JSON.is_ws "010") with true. cbn iota.
    rewrite skip_ws_blank by exact Hin. rewrite <- elements_skip.
    change (t v2 :: map t l) with (map t (v2 :: l)).
    rewrite IH by lia. now rewrite <- app_assoc.
Qed.

Lemma members_join (t : json → string) (inner indent : string)
    (l : list (string * json)) :
  blank inner → blank indent → l ≠ [] →
  Forall (fun kv => reads kv.2 (t kv.2)) l →
  ∃ F : nat, ∀ (f : nat) (rest : list ascii) (acc : gmap string json), (F ≤ f)%nat →
    JSON.members f acc
      (list_ascii_of_string
         (join ("," ++ newline ++ inner)
            (map (fun kv => (QuoteJSONString kv.1 ++ ": " ++ t kv.2)%string) l))
       ++ "010"%char :: list_ascii_of_string indent ++ "}"%char :: rest)
    = Some (JObj (fold_left (fun a kv => <[kv.1 := kv.2]> a) l acc), rest).
Proof.
  intros Hin Hind. induction l as [|[k v] l IH]; [done|]. intros _ Hall.
  apply Forall_cons in Hall as [[Fv Hv] Hl]. cbn [fst snd] in Hv.
  assert (Hkey : ∀ f acc tail,
    JSON.members (S f) acc
      (list_ascii_of_string (QuoteJSONString k ++ ": " ++ t v)%string ++ tail)
    = match JSON.value f (list_ascii_of_string (t v) ++ tail) with
      | Some (v, r3) =>
          match JSON.skip_ws r3 with
          | d :: r4 =>
              if Ascii.eqb d "," then JSON.members f (<[k:=v]> acc) r4
              else if Ascii.eqb d "}" then Some (JObj (<[k:=v]> acc), r4)
              else None
          | [] => None
          end
      | None => None
      end).
  { intros f acc tail. rewrite !chars_append, chars_quote.
    cbn [Datatypes.app]. rewrite <- !app_assoc.
    cbn [JSON.members Datatypes.app JSON.skip_ws].
    change (JSON.is_ws JSON.dquote) with false. cbn iota.
    rewrite Ascii.eqb_refl. cbn iota.
    rewrite string_body_escaped. cbn [list_ascii_of_string Datatypes.app JSON.skip_ws].
    change (JSON.is_ws ":") with false. cbn iota.
    change (Ascii.eqb ":" ":") with true. cbn iota.
    rewrite value_skip. cbn [JSON.skip_ws]. change (JSON.is_ws " ") with true.
    cbn iota. now rewrite <- value_skip. }
  destruct l as [|kv2 l].
  - exists (S Fv). intros [|f] rest acc Hf; [lia|].
    cbn [map join fold_left fst snd]. rewrite Hkey, Hv by lia.
    rewrite skip_line by done. reflexivity.
  - destruct IH as [F IH]; [done|exact Hl|]. exists (S (max Fv F)).
    intros [|f] rest acc Hf; [lia|].
    cbn [map fst snd]. rewrite join_cons.
    rewrite (chars_append (_ ++ _ ++ t v)), <- app_assoc, Hkey.
    rewrite Hv by lia.
    rewrite chars_append, <- app_assoc, chars_separator. cbn [Datatypes.app JSON.skip_ws].
    change (JSON.is_ws ",") with false. cbn iota.
    change (Ascii.eqb "," ",") with true. cbn iota.
    rewrite members_skip. cbn [JSON.skip_ws].
    change (JSON.is_ws "010") with true. cbn iota.
    rewrite skip_ws_blank by exact Hin. rewrite <- members_skip.
    match goal with
    | |- context [?a :: map ?g l] => change (a :: map g l) with (map g (kv2 :: l))
    end.
    rewrite IH by lia. reflexivity.
Qed.

(** *** The parts of a value *)

Lemma json_size_elem (l : list json) (x : json) :
  x ∈ l → (json_size x < json_size (JArr l))%nat.
Proof.
  cbn [json_size]. induction 1 as [x l|x y l _ IH]; cbn [map]; unfold list_sum in *;
    cbn [fold_right]; lia.
Qed.

Lemma json_size_lookup (o : gmap string json) (k : string) (x : json) :
  o !! k = Some x → (json_size x < json_size (JObj o))%nat.
Proof.
  intros Hk. cbn [json_size].
  assert (Hs : (json_size <$> o) !! k = Some (json_size x))
    by now rewrite lookup_fmap, Hk.
  rewrite (map_fold_delete_L (fun _ n acc => (n + acc)%nat) 0%nat k (json_size x)
             (json_size <$> o)); [lia| |exact Hs].
  intros. lia.
Qed.

Lemma number_free_elem (l : list json) (x : json) :
  number_free (JArr l) = true → x ∈ l → number_free x = true.
Proof.
  cbn [number_free]. rewrite forallb_forall. intros Hl Hx.
  apply Hl. now apply list_elem_of_In.
Qed.

Lemma number_free_lookup (o : gmap string json) (k : string) (x : json) :
  number_free (JObj o) = true → o !! k = Some x → number_free x = true.
Proof.
  cbn [number_free]. intros Ho Hk. apply bool_decide_eq_true in Ho.
  apply (map_Forall_lookup_1 _ _ k (number_free x) Ho).
  now rewrite lookup_fmap, Hk.
Qed.

(** Writing the properties of [o] in any order that lists each of them, and
    collecting them again, gives [o]. *)
Lemma collect_subseteq (o : gmap string json) (kvs : list (string * json))
    (acc : gmap string json) :
  acc ⊆ o → Forall (fun kv => o !! kv.1 = Some kv.2) kvs →
  fold_left (fun a kv => <[kv.1 := kv.2]> a) kvs acc ⊆ o.
Proof.
  revert acc. induction kvs as [|kv kvs IH]; intros acc Hacc Hall; [exact Hacc|].
  apply Forall_cons in Hall as [Hkv Hall]. cbn [fold_left].
  apply IH; [|exact Hall]. now apply insert_subseteq_l.
Qed.

Lemma collect_defined (kvs : list (string * json)) (acc : gmap string json)
    (k : string) :
  k ∈ kvs.*1 ∨ is_Some (acc !! k) →
  is_Some (fold_left (fun a kv => <[kv.1 := kv.2]> a) kvs acc !! k).
Proof.
  revert acc. induction kvs as [|kv kvs IH]; intros acc Hk; cbn [fold_left].
  - destruct Hk as [Hk|Hk]; [|exact Hk]. now apply elem_of_nil in Hk.
  - apply IH. destruct Hk as [Hk|Hk].
    + cbn [fmap list_fmap] in Hk. apply elem_of_cons in Hk as [->|Hk]; [|now left].
      right. rewrite lookup_insert_eq. eauto.
    + right. destruct (decide (kv.1 = k)) as [->|Hne].
      * rewrite lookup_insert_eq. eauto.
      * now rewrite lookup_insert_ne.
Qed.

Lemma properties_lookup (o : gmap string json) (ks : list string) :
  Forall (fun kv => o !! kv.1 = Some kv.2)
    (omap (fun k => (fun v => (k, v)) <$> o !! k) ks).
Proof.
  induction ks as [|k ks IH]; [constructor|]. cbn [omap list_omap].
  destruct (o !! k) as [v|] eqn:Hk; cbn [fmap option_fmap option_map]; [|exact IH].
  constructor; [exact Hk|exact IH].
Qed.

Lemma properties_keys (o : gmap string json) (ks : list string) (k : string) :
  k ∈ ks → is_Some (o !! k) →
  k ∈ (omap (fun k => (fun v => (k, v)) <$> o !! k) ks).*1.
Proof.
  intros Hk [v Hv]. apply list_elem_of_fmap. exists (k, v). split; [reflexivity|].
  apply list_elem_of_omap. exists k. split; [exact Hk|]. now rewrite Hv.
Qed.

Lemma collect_properties (o : gmap string json) (ks : list string) :
  (∀ k, is_Some (o !! k) → k ∈ ks) →
  fold_left (fun a kv => <[kv.1 := kv.2]> a)
    (omap (fun k => (fun v => (k, v)) <$> o !! k) ks) ∅ = o.
Proof.
  intros Hks.
  pose proof (collect_subseteq o _ ∅ (map_empty_subseteq o) (properties_lookup o ks))
    as Hsub.
  apply map_eq. intros k. destruct (o !! k) as [v|] eqn:Hk.
  - destruct (collect_defined (omap (fun k => (fun v => (k, v)) <$> o !! k) ks) ∅ k)
      as [w Hw]; [left; apply properties_keys; eauto|].
    rewrite Hw. f_equal.
    pose proof (lookup_weaken _ _ _ _ Hw Hsub) as Hw'. congruence.
  - apply eq_None_not_Some. intros [w Hw].
    pose proof (lookup_weaken _ _ _ _ Hw Hsub) as Hw'. congruence.
Qed.

Lemma value_open_array (f : nat) (r : list ascii) :
  JSON.value (S f) ("["%char :: r)
  = match JSON.skip_ws r with
    | c :: r' =>
        if Ascii.eqb c "]" then Some (JArr [], r') else JSON.elements f [] (c :: r')
    | [] => None
    end.
Proof. reflexivity. Qed.

Lemma value_open_object (f : nat) (r : list ascii) :
  JSON.value (S f) ("{"%char :: r)
  = match JSON.skip_ws r with
    | c :: r' =>
        if Ascii.eqb c "}" then Some (JObj ∅, r') else JSON.members f ∅ (c :: r')
    | [] => None
    end.
Proof. reflexivity. Qed.

Lemma chars_bracket (open close indent p : string) (ps : list string) (rest : list ascii) :
  list_ascii_of_string (bracket open close indent (p :: ps)) ++ rest
  = list_ascii_of_string open
    ++ "010"%char :: list_ascii_of_string (indent ++ "  ")
    ++ list_ascii_of_string (join ("," ++ newline ++ (indent ++ "  ")) (p :: ps))
    ++ "010"%char :: list_ascii_of_string indent
    ++ list_ascii_of_string close ++ rest.
Proof.
  unfold bracket, newline. rewrite !chars_append, <- !app_assoc. reflexivity.
Qed.

Section Stringify.

Context `{Host}.

Variable keys : gmap string json → list string.

Lemma properties_text (t : json → string) (o : gmap string json) (ks : list string) :
  omap (fun k => (fun x => (QuoteJSONString k ++ ": " ++ x)%string) <$> (t <$> o) !! k) ks
  = map (fun kv => (QuoteJSONString kv.1 ++ ": " ++ t kv.2)%string)
      (omap (fun k => (fun v => (k, v)) <$> o !! k) ks).
Proof.
  induction ks as [|k ks IH]; [reflexivity|]. cbn [omap list_omap].
  rewrite lookup_fmap. destruct (o !! k) as [v|]; cbn; now rewrite IH.
Qed.

Lemma reads_stringify (n : nat) :
  (∀ o k, is_Some (o !! k) → k ∈ keys o) →
  ∀ v, (json_size v ≤ n)%nat → number_free v = true →
  ∀ indent, blank indent → reads v (SerializeJSONProperty keys indent v).
Proof.
  intros Hkeys. induction n as [|n IH]; intros v Hn Hv indent Hind.
  { destruct v; cbn [json_size] in Hn; lia. }
  destruct v as [|[]|m e|s|l|o].
  - exists 1%nat. intros [|f] rest Hf; [lia|]. reflexivity.
  - exists 1%nat. intros [|f] rest Hf; [lia|]. reflexivity.
  - exists 1%nat. intros [|f] rest Hf; [lia|]. reflexivity.
  - discriminate.
  - apply reads_string.
  - cbn [SerializeJSONProperty]. destruct l as [|x l].
    { exists 1%nat. intros [|f] rest Hf; [lia|]. reflexivity. }
    destruct (elements_join (SerializeJSONProperty keys (indent ++ "  ")) (indent ++ "  ")
                indent (x :: l)) as [F HF];
      [now apply blank_inner|exact Hind|done| |].
    { apply Forall_forall. intros y Hy. apply IH.
      - pose proof (json_size_elem _ _ Hy). lia.
      - exact (number_free_elem _ _ Hv Hy).
      - now apply blank_inner. }
    exists (S F). intros [|f] rest Hf; [lia|].
    cbn [map]. rewrite chars_bracket. cbn [list_ascii_of_string Datatypes.app].
    rewrite value_open_array. cbn [JSON.skip_ws]. change (JSON.is_ws "010") with true.
    cbn iota. rewrite skip_ws_blank by now apply blank_inner.
    specialize (HF f rest [] ltac:(lia)). cbn [map Datatypes.app] in HF.
    destruct (elements_head _ _ _ _ HF) as (c & r & E & Hc).
    rewrite E. apply Ascii.eqb_neq in Hc. rewrite Hc. rewrite <- E, <- elements_skip.
    exact HF.
  - cbn [SerializeJSONProperty]. cbn zeta. rewrite properties_text.
    pose proof (collect_properties o (keys o) (Hkeys o)) as Hall.
    pose proof (properties_lookup o (keys o)) as Hlook.
    destruct (omap (fun k => (fun v => (k, v)) <$> o !! k) (keys o)) as [|kv kvs] eqn:Ekv.
    { cbn [fold_left] in Hall. subst o.
      exists 1%nat. intros [|f] rest Hf; [lia|]. reflexivity. }
    destruct (members_join (SerializeJSONProperty keys (indent ++ "  ")) (indent ++ "  ")
                indent (kv :: kvs)) as [F HF];
      [now apply blank_inner|exact Hind|done| |].
    { eapply Forall_impl; [exact Hlook|]. intros [k y] Hy. cbn [fst snd] in *.
      apply IH.
      - pose proof (json_size_lookup _ _ _ Hy). lia.
      - exact (number_free_lookup _ _ _ Hv Hy).
      - now apply blank_inner. }
    exists (S F). intros [|f] rest Hf; [lia|].
    cbn [map]. rewrite chars_bracket. cbn [list_ascii_of_string Datatypes.app].
    rewrite value_open_object. cbn [JSON.skip_ws]. change (JSON.is_ws "010") with true.
    cbn iota. rewrite skip_ws_blank by now apply blank_inner.
    specialize (HF f rest ∅ ltac:(lia)). cbn [map] in HF. rewrite Hall in HF.
    destruct (members_head _ _ _ _ HF) as (c & r & E & Hc).
    rewrite E. apply Ascii.eqb_neq in Hc. rewrite Hc. rewrite <- E, <- members_skip.
    exact HF.
Qed.

End Stringify.

Lemma headerLines_strings (lines : list string) (o : gmap string json) :
  (∀ k v, o !! k = Some v → ∃ t, v = JStr t) →
  ∀ k v, fold_left headerLine lines o !! k = Some v → ∃ t, v = JStr t.
Proof.
  revert o. induction lines as [|line lines IH]; intros o Ho; [exact Ho|].
  cbn [fold_left]. apply IH. unfold headerLine.
  destruct (split ":" line !! 0%nat) as [k0|]; [|exact Ho].
  destruct (split ":" line !! 1%nat) as [v0|]; [|exact Ho].
  destruct (str_truthy k0 && str_truthy v0); [|exact Ho].
  unfold assign. destruct (String.eqb (trim k0) "__proto__"); [exact Ho|].
  intros k v. destruct (decide (trim k0 = k)) as [<-|Hk].
  - rewrite lookup_insert_eq. intros [= <-]. eauto.
  - rewrite lookup_insert_ne by exact Hk. apply Ho.
Qed.

Lemma strings_number_free (o : gmap string json) :
  (∀ k v, o !! k = Some v → ∃ t, v = JStr t) → number_free (JObj o) = true.
Proof.
  intros Ho. cbn [number_free]. apply bool_decide_eq_true.
  apply map_Forall_lookup. intros k b. rewrite lookup_fmap.
  destruct (o !! k) as [v|] eqn:Hk; [|discriminate].
  destruct (Ho k v Hk) as [t ->]. now intros [= <-].
Qed.

Lemma line_headers_number_free (headers : string) :
  JSON.parse headers = None → number_free (parseHeaders headers) = true.
Proof.
  intros Hp. destruct headers as [|c r]; [reflexivity|].
  rewrite parseHeaders_fallback by (discriminate || exact Hp).
  apply strings_number_free, headerLines_strings.
  intros k v Hk. now rewrite lookup_empty in Hk.
Qed.

Section Reload.

Context `{Host}.

Lemma stringify_read_back (keys : gmap string json → list string) (v : json) :
  (∀ o k, is_Some (o !! k) → k ∈ keys o) →
  number_free v = true →
  JSON.parse (stringify keys v) = Some v ∧ parseHeaders (stringify keys v) = v.
Proof.
  intros Hkeys Hv.
  assert (Hp : JSON.parse (stringify keys v) = Some v).
  { destruct (reads_stringify keys (json_size v) Hkeys v (le_n _) Hv "" (List.Forall_nil _))
      as [F HF].
    unfold JSON.parse, stringify. cbn zeta.
    set (l := list_ascii_of_string (SerializeJSONProperty keys "" v)) in *.
    specialize (HF (2 * length l + 2 + F)%nat [] ltac:(lia)).
    rewrite app_nil_r in HF.
    rewrite (proj1 (JSONFacts.fuel_adequate (2 * length l + 2)) l
               (2 * length l + 2 + F)%nat) in HF by lia.
    now rewrite HF. }
  split; [exact Hp|]. unfold parseHeaders. rewrite Hp.
  destruct (stringify keys v); [discriminate Hp|reflexivity].
Qed.

(** X17: for a value without numbers, and whatever the order in which the
    properties of its objects are written, [JSON.parse] reads the text of
    [JSON.stringify(v, null, 2)] back as [v], and so does [parseHeaders]. *)
Theorem stringify_then_parse (keys : gmap string json → list string) (v : json) :
  (∀ o k, is_Some (o !! k) → k ∈ keys o) →
  number_free v = true →
  JSON.parse (stringify keys v) = Some v ∧ parseHeaders (stringify keys v) = v.
Proof. exact (stringify_read_back keys v). Qed.

Lemma loadRequest_run (keys : gmap string json → list string) (req h : json)
    (m e b : string) s :
  get_prop (Some req) "method" = Some (JStr m) →
  get_prop (Some req) "endpoint" = Some (JStr e) →
  get_prop (Some req) "headers" = Some h →
  js_or (get_prop (Some req) "body") (JStr "") = JStr b →
  ∃ act, loadRequest keys req = Some act ∧
    act s = (inl tt,
             {| app := with_activeTab "builder"
                         (with_body b
                            (with_headers (stringify keys h)
                               (with_endpoint e (with_method m (app s)))));
                world := world s; log := log s |}).
Proof.
  intros Hm He Hh Hb. unfold loadRequest. rewrite Hm, He, Hh, Hb. cbn [text_of].
  eexists. split; [reflexivity|]. destruct s as [a w l]. reflexivity.
Qed.

(** X18: [loadRequest] on a saved request with text method and endpoint,
    headers without numbers and a body that is text, [null] or absent: it
    sends nothing and shows nothing, touches only the four request fields
    and the tab, shows an absent or [null] body as the empty text, and the
    header text it writes is read back by [parseHeaders] as the saved
    headers, so that the next call carries them over the two fixed ones. *)
Theorem loadRequest_restores_headers (keys : gmap string json → list string)
    (req h : json) (m e : string) s :
  (∀ o k, is_Some (o !! k) → k ∈ keys o) →
  get_prop (Some req) "method" = Some (JStr m) →
  get_prop (Some req) "endpoint" = Some (JStr e) →
  get_prop (Some req) "headers" = Some h →
  number_free h = true →
  (∃ b, get_prop (Some req) "body" = Some (JStr b))
  ∨ get_prop (Some req) "body" = Some JNull
  ∨ get_prop (Some req) "body" = None →
  ∃ act, loadRequest keys req = Some act ∧
    let s' := (act s).2 in
    (act s).1 = inl tt ∧ log s' = log s ∧ world s' = world s ∧
    method (app s') = m ∧ endpoint (app s') = e ∧ activeTab (app s') = "builder" ∧
    body (app s')
      = match get_prop (Some req) "body" with Some (JStr b) => b | _ => "" end ∧
    parseHeaders (headers (app s')) = h ∧
    requestHeaders (figmaToken (app s')) (headers (app s'))
      = spread h ∪ fixedHeaders (figmaToken (app s)) ∧
    figmaToken (app s') = figmaToken (app s) ∧
    showTokenDialog (app s') = showTokenDialog (app s) ∧
    response_ (app s') = response_ (app s) ∧
    loading (app s') = loading (app s) ∧
    savedRequests (app s') = savedRequests (app s) ∧
    history (app s') = history (app s) ∧
    selectedCategory (app s') = selectedCategory (app s).
Proof.
  intros Hkeys Hm He Hh Hv Hb.
  assert (Hor : js_or (get_prop (Some req) "body") (JStr "")
                = JStr match get_prop (Some req) "body" with
                       | Some (JStr b) => b
                       | _ => ""
                       end).
  { destruct Hb as [[b ->]|[->| ->]]; [|reflexivity..]. now destruct b. }
  destruct (loadRequest_run keys req h m e _ s Hm He Hh Hor) as (act & Hact & Hrun).
  exists act. split; [exact Hact|]. rewrite Hrun. cbn [fst snd app log world].
  destruct (stringify_read_back keys h Hkeys Hv) as [_ Hparse].
  repeat (split; [reflexivity|]).
  split; [exact Hparse|]. split; [|repeat split].
  unfold requestHeaders. cbn [headers with_activeTab with_body with_headers].
  now rewrite Hparse.
Qed.

Lemma save_payload_props (c : App) (n : string) :
  get_prop (Some (save_payload c n)) "method" = Some (JStr (method c)) ∧
  get_prop (Some (save_payload c n)) "endpoint" = Some (JStr (endpoint c)) ∧
  get_prop (Some (save_payload c n)) "headers" = Some (parseHeaders (headers c)) ∧
  get_prop (Some (save_payload c n)) "body" = Some (JStr (body c)).
Proof. unfold save_payload. cbn [get_prop]. repeat split; now lookup_keys. Qed.

(** X19: saving and loading again.  If the server hands a saved request back
    with the method, endpoint, headers and body that [saveRequest] posted,
    and the header text of the form was in the line format (or was JSON
    without numbers), then [loadRequest] brings back the same method,
    endpoint and body text; the header text is rewritten as JSON but reads
    back as the same headers, so that with the same token the reloaded form
    sends exactly the call the saved form would have sent. *)
Theorem saved_request_reloads_unchanged (keys : gmap string json → list string)
    (c : App) (n : string) (req : json) s :
  (∀ o k, is_Some (o !! k) → k ∈ keys o) →
  Forall (fun k => get_prop (Some req) k = get_prop (Some (save_payload c n)) k)
    ["method"; "endpoint"; "headers"; "body"] →
  JSON.parse (headers c) = None ∨ number_free (parseHeaders (headers c)) = true →
  ∃ act, loadRequest keys req = Some act ∧
    let a' := app (act s).2 in
    method a' = method c ∧ endpoint a' = endpoint c ∧ body a' = body c ∧
    headers a' = stringify keys (parseHeaders (headers c)) ∧
    parseHeaders (headers a') = parseHeaders (headers c) ∧
    body_value a' = body_value c ∧
    (figmaToken (app s) = figmaToken c → ∀ b, outbound a' b = outbound c b).
Proof.
  intros Hkeys Hreq Hfmt.
  destruct (save_payload_props c n) as (Pm & Pe & Ph & Pb).
  apply Forall_cons in Hreq as [Hm Hreq]. apply Forall_cons in Hreq as [He Hreq].
  apply Forall_cons in Hreq as [Hh Hreq]. apply Forall_cons in Hreq as [Hb _].
  rewrite Pm in Hm. rewrite Pe in He. rewrite Ph in Hh. rewrite Pb in Hb.
  assert (Hv : number_free (parseHeaders (headers c)) = true).
  { destruct Hfmt as [Hp|Hv]; [now apply line_headers_number_free|exact Hv]. }
  assert (Hor : js_or (get_prop (Some req) "body") (JStr "") = JStr (body c)).
  { rewrite Hb. now destruct (body c). }
  destruct (loadRequest_run keys req _ _ _ _ s Hm He Hh Hor) as (act & Hact & Hrun).
  exists act. split; [exact Hact|]. rewrite Hrun. cbn [fst snd app].
  destruct (stringify_read_back keys _ Hkeys Hv) as [_ Hparse].
  repeat (split; [reflexivity|]). split; [exact Hparse|]. split; [reflexivity|].
  intros Ht b. unfold outbound, apiEndpoint, proxy_payload, requestHeaders.
  cbn [method endpoint headers figmaToken with_activeTab with_body with_headers
       with_endpoint with_method].
  now rewrite Hparse, Ht.
Qed.

End Reload.

Lemma map_to_list_covers (o : gmap string json) (k : string) :
  is_Some (o !! k) → k ∈ (map_to_list o).*1.
Proof.
  intros [v Hv]. apply list_elem_of_fmap. exists (k, v).
  split; [reflexivity|]. now apply elem_of_map_to_list.
Qed.

Lemma read_back_example :
  let v := JObj (<["Accept" := JArr [JStr "a/b"; JNull; JBool true]]>
                 (<["X-Foo" := JObj (<["bar" := JStr "1"]> ∅)]> ∅)) in
  JSON.parse (@stringify offline (fun o => (map_to_list o).*1) v) = Some v.
Proof.
  cbv zeta.
  refine (proj1 (@stringify_then_parse offline (fun o => (map_to_list o).*1) _
                   map_to_list_covers _)).
  run.
Defined.

Lemma load_example :
  let req := Backend.saved_json
               {| Backend.id := "7"; Backend.name := "comments";
                  Backend.sr_method := "GET";
                  Backend.sr_endpoint := "/files/abc/comments";
                  Backend.sr_headers := JObj (<["X-Foo" := JStr "bar"]> ∅);
                  Backend.sr_body := ""; Backend.category := "Comments";
                  Backend.is_favorite := true; Backend.created_at := 0 |} in
  let s := unreachable (with_body "{" (with_figmaToken "figd_token" initial)) in
  ∃ act, @loadRequest offline (fun o => (map_to_list o).*1) req = Some act ∧
    body (app (act s).2) = "" ∧
    requestHeaders (figmaToken (app (act s).2)) (headers (app (act s).2))
    = <["X-Foo" := JStr "bar"]> ∅ ∪ fixedHeaders "figd_token".
Proof.
  cbv zeta.
  destruct (@loadRequest_restores_headers offline (fun o => (map_to_list o).*1)
              (Backend.saved_json
                 {| Backend.id := "7"; Backend.name := "comments";
                    Backend.sr_method := "GET";
                    Backend.sr_endpoint := "/files/abc/comments";
                    Backend.sr_headers := JObj (<["X-Foo" := JStr "bar"]> ∅);
                    Backend.sr_body := ""; Backend.category := "Comments";
                    Backend.is_favorite := true; Backend.created_at := 0 |})
              (JObj (<["X-Foo" := JStr "bar"]> ∅)) "GET" "/files/abc/comments"
              (unreachable (with_body "{" (with_figmaToken "figd_token" initial)))
              map_to_list_covers ltac:(run) ltac:(run) ltac:(run) ltac:(run)
              ltac:(left; exists ""; run))
    as (act & Hact & _ & _ & _ & _ & _ & _ & Hb & _ & Hh & _).
  exists act. split; [exact Hact|]. split; [exact Hb|exact Hh].
Defined.

Lemma reload_example :
  let c := Backend.demo_app "POST" "/files/abc/comments" "X-Foo: bar
Accept : text/plain" "{}" in
  let s := unreachable (with_figmaToken "figd_token" initial) in
  ∃ act, @loadRequest offline (fun o => (map_to_list o).*1) (save_payload c "mine")
         = Some act ∧
    headers (app (act s).2) ≠ headers c ∧
    ∀ b, @outbound offline (app (act s).2) b = @outbound offline c b.
Proof.
  cbv zeta.
  destruct (@saved_request_reloads_unchanged offline (fun o => (map_to_list o).*1)
              (Backend.demo_app "POST" "/files/abc/comments" "X-Foo: bar
Accept : text/plain" "{}") "mine"
              (save_payload (Backend.demo_app "POST" "/files/abc/comments" "X-Foo: bar
Accept : text/plain" "{}") "mine")
              (unreachable (with_figmaToken "figd_token" initial))
              map_to_list_covers
              ltac:(repeat constructor) ltac:(left; run))
    as (act & Hact & _ & _ & _ & Hh & _ & _ & Hout).
  exists act. split; [exact Hact|]. split; [|exact (Hout eq_refl)].
  rewrite Hh. vm_compute. discriminate.
Defined.
